(** * Telebiz: reminder-time resolver and entity-form schema builder

    A shallow embedding of the reminder tool executors ([parseRemindAt],
    [executeCreateReminder], [executeUpdateReminder]), of the form-schema
    builder ([sortFieldsByPriority], [buildFormFieldsFromProperties], the
    static [forms] table, [MINIMAL_FIELDS], the [formFields] memo of
    [EntityForm]) and of [normalizeFieldValue], followed by the properties
    of the specification that were checked against them.

    Conventions.
    - A JavaScript string is a [string] of 8-bit code units (the Latin-1
      part of UTF-16).
    - A JavaScript number is a [Number]: [NaN] or an integer.  Every number
      the modelled code computes is an integer; those that end up in a
      valid [Date] are below 2^53 in absolute value, where double arithmetic
      is exact.
    - [undefined] results are [None]; a [Date] carries its time value.
    - Host built-ins the code calls but does not define (the time zone, the
      legacy date-string parser, [toISOString]) and modules of the
      repository that are imported but not part of the verified slice
      ([fieldConfig], [useProviderProperty], the Notion converter) are
      Section variables. *)

From Stdlib Require Import ZArith List Bool Ascii String Lia Permutation.
From Stdlib Require Import Sorted DecimalString DecimalZ DecimalN DecimalPos.
Import ListNotations.
Set Warnings "-register-all".
Local Open Scope string_scope.
Local Open Scope Z_scope.
Local Open Scope list_scope.

(* ================================================================== *)
(** * Part I.  Definitions                                              *)
(* ================================================================== *)

(** ** JavaScript strings *)

Module JsStr.

Definition code (c : ascii) : nat := nat_of_ascii c.

(** [WhiteSpace] and [LineTerminator] code units below 256: TAB, LF, VT,
    FF, CR, SP and NBSP.  Used by [trim] and by the [\s] class. *)
Definition isWhiteSpace (c : ascii) : bool :=
  let n := code c in
  ((9 <=? n) && (n <=? 13) || (n =? 32) || (n =? 160))%nat.

Definition isDigit (c : ascii) : bool :=
  let n := code c in ((48 <=? n) && (n <=? 57))%nat.

(** [String.prototype.toLowerCase], one code unit at a time. *)
Definition lowerChar (c : ascii) : ascii :=
  let n := code c in
  if ((65 <=? n) && (n <=? 90))%nat then ascii_of_nat (n + 32)
  else if ((192 <=? n) && (n <=? 222) && negb (n =? 215))%nat
       then ascii_of_nat (n + 32)
       else c.

Fixpoint toLowerCase (s : string) : string :=
  match s with
  | EmptyString => EmptyString
  | String c s' => String (lowerChar c) (toLowerCase s')
  end.

Fixpoint trimStart (s : string) : string :=
  match s with
  | String c s' => if isWhiteSpace c then trimStart s' else s
  | EmptyString => EmptyString
  end.

(** Drops the white space that ends the string: a character is kept when
    it is not white space or when something is kept after it. *)
Fixpoint trimEnd (s : string) : string :=
  match s with
  | EmptyString => EmptyString
  | String c s' =>
      match trimEnd s' with
      | EmptyString => if isWhiteSpace c then EmptyString else String c EmptyString
      | t => String c t
      end
  end.

Definition trim (s : string) : string := trimEnd (trimStart s).

Fixpoint startsWith (s p : string) : bool :=
  match p, s with
  | EmptyString, _ => true
  | String a p', String b s' => Ascii.eqb a b && startsWith s' p'
  | String _ _, EmptyString => false
  end.

(** [s.includes(c)] for a one-character needle. *)
Fixpoint includesChar (s : string) (c : ascii) : bool :=
  match s with
  | EmptyString => false
  | String b s' => Ascii.eqb b c || includesChar s' c
  end.

(** [s.split(sep)] for a one-character separator: never empty, the empty
    string splits into one empty segment. *)
Fixpoint split (sep : ascii) (s : string) : list string :=
  match s with
  | EmptyString => [EmptyString]
  | String c s' =>
      if Ascii.eqb c sep then EmptyString :: split sep s'
      else match split sep s' with
           | seg :: segs => String c seg :: segs
           | [] => [String c EmptyString]
           end
  end.

Definition isEmpty (s : string) : bool :=
  match s with EmptyString => true | _ => false end.

(** Every character of [s] passes the test [f]. *)
Fixpoint every (f : ascii -> bool) (s : string) : bool :=
  match s with
  | EmptyString => true
  | String c s' => f c && every f s'
  end.

Fixpoint join (sep : string) (l : list string) : string :=
  match l with
  | [] => EmptyString
  | [s] => s
  | s :: l' => (s ++ sep ++ join sep l')%string
  end.

End JsStr.

(** ** JavaScript numbers *)

Inductive Number : Type :=
| NaN
| Int (z : Z).

Module Num.

Definition add (a b : Number) : Number :=
  match a, b with Int x, Int y => Int (x + y) | _, _ => NaN end.

Definition mul (a b : Number) : Number :=
  match a, b with Int x, Int y => Int (x * y) | _, _ => NaN end.

(** [a < b]: false as soon as one side is [NaN]. *)
Definition ltb (a b : Number) : bool :=
  match a, b with Int x, Int y => x <? y | _, _ => false end.

(** [a === b] on numbers. *)
Definition eqb (a b : Number) : bool :=
  match a, b with Int x, Int y => x =? y | _, _ => false end.

Definition toBoolean (a : Number) : bool :=
  match a with Int x => negb (x =? 0) | NaN => false end.

(** [Number.prototype.toString] in base 10 (integers print in plain
    decimal notation; the exponent form of magnitudes from 1e21 on is not
    modelled). *)
Definition toString (a : Number) : string :=
  match a with
  | NaN => "NaN"
  | Int x => NilZero.string_of_int (Z.to_int x)
  end.

Definition digitValue (c : ascii) : Z := Z.of_nat (JsStr.code c) - 48.

(** The digits that start [s], read in base 10 from the accumulator
    [acc]; [seen] records that at least one digit was read. *)
Fixpoint readDigits (s : string) (acc : Z) (seen : bool) : Number :=
  match s with
  | String c s' =>
      if JsStr.isDigit c then readDigits s' (10 * acc + digitValue c) true
      else if seen then Int acc else NaN
  | EmptyString => if seen then Int acc else NaN
  end.

(** [parseInt(s, 10)]: leading white space, an optional sign, then the
    longest run of decimal digits; [NaN] when there is no digit. *)
Definition parseInt (s : string) : Number :=
  match JsStr.trimStart s with
  | String "-" s' =>
      match readDigits s' 0 false with Int x => Int (- x) | NaN => NaN end
  | String "+" s' => readDigits s' 0 false
  | s' => readDigits s' 0 false
  end.

End Num.

(** ** JavaScript values (the [unknown] handed to [normalizeFieldValue]) *)

Inductive JsValue : Type :=
| JsUndefined
| JsNull
| JsBool (b : bool)
| JsNumber (n : Number)
| JsString (s : string)
| JsArray (items : list JsValue)
| JsObject (props : list (string * JsValue)).

Module Js.

(** [ToBoolean]: what [!value] and [Boolean(value)] test. *)
Definition toBoolean (v : JsValue) : bool :=
  match v with
  | JsUndefined | JsNull => false
  | JsBool b => b
  | JsNumber n => Num.toBoolean n
  | JsString s => negb (JsStr.isEmpty s)
  | JsArray _ | JsObject _ => true
  end.

(** [typeof v === 'object'] for a truthy [v]. *)
Definition isObject (v : JsValue) : bool :=
  match v with JsArray _ | JsObject _ | JsNull => true | _ => false end.

Definition isNullish (v : JsValue) : bool :=
  match v with JsUndefined | JsNull => true | _ => false end.

Definition isUndefined (v : JsValue) : bool :=
  match v with JsUndefined => true | _ => false end.

Fixpoint lookup (k : string) (props : list (string * JsValue)) : JsValue :=
  match props with
  | [] => JsUndefined
  | (k', v) :: rest => if String.eqb k k' then v else lookup k rest
  end.

(** [v.k] for one of the attribute names read by [toPrimitiveValue]; an
    array has no own property of these names. *)
Definition get (v : JsValue) (k : string) : JsValue :=
  match v with
  | JsObject props => lookup k props
  | _ => JsUndefined
  end.

(** [a ?? b] *)
Definition coalesce (a b : JsValue) : JsValue :=
  if isNullish a then b else a.

(** [String(v)].  An array prints its elements joined by commas, with
    [undefined] and [null] elements printed as nothing; a plain object
    prints as [[object Object]]. *)
Fixpoint toString (v : JsValue) : string :=
  match v with
  | JsUndefined => "undefined"
  | JsNull => "null"
  | JsBool true => "true"
  | JsBool false => "false"
  | JsNumber n => Num.toString n
  | JsString s => s
  | JsArray items =>
      JsStr.join ","
        (map (fun x => if isNullish x then EmptyString else toString x) items)
  | JsObject _ => "[object Object]"
  end.

End Js.

(** ** forms.ts: the form field descriptor *)

Inductive FieldType : Type :=
| text | number | date | select | textarea | multiselect.

Record FormFieldOption : Type := mkOption {
  opt_label : string;
  opt_value : string
}.

(** [FormFieldOption[] | Record<string, FormFieldOption[]>] *)
Inductive FieldOptions : Type :=
| OptionList (l : list FormFieldOption)
| OptionRecord (m : list (string * list FormFieldOption)).

(** [string | string[]] *)
Inductive FieldValue : Type :=
| Single (s : string)
| Many (l : list string).

Record FormField : Type := mkField {
  type : FieldType;
  label : option string;
  providerLabel : option string;
  value : FieldValue;
  name : string;
  options : option FieldOptions;
  dependsOn : option string;
  metadata : option JsValue;
  isFutureOnly : option bool
}.

Definition FieldType_eqb (a b : FieldType) : bool :=
  match a, b with
  | text, text | number, number | date, date | select, select
  | textarea, textarea | multiselect, multiselect => true
  | _, _ => false
  end.

(** ** normalizeFieldValue.ts *)

Definition toPrimitiveValue (value : JsValue) : JsValue :=
  if negb (Js.toBoolean value) then JsUndefined
  else if Js.isObject value then
    let candidate :=
      Js.coalesce
        (Js.coalesce
           (Js.coalesce
              (Js.coalesce (Js.get value "value") (Js.get value "id"))
              (Js.get value "key"))
           (Js.get value "name"))
        (Js.get value "label") in
    if negb (Js.toBoolean candidate) then JsUndefined else candidate
  else value.

Definition normalizeFieldValue (field : FormField) (value : JsValue) : JsValue :=
  if negb (Js.toBoolean value) then JsUndefined
  else
    match type field with
    | multiselect =>
        match value with
        | JsArray items =>
            JsArray
              (map (fun item => JsString (Js.toString item))
                 (filter Js.toBoolean (map toPrimitiveValue items)))
        | JsString s =>
            JsArray
              (map JsString
                 (filter (fun item => negb (JsStr.isEmpty item))
                    (map JsStr.trim (JsStr.split "," s))))
        | _ =>
            let primitive := toPrimitiveValue value in
            if Js.isUndefined primitive then JsArray []
            else JsArray [JsString (Js.toString primitive)]
        end
    | select =>
        let primitive :=
          match value with
          | JsArray items => toPrimitiveValue (nth 0 items JsUndefined)
          | _ => toPrimitiveValue value
          end in
        if Js.isUndefined primitive then JsString ""
        else JsString (Js.toString primitive)
    | _ => value
    end.

(** ** Regular expressions

    The fragment of ECMAScript regular expressions used by [parseRemindAt],
    with the backtracking semantics of the language specification: a
    matcher takes a match state and a continuation, greedy quantifiers try
    the longer match first, an alternation tries its left branch first. *)

Module RegExp.

Inductive CharClass : Type :=
| Chr (c : ascii)      (* a literal character *)
| ClassD               (* \d *)
| ClassS.              (* \s *)

Inductive Pattern : Type :=
| Empty
| Atom (cc : CharClass)
| Seq (p q : Pattern)
| Alt (p q : Pattern)
| Opt (p : Pattern)                 (* p?   greedy *)
| Star (cc : CharClass)             (* cc*  greedy *)
| Group (i : nat) (p : Pattern)     (* capturing group number i *)
| Bol                               (* ^ *)
| Eol.                              (* $ *)

Definition Plus (cc : CharClass) : Pattern := Seq (Atom cc) (Star cc).

(** The characters of [s], in sequence. *)
Fixpoint Lit (s : string) : Pattern :=
  match s with
  | EmptyString => Empty
  | String c EmptyString => Atom (Chr c)
  | String c s' => Seq (Atom (Chr c)) (Lit s')
  end.

Definition classMem (cc : CharClass) (c : ascii) : bool :=
  match cc with
  | Chr a => Ascii.eqb a c
  | ClassD => JsStr.isDigit c
  | ClassS => JsStr.isWhiteSpace c
  end.

Record MatchState : Type := mkState {
  endIndex : nat;                     (* characters consumed so far *)
  remaining : string;                 (* the input from [endIndex] on *)
  captures : list (nat * string)      (* most recent capture first *)
}.

Definition Continuation : Type := MatchState -> option MatchState.

Fixpoint prefix (n : nat) (s : string) : string :=
  match n, s with
  | S n', String c s' => String c (prefix n' s')
  | _, _ => EmptyString
  end.

(** The text between the state [x] and a later state [y]: what [x] still
    had to read and [y] has read. *)
Definition matched (x y : MatchState) : string :=
  prefix (String.length (remaining x) - String.length (remaining y)) (remaining x).

(** [cc*]: as many characters of the class as possible, giving one back
    at a time while the continuation fails. *)
Fixpoint star (cc : CharClass) (s : string) (idx : nat)
    (caps : list (nat * string)) (c : Continuation) : option MatchState :=
  match s with
  | String ch s' =>
      if classMem cc ch then
        match star cc s' (S idx) caps c with
        | Some y => Some y
        | None => c (mkState idx s caps)
        end
      else c (mkState idx s caps)
  | EmptyString => c (mkState idx s caps)
  end.

Fixpoint matcher (p : Pattern) (x : MatchState) (c : Continuation)
    : option MatchState :=
  match p with
  | Empty => c x
  | Atom cc =>
      match remaining x with
      | String ch s' =>
          if classMem cc ch then c (mkState (S (endIndex x)) s' (captures x))
          else None
      | EmptyString => None
      end
  | Seq p1 p2 => matcher p1 x (fun y => matcher p2 y c)
  | Alt p1 p2 =>
      match matcher p1 x c with
      | Some y => Some y
      | None => matcher p2 x c
      end
  | Opt p1 =>
      match matcher p1 x c with
      | Some y => Some y
      | None => c x
      end
  | Star cc => star cc (remaining x) (endIndex x) (captures x) c
  | Group i p1 =>
      matcher p1 x (fun y =>
        c (mkState (endIndex y) (remaining y)
             ((i, matched x y) :: captures y)))
  | Bol => if (endIndex x =? 0)%nat then c x else None
  | Eol => match remaining x with EmptyString => c x | _ => None end
  end.

(** The first start index, from [idx] on, at which the pattern matches. *)
Fixpoint search (p : Pattern) (idx : nat) (s : string) : option MatchState :=
  match matcher p (mkState idx s []) Some with
  | Some y => Some y
  | None =>
      match s with
      | String _ s' => search p (S idx) s'
      | EmptyString => None
      end
  end.

(** [input.match(p)] for a pattern without the [g] flag. *)
Definition exec (p : Pattern) (input : string) : option MatchState :=
  search p 0 input.

(** [m[i]]: [None] is [undefined], a group that took no part. *)
Fixpoint capture (caps : list (nat * string)) (i : nat) : option string :=
  match caps with
  | [] => None
  | (j, s) :: rest => if (i =? j)%nat then Some s else capture rest i
  end.

Definition group (m : MatchState) (i : nat) : option string :=
  capture (captures m) i.

End RegExp.

(** ** The built-in [Date]

    Time values are milliseconds since the epoch; the day and calendar
    arithmetic follows the abstract operations of the language
    specification.  The host's time zone is the Section variable
    [LocalTZA], read as in the specification: [LocalTZA t true] is the
    offset of local time at the UTC time [t], [LocalTZA t false] the offset
    to subtract from the local time [t]. *)

Module JsDate.

Definition msPerSecond : Z := 1000.
Definition msPerMinute : Z := 60000.
Definition msPerHour : Z := 3600000.
Definition msPerDay : Z := 86400000.
Definition maxTime : Z := 8640000000000000.

Definition Day (t : Z) : Z := t / msPerDay.
Definition TimeWithinDay (t : Z) : Z := t mod msPerDay.

Definition DaysInYear (y : Z) : Z :=
  if negb (y mod 4 =? 0) then 365
  else if negb (y mod 100 =? 0) then 366
  else if negb (y mod 400 =? 0) then 365
  else 366.

Definition DayFromYear (y : Z) : Z :=
  365 * (y - 1970) + (y - 1969) / 4 - (y - 1901) / 100 + (y - 1601) / 400.

(** The largest year that starts on or before the day of [t]: an estimate
    from the mean length of a year, corrected by one either way. *)
Definition YearFromTime (t : Z) : Z :=
  let d := Day t in
  let y := 1970 + (400 * d) / 146097 in
  if d <? DayFromYear y then y - 1
  else if DayFromYear (y + 1) <=? d then y + 1
  else y.

Definition InLeapYear (t : Z) : Z :=
  if DaysInYear (YearFromTime t) =? 366 then 1 else 0.

Definition DayWithinYear (t : Z) : Z := Day t - DayFromYear (YearFromTime t).

(** The day of the year on which month [m] (0 to 11) starts. *)
Definition monthStart (m leap : Z) : Z :=
  match m with
  | 0 => 0
  | 1 => 31
  | 2 => 59 + leap
  | 3 => 90 + leap
  | 4 => 120 + leap
  | 5 => 151 + leap
  | 6 => 181 + leap
  | 7 => 212 + leap
  | 8 => 243 + leap
  | 9 => 273 + leap
  | 10 => 304 + leap
  | _ => 334 + leap
  end.

Definition MonthFromTime (t : Z) : Z :=
  let d := DayWithinYear t in
  let leap := InLeapYear t in
  if d <? 31 then 0
  else if d <? 59 + leap then 1
  else if d <? 90 + leap then 2
  else if d <? 120 + leap then 3
  else if d <? 151 + leap then 4
  else if d <? 181 + leap then 5
  else if d <? 212 + leap then 6
  else if d <? 243 + leap then 7
  else if d <? 273 + leap then 8
  else if d <? 304 + leap then 9
  else if d <? 334 + leap then 10
  else 11.

Definition DateFromTime (t : Z) : Z :=
  DayWithinYear t - monthStart (MonthFromTime t) (InLeapYear t) + 1.

Definition MakeTime (hour min sec ms : Z) : Z :=
  hour * msPerHour + min * msPerMinute + sec * msPerSecond + ms.

Definition MakeDay (year month dt : Z) : Z :=
  let ym := year + month / 12 in
  let mn := month mod 12 in
  let leap := if DaysInYear ym =? 366 then 1 else 0 in
  DayFromYear ym + monthStart mn leap + dt - 1.

Definition MakeDate (day time : Z) : Z := day * msPerDay + time.

Definition TimeClip (t : Z) : Number :=
  if maxTime <? Z.abs t then NaN else Int t.

Record Date : Type := mkDate { getTime : Number }.

(** [new Date(n)] for a number [n]. *)
Definition ofNumber (n : Number) : Date :=
  match n with
  | Int t => mkDate (TimeClip t)
  | NaN => mkDate NaN
  end.

Definition isValid (d : Date) : bool :=
  match getTime d with Int _ => true | NaN => false end.

Section LocalTime.

Variable LocalTZA : Z -> bool -> Z.

Definition LocalTime (t : Z) : Z := t + LocalTZA t true.
Definition UTC (t : Z) : Z := t - LocalTZA t false.

Definition getDate (d : Date) : Number :=
  match getTime d with
  | Int t => Int (DateFromTime (LocalTime t))
  | NaN => NaN
  end.

Definition setDate (d : Date) (dt : Number) : Date :=
  match getTime d, dt with
  | Int t, Int dt =>
      let t := LocalTime t in
      let newDate :=
        MakeDate (MakeDay (YearFromTime t) (MonthFromTime t) dt)
                 (TimeWithinDay t) in
      mkDate (TimeClip (UTC newDate))
  | _, _ => mkDate NaN
  end.

Definition setHours (d : Date) (hour min sec ms : Number) : Date :=
  match getTime d, hour, min, sec, ms with
  | Int t, Int h, Int m, Int s, Int milli =>
      let t := LocalTime t in
      let date := MakeDate (Day t) (MakeTime h m s milli) in
      mkDate (TimeClip (UTC date))
  | _, _, _, _, _ => mkDate NaN
  end.

(** The date of the local wall-clock time [hour]:[min]:00.000 counted
    from the midnight that starts the local day number [day]. *)
Definition atLocalTime (day hour min : Z) : Date :=
  mkDate (TimeClip (UTC (MakeDate day (MakeTime hour min 0 0)))).

End LocalTime.

End JsDate.

(** ** The reminders tool: [parseRemindAt] and the executors *)

Module Reminders.

Import RegExp JsDate.

(** [\s+(minute|hour|day|week)s?$], the end of the relative pattern. *)
Definition inUnitRe : Pattern :=
  Seq (Plus ClassS)
    (Seq (Group 2
            (Alt (Lit "minute")
               (Alt (Lit "hour") (Alt (Lit "day") (Lit "week")))))
       (Seq (Opt (Atom (Chr "s"))) Eol)).

(** [/^in\s+(\d+)\s+(minute|hour|day|week)s?$/] *)
Definition inRe : Pattern :=
  Seq Bol
    (Seq (Lit "in")
       (Seq (Plus ClassS)
          (Seq (Group 1 (Plus ClassD)) inUnitRe))).

(** [(\d{1,2})(?::(\d{2}))?\s*(am|pm)?], the tail shared by the two clock
    patterns. *)
Definition clockRe : Pattern :=
  Seq (Group 1 (Seq (Atom ClassD) (Opt (Atom ClassD))))
    (Seq (Opt (Seq (Atom (Chr ":"))
                 (Group 2 (Seq (Atom ClassD) (Atom ClassD)))))
       (Seq (Star ClassS)
          (Opt (Group 3 (Alt (Lit "am") (Lit "pm")))))).

(** [/(\d{1,2})(?::(\d{2}))?\s*(am|pm)?/] *)
Definition timeRe : Pattern := clockRe.

(** [/^(?:today\s+)?(?:at\s+)?(\d{1,2})(?::(\d{2}))?\s*(am|pm)?$/] *)
Definition todayRe : Pattern :=
  Seq Bol
    (Seq (Opt (Seq (Lit "today") (Plus ClassS)))
       (Seq (Opt (Seq (Lit "at") (Plus ClassS)))
          (Seq clockRe Eol))).

(** [{ minute: 60 * 1000, ... }[unit] || 0] *)
Definition unitMs (unit : option string) : Number :=
  match unit with
  | Some "minute" => Int (60 * 1000)
  | Some "hour" => Int (60 * 60 * 1000)
  | Some "day" => Int (24 * 60 * 60 * 1000)
  | Some "week" => Int (7 * 24 * 60 * 60 * 1000)
  | _ => Int 0
  end.

(** [parseInt(m[i], 10)]; an [undefined] argument reads as the string
    "undefined" and gives [NaN]. *)
Definition parseIntGroup (g : option string) : Number :=
  match g with
  | Some s => Num.parseInt s
  | None => NaN
  end.

(** The hour of a clock match, after the twelve-hour adjustment:
    [if (ampm === 'pm' && hours < 12) hours += 12;
     if (ampm === 'am' && hours === 12) hours = 0;] *)
Definition clockHours (m : MatchState) : Number :=
  let hours := parseIntGroup (group m 1) in
  let ampm := group m 3 in
  let hours :=
    match ampm with
    | Some "pm" => if Num.ltb hours (Int 12) then Num.add hours (Int 12) else hours
    | _ => hours
    end in
  match ampm with
  | Some "am" => if Num.eqb hours (Int 12) then Int 0 else hours
  | _ => hours
  end.

(** [m[2] ? parseInt(m[2], 10) : 0] *)
Definition clockMinutes (m : MatchState) : Number :=
  match group m 2 with
  | Some s => if JsStr.isEmpty s then Int 0 else Num.parseInt s
  | None => Int 0
  end.

Section Resolver.

Variable LocalTZA : Z -> bool -> Z.
(** The time value of [new Date(input)] for a string: the host's
    date-string parser. *)
Variable DateParse : string -> Number.

(** The absolute-date fast path does not take [input]: the negation of
    [!Number.isNaN(isoDate.getTime()) && input.includes('-')]. *)
Definition notAbsolute (input : string) : bool :=
  negb (isValid (mkDate (DateParse input)) && JsStr.includesChar input "-").

(** [now] is the time value of [new Date()]. *)
Definition parseRemindAt (input : string) (now : Z) : option Date :=
  let isoDate := mkDate (DateParse input) in
  if isValid isoDate && JsStr.includesChar input "-" then Some isoDate
  else
    let now := mkDate (Int now) in
    let lower := JsStr.trim (JsStr.toLowerCase input) in
    match exec inRe lower with
    | Some inMatch =>
        let amount := parseIntGroup (group inMatch 1) in
        let ms := unitMs (group inMatch 2) in
        Some (ofNumber (Num.add (getTime now) (Num.mul amount ms)))
    | None =>
        if JsStr.startsWith lower "tomorrow" then
          let tomorrow := now in
          let tomorrow :=
            setDate LocalTZA tomorrow
              (Num.add (getDate LocalTZA tomorrow) (Int 1)) in
          match exec timeRe lower with
          | Some timeMatch =>
              Some (setHours LocalTZA tomorrow
                      (clockHours timeMatch) (clockMinutes timeMatch)
                      (Int 0) (Int 0))
          | None =>
              Some (setHours LocalTZA tomorrow (Int 9) (Int 0) (Int 0) (Int 0))
          end
        else
          match exec todayRe lower with
          | Some todayMatch =>
              let today := now in
              Some (setHours LocalTZA today
                      (clockHours todayMatch) (clockMinutes todayMatch)
                      (Int 0) (Int 0))
          | None => None
          end
    end.

End Resolver.

(** *** Vocabulary for relative expressions *)

Inductive TimeUnit : Type := minute | hour | day | week.

Definition unitName (u : TimeUnit) : string :=
  match u with
  | minute => "minute" | hour => "hour" | day => "day" | week => "week"
  end.

(** The length of a unit, in seconds. *)
Definition unitSeconds (u : TimeUnit) : Z :=
  match u with
  | minute => 60 | hour => 3600 | day => 86400 | week => 604800
  end.

(** The phrase "in N unit" or "in N units", [N] written in decimal. *)
Definition inPhrase (n : Z) (u : TimeUnit) (plural : bool) : string :=
  ("in " ++ Num.toString (Int n) ++ " " ++ unitName u
     ++ (if plural then "s" else ""))%string.

(** *** The executors

    An executor runs against a [World]: the wall clock, the
    organisation selected in the global state, the requests sent to the
    reminder API so far and the number of [loadTelebizReminders]
    dispatches.  A computation returns a value or throws, and leaves a
    world. *)

Inductive Thrown : Type :=
| ErrorObject (message : string)     (* an instance of [Error] *)
| OtherThrown (v : JsValue).

Inductive Outcome (A : Type) : Type :=
| Returned (a : A)
| Threw (e : Thrown).
Arguments Returned {A} a.
Arguments Threw {A} e.

Inductive ApiRequest : Type :=
| CreateReminder (chat_id message_id description : JsValue)
    (remind_at : string) (organization_id : JsValue)
| UpdateReminder (reminderId : JsValue) (updateData : list (string * JsValue)).

Record World : Type := mkWorld {
  clock : Z;
  currentOrganizationId : JsValue;
  requests : list ApiRequest;
  reloads : nat
}.

Definition M (A : Type) : Type := World -> Outcome A * World.

Definition ret {A} (a : A) : M A := fun w => (Returned a, w).
Definition throw {A} (e : Thrown) : M A := fun w => (Threw e, w).
Definition bind {A B} (m : M A) (k : A -> M B) : M B :=
  fun w =>
    match m w with
    | (Returned a, w') => k a w'
    | (Threw e, w') => (Threw e, w')
    end.
Definition tryCatch {A} (m : M A) (handler : Thrown -> M A) : M A :=
  fun w =>
    match m w with
    | (Returned a, w') => (Returned a, w')
    | (Threw e, w') => handler e w'
    end.

Notation "x <- m ;; k" := (bind m (fun x => k))
  (at level 61, m at next level, right associativity).
Notation "m ;;; k" := (bind m (fun _ => k))
  (at level 61, right associativity).

Record ToolResult : Type := mkResult {
  success : bool;
  data : option JsValue;
  error : option string
}.

(** The result reported for an unparseable time. *)
Definition couldNotParse (input : string) : ToolResult :=
  mkResult false None (Some ("Could not parse reminder time: " ++ input)%string).

Record ToolArgs : Type := mkArgs {
  chatId : JsValue;
  messageId : JsValue;
  description : JsValue;
  remindAt : option string;       (* [None] when the argument is absent *)
  reminderId : JsValue
}.

Definition optString (s : option string) : JsValue :=
  match s with Some s => JsString s | None => JsUndefined end.

(** [error instanceof Error ? error.message : 'Unknown error'] *)
Definition errorMessage (e : Thrown) : string :=
  match e with
  | ErrorObject message => message
  | OtherThrown _ => "Unknown error"
  end.

Section Executors.

Variable LocalTZA : Z -> bool -> Z.
Variable DateParse : string -> Number.
(** [Date.prototype.toISOString] of a valid time value. *)
Variable isoFormat : Z -> string.
(** The answer of the reminder API to a request: the id of the reminder
    or a rejection. *)
Variable reminderApi : ApiRequest -> Outcome Z.

Definition toISOString (d : Date) : M string :=
  match getTime d with
  | Int t => ret (isoFormat t)
  | NaN => throw (ErrorObject "Invalid time value")
  end.

Definition callApi (req : ApiRequest) : M Z :=
  fun w =>
    (reminderApi req,
     mkWorld (clock w) (currentOrganizationId w) (req :: requests w) (reloads w)).

Definition loadTelebizReminders : M unit :=
  fun w =>
    (Returned tt,
     mkWorld (clock w) (currentOrganizationId w) (requests w) (S (reloads w))).

Definition getOrganizationId : M JsValue :=
  fun w => (Returned (currentOrganizationId w), w).

(** [parseRemindAt(args.remindAt as string)]: on an absent argument the
    call of [input.toLowerCase()] throws a [TypeError]. *)
Definition callParseRemindAt (arg : option string) : M (option Date) :=
  match arg with
  | Some input =>
      fun w => (Returned (parseRemindAt LocalTZA DateParse input (clock w)), w)
  | None =>
      throw (ErrorObject
               "Cannot read properties of undefined (reading 'toLowerCase')")
  end.

Definition executeCreateReminder (args : ToolArgs) : M ToolResult :=
  parsed <- callParseRemindAt (remindAt args) ;;
  match parsed with
  | None =>
      ret (mkResult false None
             (Some ("Could not parse reminder time: "
                      ++ Js.toString (optString (remindAt args)))%string))
  | Some remindAt' =>
      organizationId <- getOrganizationId ;;
      tryCatch
        (remind_at <- toISOString remindAt' ;;
         reminder <- callApi (CreateReminder (chatId args) (messageId args)
                                (description args) remind_at organizationId) ;;
         loadTelebizReminders ;;;
         iso <- toISOString remindAt' ;;
         ret (mkResult true
                (Some (JsObject
                         [("created", JsBool true);
                          ("reminderId", JsNumber (Int reminder));
                          ("chatId", chatId args);
                          ("description", description args);
                          ("remindAt", JsString iso)]))
                None))
        (fun error =>
           ret (mkResult false None
                  (Some ("Failed to create reminder: " ++ errorMessage error)%string)))
  end.

Definition truthyArg (arg : option string) : bool :=
  Js.toBoolean (optString arg).

Definition executeUpdateReminder (args : ToolArgs) : M ToolResult :=
  let updateData : list (string * JsValue) :=
    if Js.toBoolean (description args)
    then [("description", description args)] else [] in
  let continue (updateData : list (string * JsValue)) : M ToolResult :=
    tryCatch
      (callApi (UpdateReminder (reminderId args) updateData) ;;;
       loadTelebizReminders ;;;
       ret (mkResult true
              (Some (JsObject
                       ([("updated", JsBool true);
                         ("reminderId", reminderId args)] ++ updateData)))
              None))
      (fun error =>
         ret (mkResult false None
                (Some ("Failed to update reminder: " ++ errorMessage error)%string))) in
  if truthyArg (remindAt args) then
    parsed <- callParseRemindAt (remindAt args) ;;
    match parsed with
    | None =>
        ret (mkResult false None
               (Some ("Could not parse reminder time: "
                        ++ Js.toString (optString (remindAt args)))%string))
    | Some remindAt' =>
        remind_at <- toISOString remindAt' ;;
        continue (updateData ++ [("remind_at", JsString remind_at)])
    end
  else continue updateData.

End Executors.

End Reminders.

(** ** services/types: the declarations the builder reads *)

(** Modelled from the spec: the enum [ProviderEntityType] of
    services/types, "a closed category of business object (contact,
    company, deal, task, meeting, note, page, organization)"; these are
    also the keys of [MINIMAL_FIELDS] and of [forms]. *)
Inductive ProviderEntityType : Type :=
| Contact | Company | Deal | Task | Meeting | Page | Note | Organization.

(** Modelled from the spec: the enum [StandardPropertyType] of
    services/types, the semantic types of the fixed table
    "text/email/phone/url/boolean/user, textarea, number/currency,
    date/datetime, select/status/stage/enum, multiselect/set"; [OTHER]
    stands for any member that the [switch] statements leave to their
    [default] branch. *)
Inductive StandardPropertyType : Type :=
| TEXT | EMAIL | PHONE | URL | BOOLEAN | USER
| TEXTAREA
| NUMBER | CURRENCY
| DATE | DATETIME
| SELECT | STATUS | STAGE | ENUM
| MULTISELECT | SET
| OTHER.

(** Modelled from the spec: the interface [Property] of services/types,
    "standardized name, display label, semantic type tag, optional option
    list/mapping, optional dependency reference"; the fields are the ones
    [buildFormFieldsFromProperties] reads. *)
Module Property.
Record t : Type := mk {
  standardName : string;
  label : string;
  type : string;
  options : option FieldOptions;
  dependsOn : option string
}.
End Property.

(** Modelled from the spec: the interface [PropertiesByEntityType] of
    services/types, the property catalogue of one entity type or of one
    database, found by its [id]. *)
Module PropertiesByEntityType.
Record t : Type := mk {
  id : string;
  properties : list Property.t
}.
End PropertiesByEntityType.

(** ** forms.ts *)

Module Forms.

Definition mapPropertyTypeToFormType (propertyType : StandardPropertyType)
    : FieldType :=
  match propertyType with
  | TEXT | EMAIL | PHONE | URL | BOOLEAN | USER => text
  | TEXTAREA => textarea
  | NUMBER | CURRENCY => number
  | DATE | DATETIME => date
  | SELECT | STATUS | STAGE | ENUM => select
  | MULTISELECT | SET => multiselect
  | OTHER => text
  end.

Definition isMULTISELECT (propertyType : StandardPropertyType) : bool :=
  match propertyType with MULTISELECT => true | _ => false end.

(** *** Arrays *)

(** [l.includes(s)] *)
Definition includes (l : list string) (s : string) : bool :=
  existsb (String.eqb s) l.

(** [l.find(f)] *)
Definition find {A} (f : A -> bool) (l : list A) : option A := List.find f l.

(** [l.findIndex(f)]: [None] is the result -1. *)
Fixpoint findIndex {A} (f : A -> bool) (l : list A) : option nat :=
  match l with
  | [] => None
  | x :: l' =>
      if f x then Some O
      else match findIndex f l' with
           | Some i => Some (S i)
           | None => None
           end
  end.

(** [l.splice(i, 0, x)] *)
Definition splice {A} (l : list A) (i : nat) (x : A) : list A :=
  firstn i l ++ x :: skipn i l.

(** [l.sort(cmp)]: the sort of the language is stable, so for a
    comparator that ranks its arguments the result is the one of a
    stable insertion sort. *)
Fixpoint insertSorted {A} (cmp : A -> A -> Z) (x : A) (l : list A) : list A :=
  match l with
  | [] => [x]
  | y :: l' => if cmp x y <=? 0 then x :: y :: l' else y :: insertSorted cmp x l'
  end.

Fixpoint sort {A} (cmp : A -> A -> Z) (l : list A) : list A :=
  match l with
  | [] => []
  | x :: l' => insertSorted cmp x (sort cmp l')
  end.

(** *** sortFieldsByPriority *)

Definition titleFieldNames : list string := ["title"; "name"; "subject"].

Definition isTitleField (field : FormField) : bool :=
  includes titleFieldNames (name field)
  || includes titleFieldNames (JsStr.toLowerCase (name field)).

Definition typePriority (t : FieldType) : Z :=
  match t with
  | select => 2
  | multiselect => 3
  | text => 4
  | number => 5
  | date => 6
  | textarea => 7
  end.

(** The truth value of [f.dependsOn]: declared and not the empty string. *)
Definition hasDependsOn (f : FormField) : bool :=
  match dependsOn f with
  | Some s => negb (JsStr.isEmpty s)
  | None => false
  end.

(** [f.name === depField.dependsOn] *)
Definition isParentOf (depField f : FormField) : bool :=
  match dependsOn depField with
  | Some parent => String.eqb (name f) parent
  | None => false
  end.

Definition comparePriority (a b : FormField) : Z :=
  typePriority (type a) - typePriority (type b).

(** The body of [dependent.forEach]. *)
Definition insertDependent (sorted : list FormField) (depField : FormField)
    : list FormField :=
  match findIndex (isParentOf depField) sorted with
  | Some parentIndex => splice sorted (parentIndex + 1) depField
  | None => sorted ++ [depField]
  end.

Definition titleFields (fields : list FormField) : list FormField :=
  filter (fun f => negb (hasDependsOn f) && isTitleField f) fields.

Definition independent (fields : list FormField) : list FormField :=
  filter (fun f => negb (hasDependsOn f) && negb (isTitleField f)) fields.

Definition dependent (fields : list FormField) : list FormField :=
  filter hasDependsOn fields.

(** The array [sorted] before the dependent fields are inserted. *)
Definition sortedIndependent (fields : list FormField) : list FormField :=
  titleFields fields ++ sort comparePriority (independent fields).

Definition sortFieldsByPriority (fields : list FormField) : list FormField :=
  fold_left insertDependent (dependent fields) (sortedIndependent fields).

(** *** Vocabulary for the ordering of dependent fields

    [dependentsSpliced base deps] is [base] in which every field is
    followed by the fields of [deps] that name it as their parent, the
    latest of [deps] first, and which ends with the fields of [deps]
    whose parent is not the name of a field of [base], in their order. *)

Definition withChildren (deps : list FormField) (p : FormField) : list FormField :=
  p :: rev (filter (fun d => isParentOf d p) deps).

Definition orphans (base deps : list FormField) : list FormField :=
  filter (fun d => negb (existsb (isParentOf d) base)) deps.

Definition dependentsSpliced (base deps : list FormField) : list FormField :=
  flat_map (withChildren deps) base ++ orphans base deps.

(** [d] stands immediately after [p] in [out]. *)
Definition immediatelyAfter (out : list FormField) (p d : FormField) : Prop :=
  exists l1 l2, out = l1 ++ p :: d :: l2.

(** *** buildFormFieldsFromProperties *)

Definition nonEmptyOptions (o : option FieldOptions) : bool :=
  match o with
  | Some (OptionList l) => negb (Nat.eqb (List.length l) 0)
  | Some (OptionRecord m) => negb (Nat.eqb (List.length m) 0)
  | None => false
  end.

Section Builder.

(** [getPropertyType] of fieldConfig.ts. *)
Variable getPropertyType : Property.t -> string -> StandardPropertyType.
(** [formatSnakeCaseLabel] of util/general. *)
Variable formatSnakeCaseLabel : string -> string.
(** [toLocalISOString(new Date())] at the time of the call. *)
Variable nowLocalISO : string.

Definition getDefaultValue (propertyType : StandardPropertyType) : FieldValue :=
  match propertyType with
  | DATE | DATETIME => Single nowLocalISO
  | NUMBER | CURRENCY => Single "0"
  | MULTISELECT => Many []
  | _ => Single ""
  end.

(** The form type after the override on [property.type] and on the
    options. *)
(** [property.type === 'multiselect' ||
     propertyType === StandardPropertyType.MULTISELECT] *)
Definition declaresMultiselect (property : Property.t) (provider : string)
    : bool :=
  String.eqb (Property.type property) "multiselect"
  || isMULTISELECT (getPropertyType property provider).

Definition resolveFormType (property : Property.t) (provider : string)
    : FieldType :=
  let propertyType := getPropertyType property provider in
  let formType := mapPropertyTypeToFormType propertyType in
  if declaresMultiselect property provider
  then multiselect
  else
    match Property.options property with
    | Some (OptionList l) =>
        if negb (Nat.eqb (List.length l) 0) then select else formType
    | Some (OptionRecord m) =>
        if negb (Nat.eqb (List.length m) 0) then select else formType
    | None => formType
    end.

(** The callback of [fieldNames.map]. *)
Definition buildField (properties : list Property.t) (provider : string)
    (name : string) : option FormField :=
  match find (fun p => String.eqb (Property.standardName p) name) properties with
  | None => None
  | Some property =>
      let propertyType := getPropertyType property provider in
      let formType := resolveFormType property provider in
      let defaultValue := getDefaultValue propertyType in
      let defaultValue :=
        match formType, Property.options property with
        | select, Some (OptionList (first :: _)) => Single (opt_value first)
        | multiselect, _ => Many []
        | _, _ => defaultValue
        end in
      Some {| name := name;
              providerLabel := Some (formatSnakeCaseLabel (Property.label property));
              type := formType;
              options := Property.options property;
              dependsOn := Property.dependsOn property;
              value := defaultValue;
              label := None;
              metadata := None;
              isFutureOnly := None |}
  end.

(** [.map(...).filter((field) => field !== undefined)] *)
Fixpoint mapDefined {A B} (f : A -> option B) (l : list A) : list B :=
  match l with
  | [] => []
  | x :: l' =>
      match f x with
      | Some y => y :: mapDefined f l'
      | None => mapDefined f l'
      end
  end.

Definition buildFormFieldsFromProperties (fieldNames : list string)
    (properties : list Property.t) (provider : string) : list FormField :=
  let fields := mapDefined (buildField properties provider) fieldNames in
  sortFieldsByPriority fields.

End Builder.

(** *** The static forms *)

Definition staticField (t : FieldType) (l : string) (v : string) (n : string)
    (o : option FieldOptions) (future : option bool) : FormField :=
  {| type := t; label := Some l; providerLabel := None; value := Single v;
     name := n; options := o; dependsOn := None; metadata := None;
     isFutureOnly := future |}.

Section StaticForms.

(** [toLocalISOString(new Date())] at the time the module is loaded. *)
Variable loadLocalISO : string.

Definition forms (entityType : ProviderEntityType) : option (list FormField) :=
  match entityType with
  | Contact =>
      Some [ staticField text "RelationshipModal.Name" "" "name" None None;
             staticField text "RelationshipModal.Phone" "" "phone" None None;
             staticField text "RelationshipModal.Email" "" "email" None None ]
  | Company =>
      Some [ staticField text "RelationshipModal.Name" "" "name" None None;
             staticField text "RelationshipModal.Website" "" "website" None None ]
  | Deal =>
      Some [ staticField text "RelationshipModal.Title" "" "title" None None;
             staticField number "RelationshipModal.Amount" "0" "amount" None None;
             staticField date "RelationshipModal.CloseDate" loadLocalISO
               "closeDate" None None ]
  | Meeting =>
      Some [ staticField text "RelationshipModal.Title" "" "title" None None;
             staticField date "RelationshipModal.StartDate" loadLocalISO
               "startDate" None (Some true);
             staticField select "RelationshipModal.Duration" "15" "duration"
               (Some (OptionList [ mkOption "15" "15"; mkOption "30" "30";
                                   mkOption "45" "45"; mkOption "60" "60";
                                   mkOption "120" "120" ]))
               None ]
  | Note =>
      Some [ staticField textarea "RelationshipModal.Text" "" "body" None None ]
  | Task =>
      Some [ staticField text "RelationshipModal.Title" "" "subject" None None;
             staticField date "RelationshipModal.Date" loadLocalISO "date"
               None (Some true);
             staticField textarea "RelationshipModal.Text" "" "body" None None;
             staticField select "RelationshipModal.TaskType" "TODO" "taskType"
               (Some (OptionList [ mkOption "To-do" "TODO";
                                   mkOption "Email" "EMAIL";
                                   mkOption "Call" "CALL" ]))
               None;
             staticField select "RelationshipModal.Priority" "NONE" "priority"
               (Some (OptionList [ mkOption "Low" "LOW";
                                   mkOption "Medium" "MEDIUM";
                                   mkOption "High" "HIGH";
                                   mkOption "None" "NONE" ]))
               None ]
  | Organization => Some []
  | Page =>
      Some [ staticField text "RelationshipModal.Title" "" "title" None None ]
  end.

End StaticForms.

End Forms.

(** ** minimalFields.ts *)

Module MinimalFields.

Definition MINIMAL_FIELDS (entityType : ProviderEntityType) : list string :=
  match entityType with
  | Contact => ["name"; "email"; "phone"]
  | Company => ["name"; "website"; "industry"]
  | Deal => ["title"; "pipeline"; "stage"]
  | Task => ["subject"; "date"; "taskType"]
  | Meeting => ["title"; "startDate"; "duration"]
  | Page => []
  | Note => []
  | Organization => []
  end.

Definition getMinimalFieldsForEntity (entityType : ProviderEntityType)
    : list string :=
  MINIMAL_FIELDS entityType.

Definition hasMinimalFields (entityType : ProviderEntityType) : bool :=
  negb (Nat.eqb (List.length (MINIMAL_FIELDS entityType)) 0).

End MinimalFields.

(** ** ProviderEntityForm.tsx: the [formFields] memo of [EntityForm] *)

Module ProviderEntityForm.

Import Forms.

(** The prop [fieldFilter?: 'all' | 'minimal']. *)
Inductive FieldFilter : Type := all | minimal.

(** What [EntityForm] reads of its [entity] prop: the id and, for a page,
    the property values. *)
Record ProviderEntity : Type := mkEntity {
  entity_id : string;
  entity_properties : JsValue
}.

Definition isSelectLike (t : FieldType) : bool :=
  match t with select | multiselect => true | _ => false end.

(** [Array.isArray(o) && o.length > 0] *)
Definition isNonEmptyArray (o : option FieldOptions) : bool :=
  match o with
  | Some (OptionList (_ :: _)) => true
  | _ => false
  end.

Section EntityForm.

(** The string value of a member of the enum [ProviderEntityType]. *)
Variable entityTypeTag : ProviderEntityType -> string.
(** fieldConfig.ts *)
Variable hasDynamicFields : string -> ProviderEntityType -> bool.
Variable getFieldNamesForProvider : string -> ProviderEntityType -> list string.
Variable getPropertyType : Property.t -> string -> StandardPropertyType.
(** util/general, util/dates *)
Variable formatSnakeCaseLabel : string -> string.
Variable nowLocalISO : string.
Variable loadLocalISO : string.
(** The two functions returned by the hook [useProviderProperty(props)]. *)
Variable getPropertyLabel : list Property.t -> string -> option string.
Variable getPropertyOptions : list Property.t -> string -> option FieldOptions.
(** util/notion *)
Variable decodeEntityId : string -> list string.
Variable convertNotionPropertiesToFormFields :
  list Property.t -> JsValue -> list FormField.

(** [properties.find((e) => e.id === entityType)?.properties || []] *)
Definition propsOf (properties : list PropertiesByEntityType.t)
    (entityType : ProviderEntityType) : list Property.t :=
  match find (fun e => String.eqb (PropertiesByEntityType.id e) (entityTypeTag entityType)) properties with
  | Some e => PropertiesByEntityType.properties e
  | None => []
  end.

(** The callback of [baseFields.map]. *)
Definition enrich (props : list Property.t) (field : FormField) : FormField :=
  let updatedField :=
    {| type := type field; label := label field;
       providerLabel := getPropertyLabel props (name field);
       value := value field; name := name field; options := options field;
       dependsOn := dependsOn field; metadata := metadata field;
       isFutureOnly := isFutureOnly field |} in
  if isSelectLike (type field) then
    let options' := getPropertyOptions props (name field) in
    if isNonEmptyArray options' then
      {| type := type updatedField; label := label updatedField;
         providerLabel := providerLabel updatedField;
         value := value updatedField; name := name updatedField;
         options := options';
         dependsOn := dependsOn updatedField; metadata := metadata updatedField;
         isFutureOnly := isFutureOnly updatedField |}
    else updatedField
  else updatedField.

(** The callback of the [.filter] that hides select and multiselect
    fields without options. *)
Definition hasOptionsIfSelect (field : FormField) : bool :=
  if isSelectLike (type field) then isNonEmptyArray (options field) else true.

Definition formFields (provider : string) (entityType : ProviderEntityType)
    (entity : option ProviderEntity)
    (properties : list PropertiesByEntityType.t)
    (fieldFilter : FieldFilter) (databaseId : option string)
    : list FormField :=
  let props := propsOf properties entityType in
  let notion : option (list FormField) :=
    match entityType with
    | Page =>
        let dbId :=
          match entity with
          | Some pageEntity => nth_error (decodeEntityId (entity_id pageEntity)) 1
          | None => databaseId
          end in
        let entityProperties :=
          match dbId with
          | Some dbId =>
              match find (fun e => String.eqb (PropertiesByEntityType.id e) dbId) properties with
              | Some e => Some (PropertiesByEntityType.properties e)
              | None => None
              end
          | None => None
          end in
        match entityProperties with
        | Some (p :: ps) =>
            let pageProperties :=
              match entity with
              | Some pageEntity =>
                  if Js.toBoolean (entity_properties pageEntity)
                  then entity_properties pageEntity else JsObject []
              | None => JsObject []
              end in
            Some (convertNotionPropertiesToFormFields (p :: ps) pageProperties)
        | _ => None
        end
    | _ => None
    end in
  match notion with
  | Some fields => fields
  | None =>
      if hasDynamicFields provider entityType then
        let fieldNames := getFieldNamesForProvider provider entityType in
        buildFormFieldsFromProperties getPropertyType formatSnakeCaseLabel
          nowLocalISO fieldNames props provider
      else
        match forms loadLocalISO entityType with
        | None => []
        | Some baseFields =>
            filter hasOptionsIfSelect (map (enrich props) baseFields)
        end
  end.

End EntityForm.

End ProviderEntityForm.

(** ** Objects used as maps

    A JavaScript object whose keys are set one at a time, as a list of
    bindings: a key is bound at most once, setting a bound key replaces its
    value where it stands, setting a new key adds it at the end. *)

Module Obj.

Definition t (V : Type) : Type := list (string * V).

(** [o[k]] *)
Fixpoint get {V} (o : t V) (k : string) : option V :=
  match o with
  | [] => None
  | (k', v) :: o' => if String.eqb k' k then Some v else get o' k
  end.

(** [o[k] = v] *)
Fixpoint set {V} (o : t V) (k : string) (v : V) : t V :=
  match o with
  | [] => [(k, v)]
  | (k', v') :: o' =>
      if String.eqb k' k then (k, v) :: o' else (k', v') :: set o' k v
  end.

(** [Object.fromEntries(entries)] *)
Definition fromEntries {V} (entries : list (string * V)) : t V :=
  fold_left (fun o kv => set o (fst kv) (snd kv)) entries [].

Definition keys {V} (o : t V) : list string := map fst o.

End Obj.

(** ** The shape of a pattern *)

Module PatternShape.

Import RegExp.

(** Every match of the pattern reads a digit: the pattern goes through
    [\d] whichever branches it takes. *)
Fixpoint needsDigit (p : Pattern) : bool :=
  match p with
  | Atom ClassD => true
  | Seq p1 p2 => needsDigit p1 || needsDigit p2
  | Alt p1 p2 => needsDigit p1 && needsDigit p2
  | Group _ p1 => needsDigit p1
  | _ => false
  end.

Definition notDigit (c : ascii) : bool := negb (JsStr.isDigit c).

End PatternShape.

(** ** The reminders tool: listing, completing and deleting *)

Module ReminderList.

Import Reminders.

Section ListReminders.

(** The type [Reminder] of services/types, through the fields that
    [summarizeReminder] and the chat filter read. *)
Variable Reminder : Type.
Variable reminder_id : Reminder -> JsValue.
Variable chat_id : Reminder -> string.
Variable reminder_description : Reminder -> JsValue.
Variable remind_at : Reminder -> JsValue.
Variable status : Reminder -> JsValue.
Variable snoozed_count : Reminder -> JsValue.
(** [selectChat(global, chatId)?.title] *)
Variable chatTitle : string -> option string.

(** [global.telebiz?.reminders] *)
Record RemindersState : Type := mkState {
  isLoading : bool;
  loadError : option string;
  reminders : option (list Reminder)
}.

Definition summarizeReminder (reminder : Reminder) : JsValue :=
  JsObject
    [("id", reminder_id reminder);
     ("chatId", JsString (chat_id reminder));
     ("chatTitle",
      JsString (match chatTitle (chat_id reminder) with
                | Some title => if JsStr.isEmpty title then "Unknown Chat" else title
                | None => "Unknown Chat"
                end));
     ("description", reminder_description reminder);
     ("remindAt", remind_at reminder);
     ("status", status reminder);
     ("snoozedCount", snoozed_count reminder)].

Definition executeListReminders (remindersState : option RemindersState)
    (chatId : option string) : ToolResult :=
  let loading :=
    match remindersState with Some st => isLoading st | None => false end in
  let error :=
    match remindersState with Some st => loadError st | None => None end in
  if loading then
    mkResult true
      (Some (JsObject
               [("reminders", JsArray []);
                ("count", JsNumber (Int 0));
                ("note", JsString "Reminders are still loading. Try again in a moment.")]))
      None
  else if Js.toBoolean (optString error) then
    mkResult false None
      (Some ("Failed to load reminders: " ++ Js.toString (optString error))%string)
  else
    let reminders :=
      match remindersState with
      | Some st => match reminders st with Some l => l | None => [] end
      | None => []
      end in
    let filtered :=
      if Js.toBoolean (optString chatId)
      then filter (fun r => String.eqb (chat_id r)
                              (match chatId with Some c => c | None => "" end))
             reminders
      else reminders in
    mkResult true
      (Some (JsObject
               [("reminders", JsArray (map summarizeReminder filtered));
                ("count", JsNumber (Int (Z.of_nat (List.length filtered))))]))
      None.

End ListReminders.

(** *** Completing and deleting

    These executors run against the requests sent so far, as the names of
    the API methods with the id they were given, and the number of
    [loadTelebizReminders] dispatches. *)

Record ActionWorld : Type := mkActionWorld {
  calls : list (string * JsValue);
  refreshes : nat
}.

Definition Action (A : Type) : Type := ActionWorld -> Outcome A * ActionWorld.

Section Actions.

(** The answer of the reminder API to [completeReminder(id)] and to
    [deleteReminder(id)]: acceptance or a rejection. *)
Variable completeApi : JsValue -> Outcome unit.
Variable deleteApi : JsValue -> Outcome unit.

Definition callAction (method : string) (api : JsValue -> Outcome unit)
    (reminderId : JsValue) : Action unit :=
  fun w => (api reminderId, mkActionWorld ((method, reminderId) :: calls w) (refreshes w)).

Definition refresh : Action unit :=
  fun w => (Returned tt, mkActionWorld (calls w) (S (refreshes w))).

(** [try { await call; loadTelebizReminders({}); return ok } catch (error)
     { return failed }] *)
Definition tryAction (call : Action unit) (ok : ToolResult)
    (failed : Thrown -> ToolResult) : Action ToolResult :=
  fun w =>
    match call w with
    | (Returned _, w1) =>
        match refresh w1 with
        | (Returned _, w2) => (Returned ok, w2)
        | (Threw e, w2) => (Returned (failed e), w2)
        end
    | (Threw e, w1) => (Returned (failed e), w1)
    end.

Definition executeCompleteReminder (reminderId : JsValue) : Action ToolResult :=
  tryAction (callAction "completeReminder" completeApi reminderId)
    (mkResult true
       (Some (JsObject [("completed", JsBool true); ("reminderId", reminderId)]))
       None)
    (fun error =>
       mkResult false None
         (Some ("Failed to complete reminder: " ++ errorMessage error)%string)).

Definition executeDeleteReminder (reminderId : JsValue) : Action ToolResult :=
  tryAction (callAction "deleteReminder" deleteApi reminderId)
    (mkResult true
       (Some (JsObject [("deleted", JsBool true); ("reminderId", reminderId)]))
       None)
    (fun error =>
       mkResult false None
         (Some ("Failed to delete reminder: " ++ errorMessage error)%string)).

End Actions.

End ReminderList.

(** ** ProviderEntityForm.tsx: the [form] state of [EntityForm] *)

Module EntityFormState.

Import ProviderEntityForm.

(** An entry of the [form] record: the properties spread from a field, or
    none when the entry was made for a key that had no entry, and the
    value. *)
Record FormEntry : Type := mkEntry {
  entry_field : option FormField;
  entry_value : FieldValue
}.

Definition Form : Type := Obj.t FormEntry.

(** [{ ...field, value: v !== undefined ? v : field.value }] for the value
    [v] found under the name of the field. *)
Definition initEntry (values : string -> option FieldValue) (field : FormField)
    : FormEntry :=
  mkEntry (Some field)
    (match values (name field) with
     | Some v => v
     | None => value field
     end).

(** [formFields.reduce((acc, field) => { acc[field.name] = ...; return acc },
     {})] *)
Definition reduceForm (values : string -> option FieldValue)
    (formFields : list FormField) : Form :=
  fold_left (fun acc field => Obj.set acc (name field) (initEntry values field))
    formFields [].

(** The form set by the effect that follows a change of [formFields]: the
    values of the entity in edit mode on anything but a page, the initial
    values otherwise. *)
Definition initialForm (entity : option (string -> option FieldValue))
    (entityType : ProviderEntityType)
    (initialValues : string -> option FieldValue)
    (formFields : list FormField) : Form :=
  match entity, entityType with
  | Some _, Page => reduceForm initialValues formFields
  | Some entityValues, _ => reduceForm entityValues formFields
  | None, _ => reduceForm initialValues formFields
  end.

(** [{ ...form[key], value }] *)
Definition withValue (entry : option FormEntry) (v : FieldValue) : FormEntry :=
  mkEntry (match entry with Some e => entry_field e | None => None end) v.

(** A value used as a property key: [String(value)]. *)
Definition optionKey (v : FieldValue) : string :=
  match v with
  | Single s => s
  | Many l => JsStr.join "," l
  end.

(** The value a dependent field is reset to when its parent takes the
    value [v]. *)
Definition resetValue (field : FormField) (v : FieldValue) : FieldValue :=
  match options field with
  | Some (OptionRecord m) =>
      let firstOptionValue :=
        match Obj.get m (optionKey v) with
        | Some (first :: _) => opt_value first
        | _ => ""
        end in
      match type field with
      | multiselect =>
          if JsStr.isEmpty firstOptionValue then Many [] else Many [firstOptionValue]
      | _ => Single firstOptionValue
      end
  | _ =>
      match type field with
      | multiselect => Many []
      | _ => Single ""
      end
  end.

(** [field.dependsOn === key], for a select or multiselect field. *)
Definition resetsOn (key : string) (field : FormField) : bool :=
  match dependsOn field with
  | Some parent => String.eqb parent key && isSelectLike (type field)
  | None => false
  end.

(** The body of [formFields.forEach] in [handleChange]. *)
Definition resetStep (key : string) (v : FieldValue) (updated : Form)
    (field : FormField) : Form :=
  if resetsOn key field then
    Obj.set updated (name field)
      (withValue (Obj.get updated (name field)) (resetValue field v))
  else updated.

(** The form that [handleChange(key, value)] sets. *)
Definition handleChange (formFields : list FormField) (form : Form)
    (key : string) (v : FieldValue) : Form :=
  let updatedForm := Obj.set form key (withValue (Obj.get form key) v) in
  fold_left (resetStep key v) formFields updatedForm.

(** [value !== undefined && value !== ''] for the value of an entry. *)
Definition isFilled (entry : option FormEntry) : bool :=
  match entry with
  | Some e =>
      match entry_value e with
      | Single s => negb (JsStr.isEmpty s)
      | Many _ => true
      end
  | None => false
  end.

Definition isFormValid (formFields : list FormField) (form : Form) : bool :=
  existsb (fun field => isFilled (Obj.get form (name field))) formFields.

End EntityFormState.

(** ** CreateCrmEntityForm.tsx *)

Module CreateCrmEntityForm.

Import EntityFormState.

Definition getInitialFieldName (entityType : ProviderEntityType) : string :=
  match entityType with
  | Deal => "title"
  | _ => "name"
  end.

(** [{ [fieldName]: initialValue }] *)
Definition initialValues (entityType : ProviderEntityType) (initialValue : string)
    (key : string) : option FieldValue :=
  if String.eqb key (getInitialFieldName entityType)
  then Some (Single initialValue) else None.

(** [key === 'pipeline' ? 'pipelineId' : key] *)
Definition apiKey (key : string) : string :=
  if String.eqb key "pipeline" then "pipelineId" else key.

(** The [formData] that [handleSubmit] hands to [onCreate]. *)
Definition formData (form : Form) : Obj.t FieldValue :=
  Obj.fromEntries
    (map (fun kv => (apiKey (fst kv), entry_value (snd kv)))
       (filter (fun kv => isFilled (Some (snd kv))) form)).

End CreateCrmEntityForm.

(** ** Sample inputs, used where a property is evaluated *)

Module Samples.

(** A field as the dynamic builder makes it, with the given name, type
    and parent. *)
Definition field (n : string) (t : FieldType) (parent : option string)
    : FormField :=
  {| type := t; label := None; providerLabel := None; value := Single "";
     name := n; options := None; dependsOn := parent; metadata := None;
     isFutureOnly := None |}.

Definition title : FormField := field "title" text None.
Definition amount : FormField := field "amount" number None.
Definition pipeline : FormField := field "pipeline" select None.
Definition stage : FormField := field "stage" select (Some "pipeline").
Definition owner : FormField := field "owner" select (Some "pipeline").
Definition region : FormField := field "region" select (Some "country").

Definition labels : FormField := field "labels" multiselect None.

(** A host in the UTC time zone whose date parser accepts nothing, at
    2024-03-10T15:00:00Z. *)
Definition utc (t : Z) (isUTC : bool) : Z := 0.
Definition noDateParse (s : string) : Number := NaN.
Definition t0 : Z := 1710082800000.
Definition isoFormat (t : Z) : string := Num.toString (Int t).

(** The zone of New York around 10 March 2024, when the clocks go from
    02:00 to 03:00: five hours behind UTC before 2024-03-10T07:00:00Z and
    four hours behind from then on; a local time from 02:00 to 03:00 on
    that day, which does not exist, is read with the offset in force before
    it.  [nyNight] is 02:30 local time on 9 March 2024. *)
Definition newYork (t : Z) (isUTC : bool) : Z :=
  if isUTC
  then if t <? 1710054000000 then -18000000 else -14400000
  else if t <? 1710039600000 then -18000000 else -14400000.
Definition nyNight : Z := 1709969400000.
(** The stage of a deal, whose options depend on the pipeline, and the
    reason of a loss, whose options depend on the stage. *)
Definition stageWithOptions : FormField :=
  {| type := select; label := None; providerLabel := Some "Stage";
     value := Single "todo"; name := "stage";
     options := Some (OptionRecord
                        [("1", [mkOption "Todo" "todo"; mkOption "Done" "done"]);
                         ("2", [mkOption "Won" "won"])]);
     dependsOn := Some "pipeline"; metadata := None; isFutureOnly := None |}.
Definition reason : FormField :=
  {| type := select; label := None; providerLabel := Some "Reason";
     value := Single "price"; name := "reason";
     options := Some (OptionRecord [("lost", [mkOption "Price" "price"])]);
     dependsOn := Some "stage"; metadata := None; isFutureOnly := None |}.

Definition labelsField : FormField :=
  {| type := multiselect; label := None; providerLabel := Some "Labels";
     value := Many []; name := "label_ids"; options := None;
     dependsOn := None; metadata := None; isFutureOnly := None |}.

(** A reminder API that accepts every request. *)
Definition reminderApi (req : Reminders.ApiRequest) : Reminders.Outcome Z :=
  Reminders.Returned 42.
Definition world0 : Reminders.World :=
  Reminders.mkWorld t0 (JsNumber (Int 7)) [] 0.
Definition updateArgs (remindAt : string) : Reminders.ToolArgs :=
  Reminders.mkArgs (JsString "chat1") JsUndefined (JsString "call Bob")
    (Some remindAt) (JsNumber (Int 3)).

(** A property that declares the multiselect type and has no options. *)
Definition labelIds : Property.t :=
  Property.mk "label_ids" "Labels" "multiselect" None None.

(** An installation whose provider has no dynamic field support and
    whose property catalogue is empty. *)
Definition entityTypeTag (e : ProviderEntityType) : string :=
  match e with
  | Contact => "contact" | Company => "company" | Deal => "deal"
  | Task => "task" | Meeting => "meeting" | Page => "page"
  | Note => "note" | Organization => "organization"
  end.
Definition hasDynamicFields (provider : string) (e : ProviderEntityType) : bool :=
  false.
Definition getFieldNamesForProvider (provider : string) (e : ProviderEntityType)
    : list string := [].
Definition getPropertyType (p : Property.t) (provider : string)
    : StandardPropertyType := TEXT.
Definition formatSnakeCaseLabel (s : string) : string := s.
Definition getPropertyLabel (props : list Property.t) (n : string)
    : option string := None.
Definition getPropertyOptions (props : list Property.t) (n : string)
    : option FieldOptions := None.
Definition decodeEntityId (s : string) : list string := [s].
Definition convertNotionPropertiesToFormFields (props : list Property.t)
    (values : JsValue) : list FormField := [].

End Samples.

(* ================================================================== *)
(** * Part II.  Properties                                              *)
(* ================================================================== *)

(** ** normalizeFieldValue *)

Section NormalizeFacts.

Lemma isEmpty_false_iff (s : string) : JsStr.isEmpty s = false <-> s <> "".
Proof.
  destruct s; simpl; split; intros H;
    solve [discriminate | reflexivity | exfalso; now apply H].
Qed.

Lemma toPrimitiveValue_string (s : string) :
  toPrimitiveValue (JsString s) =
  if JsStr.isEmpty s then JsUndefined else JsString s.
Proof. destruct s; reflexivity. Qed.

(** [toPrimitiveValue] answers [undefined] or a truthy value. *)
Lemma toPrimitiveValue_truthy_or_undefined (v : JsValue) :
  toPrimitiveValue v = JsUndefined \/ Js.toBoolean (toPrimitiveValue v) = true.
Proof.
  unfold toPrimitiveValue.
  destruct (Js.toBoolean v) eqn:Hv; simpl; auto.
  destruct (Js.isObject v); simpl; auto.
  match goal with
  | |- context [negb (Js.toBoolean ?c)] => destruct (Js.toBoolean c) eqn:Hc
  end; simpl; auto.
Qed.

Lemma toPrimitiveValue_falsy_undefined (v : JsValue) :
  Js.toBoolean (toPrimitiveValue v) = false -> toPrimitiveValue v = JsUndefined.
Proof.
  destruct (toPrimitiveValue_truthy_or_undefined v) as [H | H]; auto.
  rewrite H; discriminate.
Qed.

(** The array branch of the multiselect case, on plain strings. *)
Lemma normalize_strings (l : list string) :
  map (fun item => JsString (Js.toString item))
    (filter Js.toBoolean (map toPrimitiveValue (map JsString l)))
  = map JsString (filter (fun s => negb (JsStr.isEmpty s)) l).
Proof.
  induction l as [| s l IH]; simpl; [reflexivity |].
  rewrite toPrimitiveValue_string.
  destruct (JsStr.isEmpty s) eqn:Hs; simpl.
  - exact IH.
  - rewrite Hs; simpl. now rewrite IH.
Qed.

Lemma filter_nonEmpty_id (l : list string) :
  Forall (fun s => s <> "") l ->
  filter (fun s => negb (JsStr.isEmpty s)) l = l.
Proof.
  induction 1 as [| s l Hs _ IH]; simpl; [reflexivity |].
  apply isEmpty_false_iff in Hs. rewrite Hs; simpl. now rewrite IH.
Qed.

Lemma filter_nonEmpty_idem (l : list string) :
  filter (fun s => negb (JsStr.isEmpty s)) (filter (fun s => negb (JsStr.isEmpty s)) l)
  = filter (fun s => negb (JsStr.isEmpty s)) l.
Proof.
  induction l as [| s l IH]; simpl; [reflexivity |].
  destruct (JsStr.isEmpty s) eqn:Hs; simpl; [exact IH |].
  rewrite Hs; simpl. now rewrite IH.
Qed.

Lemma normalize_multiselect_strings (field : FormField) (l : list string) :
  type field = multiselect ->
  normalizeFieldValue field (JsArray (map JsString l))
  = JsArray (map JsString (filter (fun s => negb (JsStr.isEmpty s)) l)).
Proof.
  intros Ht. unfold normalizeFieldValue. rewrite Ht. simpl.
  now rewrite normalize_strings.
Qed.

(** An array element without a primitive leaves no trace in the result. *)
Lemma normalize_array_drop (l1 l2 : list JsValue) (e : JsValue) :
  Js.toBoolean (toPrimitiveValue e) = false ->
  filter Js.toBoolean (map toPrimitiveValue (l1 ++ e :: l2))
  = filter Js.toBoolean (map toPrimitiveValue (l1 ++ l2)).
Proof.
  intros He. rewrite !map_app, !filter_app. simpl. now rewrite He.
Qed.

(** An object none of whose identifying attributes is truthy has no
    primitive: the first attribute that is not nullish is the candidate,
    and it is falsy. *)
Lemma toPrimitiveValue_object_no_truthy (props : list (string * JsValue)) :
  Js.toBoolean (Js.lookup "value" props) = false ->
  Js.toBoolean (Js.lookup "id" props) = false ->
  Js.toBoolean (Js.lookup "key" props) = false ->
  Js.toBoolean (Js.lookup "name" props) = false ->
  Js.toBoolean (Js.lookup "label" props) = false ->
  toPrimitiveValue (JsObject props) = JsUndefined.
Proof.
  intros Hv Hi Hk Hn Hl. unfold toPrimitiveValue. simpl.
  unfold Js.coalesce.
  repeat (match goal with
          | |- context [Js.isNullish (Js.lookup ?k props)] =>
              destruct (Js.isNullish (Js.lookup k props)) eqn:?
          end; cbv iota);
    rewrite ?Hv, ?Hi, ?Hk, ?Hn, ?Hl; reflexivity.
Qed.

Lemma in_split_trim_filter (s x : string) :
  In x (filter (fun item => negb (JsStr.isEmpty item))
          (map JsStr.trim (JsStr.split "," s)))
  <-> x <> "" /\ exists seg, In seg (JsStr.split "," s) /\ x = JsStr.trim seg.
Proof.
  rewrite filter_In, in_map_iff, negb_true_iff, isEmpty_false_iff.
  split.
  - intros [[seg [Hx Hin]] Hne]. split; [exact Hne |]. exists seg. auto.
  - intros [Hne [seg [Hin Hx]]]. split; [| exact Hne]. exists seg. auto.
Qed.

End NormalizeFacts.

(** C9, as the code has it.  For a multiselect field, a sequence of plain
    strings none of which is empty is returned unchanged; empty strings are
    dropped, so on every sequence of plain strings the function is
    idempotent (normalising its result again changes nothing), without
    being the identity. *)
Theorem C9_normalize_multiselect_strings :
  forall (field : FormField) (l : list string),
    type field = multiselect ->
    (Forall (fun s => s <> "") l ->
     normalizeFieldValue field (JsArray (map JsString l)) = JsArray (map JsString l))
    /\ normalizeFieldValue field (normalizeFieldValue field (JsArray (map JsString l)))
       = normalizeFieldValue field (JsArray (map JsString l)).
Proof.
  intros field l Ht. split.
  - intros Hl. rewrite normalize_multiselect_strings by exact Ht.
    now rewrite filter_nonEmpty_id.
  - rewrite !normalize_multiselect_strings by exact Ht.
    now rewrite filter_nonEmpty_idem.
Qed.

Lemma C9_normalize_multiselect_strings_witness :
  normalizeFieldValue Samples.labels (JsArray (map JsString ["a"; "b"]))
  = JsArray (map JsString ["a"; "b"]).
Proof.
  apply (proj1 (C9_normalize_multiselect_strings Samples.labels ["a"; "b"] eq_refl)).
  repeat constructor; discriminate.
Defined.

(** C9, as the specification states it, fails: the sequence of plain
    strings ["a"; ""] does not come back unchanged, its empty string is
    dropped. *)
Lemma C9_counterexample :
  ~ (forall (field : FormField) (l : list string),
        type field = multiselect ->
        normalizeFieldValue field (JsArray (map JsString l))
        = JsArray (map JsString l)).
Proof.
  intros H. specialize (H Samples.labels ["a"; ""] eq_refl).
  vm_compute in H. discriminate H.
Qed.

(** C10.  For a multiselect field, an array element whose unwrapped
    primitive is falsy leaves no trace in the result, which is the case of
    the number 0, of the empty string, of [null] and of an object without a
    truthy value, id, key, name or label attribute; the segments of a
    comma-separated string that trim to the empty string are dropped and
    the others are kept, trimmed.  For a select field, a truthy input
    without an extractable primitive (an object without such an attribute,
    an array that is empty or starts with such an element) normalises to
    the empty string, not to [undefined]. *)
Theorem C10_falsy_primitive_is_absent :
  forall (field : FormField),
    (type field = multiselect ->
     (forall (l1 l2 : list JsValue) (e : JsValue),
         Js.toBoolean (toPrimitiveValue e) = false ->
         normalizeFieldValue field (JsArray (l1 ++ e :: l2))
         = normalizeFieldValue field (JsArray (l1 ++ l2)))
     /\ toPrimitiveValue (JsNumber (Int 0)) = JsUndefined
     /\ toPrimitiveValue (JsString "") = JsUndefined
     /\ toPrimitiveValue JsNull = JsUndefined
     /\ (forall props,
           (forall k, In k ["value"; "id"; "key"; "name"; "label"] ->
                      Js.toBoolean (Js.lookup k props) = false) ->
           toPrimitiveValue (JsObject props) = JsUndefined)
     /\ (forall s, s <> "" ->
           exists items,
             normalizeFieldValue field (JsString s) = JsArray (map JsString items)
             /\ forall x, In x items <->
                  x <> "" /\ exists seg, In seg (JsStr.split "," s) /\ x = JsStr.trim seg))
    /\ (type field = select ->
        (forall props,
            toPrimitiveValue (JsObject props) = JsUndefined ->
            normalizeFieldValue field (JsObject props) = JsString "")
        /\ normalizeFieldValue field (JsArray []) = JsString ""
        /\ (forall e rest,
              toPrimitiveValue e = JsUndefined ->
              normalizeFieldValue field (JsArray (e :: rest)) = JsString "")
        /\ (forall v, Js.toBoolean v = true ->
              normalizeFieldValue field v <> JsUndefined)).
Proof.
  intros field. split; intros Ht.
  - repeat split.
    + intros l1 l2 e He. unfold normalizeFieldValue. rewrite Ht. simpl.
      now rewrite normalize_array_drop.
    + intros props H. apply toPrimitiveValue_object_no_truthy; apply H; simpl; auto 6.
    + intros s Hs.
      exists (filter (fun item => negb (JsStr.isEmpty item))
                (map JsStr.trim (JsStr.split "," s))).
      split.
      * unfold normalizeFieldValue. rewrite Ht.
        destruct s; [congruence | reflexivity].
      * intros x. apply in_split_trim_filter.
  - repeat split.
    + intros props H. unfold normalizeFieldValue. rewrite Ht. simpl. now rewrite H.
    + unfold normalizeFieldValue. now rewrite Ht.
    + intros e rest H. unfold normalizeFieldValue. rewrite Ht. simpl. now rewrite H.
    + intros v Hv. unfold normalizeFieldValue. rewrite Ht, Hv. simpl.
      match goal with
      | |- context [Js.isUndefined ?p] => destruct (Js.isUndefined p)
      end; discriminate.
Qed.

Lemma C10_falsy_primitive_is_absent_witness :
  normalizeFieldValue Samples.labels
    (JsArray ([JsString "a"]
                ++ JsObject [("value", JsNumber (Int 0)); ("id", JsString "x")]
                :: [JsString "b"]))
  = normalizeFieldValue Samples.labels (JsArray ([JsString "a"] ++ [JsString "b"])).
Proof.
  apply (proj1 (proj1 (C10_falsy_primitive_is_absent Samples.labels) eq_refl)).
  reflexivity.
Defined.

(** ** Arrays: sort, findIndex, splice *)

Section ArrayFacts.

Context {A : Type}.

Lemma insertSorted_perm (cmp : A -> A -> Z) (x : A) (l : list A) :
  Permutation (Forms.insertSorted cmp x l) (x :: l).
Proof.
  induction l as [| y l IH]; simpl; [reflexivity |].
  destruct (cmp x y <=? 0); [reflexivity |].
  rewrite IH. apply perm_swap.
Qed.

Lemma sort_perm (cmp : A -> A -> Z) (l : list A) :
  Permutation (Forms.sort cmp l) l.
Proof.
  induction l as [| x l IH]; simpl; [reflexivity |].
  rewrite insertSorted_perm. now constructor.
Qed.

Lemma splice_perm (l : list A) (i : nat) (x : A) :
  Permutation (Forms.splice l i x) (x :: l).
Proof.
  unfold Forms.splice. rewrite <- Permutation_middle.
  now rewrite firstn_skipn.
Qed.

Lemma filter_splice (g : A -> bool) (l : list A) (i : nat) (x : A) :
  g x = false -> filter g (Forms.splice l i x) = filter g l.
Proof.
  intros Hx. unfold Forms.splice. rewrite filter_app. simpl. rewrite Hx.
  rewrite <- filter_app. now rewrite firstn_skipn.
Qed.

(** A list splits into the elements that pass a test and those that do
    not. *)
Lemma filter_split_perm (f : A -> bool) (l : list A) :
  Permutation (filter f l ++ filter (fun x => negb (f x)) l) l.
Proof.
  induction l as [| x l IH]; simpl; [reflexivity |].
  destruct (f x); simpl.
  - now constructor.
  - rewrite <- Permutation_middle. now constructor.
Qed.

Lemma findIndex_none (f : A -> bool) (l : list A) :
  (forall y, In y l -> f y = false) -> Forms.findIndex f l = None.
Proof.
  induction l as [| y l IH]; simpl; intros H; [reflexivity |].
  rewrite (H y) by auto. rewrite IH; auto.
Qed.

Lemma findIndex_first (f : A -> bool) (l1 l2 : list A) (x : A) :
  (forall y, In y l1 -> f y = false) -> f x = true ->
  Forms.findIndex f (l1 ++ x :: l2) = Some (List.length l1).
Proof.
  induction l1 as [| y l1 IH]; simpl; intros H Hx.
  - now rewrite Hx.
  - rewrite (H y) by auto. rewrite IH; auto.
Qed.

Lemma splice_after (l1 l2 : list A) (x d : A) :
  Forms.splice (l1 ++ x :: l2) (List.length l1 + 1) d = l1 ++ x :: d :: l2.
Proof.
  unfold Forms.splice.
  replace (List.length l1 + 1)%nat with (List.length (l1 ++ [x]))
    by (rewrite length_app; reflexivity).
  replace (l1 ++ x :: l2) with ((l1 ++ [x]) ++ l2)
    by (rewrite <- app_assoc; reflexivity).
  rewrite firstn_app, skipn_app, firstn_all, skipn_all, Nat.sub_diag.
  simpl. rewrite app_nil_r, <- app_assoc. reflexivity.
Qed.

(** *** The insertion sort sorts, and keeps equal-ranked elements in
    their order *)

Variable rank : A -> Z.

Local Abbreviation cmp := (fun a b : A => rank a - rank b).
Local Abbreviation le := (fun a b : A => rank a <= rank b).

Lemma insertSorted_sorted (x : A) (l : list A) :
  StronglySorted le l -> StronglySorted le (Forms.insertSorted cmp x l).
Proof.
  induction 1 as [| y l Hl IH Hy]; simpl.
  - repeat constructor.
  - destruct (Z.leb_spec (rank x - rank y) 0) as [Hxy | Hxy].
    + constructor; [now constructor |].
      constructor; [lia |].
      eapply Forall_impl; [| exact Hy]. cbv beta. intros; lia.
    + constructor; [exact IH |].
      eapply Permutation_Forall; [symmetry; apply insertSorted_perm |].
      constructor; [lia | exact Hy].
Qed.

Lemma sort_sorted (l : list A) : StronglySorted le (Forms.sort cmp l).
Proof.
  induction l as [| x l IH]; simpl; [constructor |].
  now apply insertSorted_sorted.
Qed.

Lemma filter_insertSorted (k : Z) (x : A) (l : list A) :
  StronglySorted le l ->
  filter (fun a => rank a =? k) (Forms.insertSorted cmp x l)
  = filter (fun a => rank a =? k) (x :: l).
Proof.
  induction 1 as [| y l Hl IH Hy]; [reflexivity |].
  simpl.
  destruct (Z.leb_spec (rank x - rank y) 0) as [Hxy | Hxy]; [reflexivity |].
  simpl. simpl in IH. rewrite IH.
  destruct (Z.eqb_spec (rank x) k) as [Hx | Hx];
    destruct (Z.eqb_spec (rank y) k) as [Hy' | Hy']; try reflexivity.
  lia.
Qed.

(** Stability: the elements of one rank come out in the order they came
    in. *)
Lemma sort_stable (k : Z) (l : list A) :
  filter (fun a => rank a =? k) (Forms.sort cmp l)
  = filter (fun a => rank a =? k) l.
Proof.
  induction l as [| x l IH]; [reflexivity |].
  simpl Forms.sort. rewrite filter_insertSorted by apply sort_sorted.
  simpl. now rewrite IH.
Qed.

End ArrayFacts.

(** ** sortFieldsByPriority *)

Section SortFieldsFacts.

Import Forms.

Lemma insertDependent_perm (acc : list FormField) (d : FormField) :
  Permutation (insertDependent acc d) (d :: acc).
Proof.
  unfold insertDependent.
  destruct (findIndex (isParentOf d) acc).
  - apply splice_perm.
  - symmetry. apply Permutation_cons_append.
Qed.

Lemma fold_insertDependent_perm (ds acc : list FormField) :
  Permutation (fold_left insertDependent ds acc) (acc ++ ds).
Proof.
  revert acc. induction ds as [| d ds IH]; intros acc; simpl.
  - now rewrite app_nil_r.
  - rewrite IH, insertDependent_perm. simpl. apply Permutation_middle.
Qed.

Lemma sortedIndependent_perm (fields : list FormField) :
  Permutation (sortedIndependent fields)
    (filter (fun f => negb (hasDependsOn f)) fields).
Proof.
  unfold sortedIndependent, titleFields, independent.
  rewrite sort_perm.
  induction fields as [| f fields IH]; simpl; [reflexivity |].
  destruct (hasDependsOn f); simpl; [exact IH |].
  destruct (isTitleField f); simpl.
  - now constructor.
  - rewrite <- Permutation_middle. now constructor.
Qed.

Lemma sortFieldsByPriority_perm (fields : list FormField) :
  Permutation (sortFieldsByPriority fields) fields.
Proof.
  unfold sortFieldsByPriority.
  rewrite fold_insertDependent_perm, sortedIndependent_perm.
  unfold dependent. rewrite Permutation_app_comm.
  apply filter_split_perm.
Qed.

Lemma filter_insertDependent (g : FormField -> bool) (acc : list FormField)
    (d : FormField) :
  g d = false -> filter g (insertDependent acc d) = filter g acc.
Proof.
  intros Hd. unfold insertDependent.
  destruct (findIndex (isParentOf d) acc).
  - now apply filter_splice.
  - rewrite filter_app. simpl. rewrite Hd. apply app_nil_r.
Qed.

Lemma filter_fold_insertDependent (g : FormField -> bool)
    (ds acc : list FormField) :
  (forall d, In d ds -> g d = false) ->
  filter g (fold_left insertDependent ds acc) = filter g acc.
Proof.
  revert acc. induction ds as [| d ds IH]; intros acc H; simpl; [reflexivity |].
  rewrite IH by (intros; apply H; now right).
  apply filter_insertDependent. apply H. now left.
Qed.

Lemma filter_all_true {A} (g : A -> bool) (l : list A) :
  (forall x, In x l -> g x = true) -> filter g l = l.
Proof.
  induction l as [| x l IH]; intros H; simpl; [reflexivity |].
  rewrite (H x) by now left. rewrite IH; [reflexivity |].
  intros; apply H; now right.
Qed.

Lemma sortedIndependent_free (fields : list FormField) (f : FormField) :
  In f (sortedIndependent fields) -> hasDependsOn f = false.
Proof.
  intros H.
  apply (Permutation_in _ (sortedIndependent_perm fields)) in H.
  apply filter_In in H. destruct H as [_ H].
  now apply negb_true_iff in H.
Qed.

Lemma dependent_declares (fields : list FormField) (d : FormField) :
  In d (dependent fields) -> hasDependsOn d = true.
Proof. unfold dependent. intros H. now apply filter_In in H. Qed.

(** The dependency-free fields of the result are the array [sorted] as it
    was before the insertions. *)
Lemma sortFieldsByPriority_free (fields : list FormField) :
  filter (fun f => negb (hasDependsOn f)) (sortFieldsByPriority fields)
  = sortedIndependent fields.
Proof.
  unfold sortFieldsByPriority.
  rewrite filter_fold_insertDependent.
  - apply filter_all_true. intros f Hf.
    now rewrite (sortedIndependent_free fields f Hf).
  - intros d Hd. now rewrite (dependent_declares fields d Hd).
Qed.

Lemma includes_In (l : list string) (x : string) :
  includes l x = true <-> In x l.
Proof.
  unfold includes. rewrite existsb_exists. split.
  - intros [y [Hy Heq]]. apply String.eqb_eq in Heq. now subst.
  - intros Hx. exists x. split; [exact Hx | apply String.eqb_refl].
Qed.

(** Title-like is a test on the lower-cased name. *)
Lemma isTitleField_lower (f : FormField) :
  isTitleField f = includes titleFieldNames (JsStr.toLowerCase (name f)).
Proof.
  unfold isTitleField.
  destruct (includes titleFieldNames (name f)) eqn:E; [| reflexivity].
  apply includes_In in E. simpl in E.
  destruct E as [E | [E | [E | []]]]; rewrite <- E; reflexivity.
Qed.

Lemma titleFields_In (fields : list FormField) (f : FormField) :
  In f (titleFields fields)
  <-> In f fields /\ hasDependsOn f = false
      /\ In (JsStr.toLowerCase (name f)) ["title"; "name"; "subject"].
Proof.
  unfold titleFields.
  rewrite filter_In, andb_true_iff, negb_true_iff, isTitleField_lower, includes_In.
  reflexivity.
Qed.

(** *** The closed form of the insertions *)

Lemma flat_map_withChildren_nil (base : list FormField) :
  flat_map (withChildren []) base = base.
Proof.
  induction base as [| p base IH]; simpl; [reflexivity |]. now rewrite IH.
Qed.

Lemma in_flat_map_withChildren (ds base : list FormField) (y : FormField) :
  In y (flat_map (withChildren ds) base) -> In y base \/ In y ds.
Proof.
  rewrite in_flat_map. intros [p [Hp Hy]].
  destruct Hy as [Hy | Hy]; [subst; now left |].
  right. rewrite <- in_rev in Hy. now apply filter_In in Hy.
Qed.

Lemma flat_map_withChildren_snoc (ds base : list FormField) (d : FormField) :
  (forall p, In p base -> isParentOf d p = false) ->
  flat_map (withChildren (ds ++ [d])) base = flat_map (withChildren ds) base.
Proof.
  induction base as [| p base IH]; intros H; simpl; [reflexivity |].
  rewrite IH by (intros; apply H; now right).
  unfold withChildren. rewrite filter_app. simpl.
  rewrite (H p) by now left. now rewrite app_nil_r.
Qed.

Lemma existsb_first {A} (f : A -> bool) (l : list A) :
  existsb f l = true ->
  exists l1 x l2, l = l1 ++ x :: l2 /\ f x = true
                  /\ forall y, In y l1 -> f y = false.
Proof.
  induction l as [| a l IH]; simpl; [discriminate |].
  destruct (f a) eqn:Ha; simpl.
  - intros _. exists [], a, l. repeat split; auto. intros y [].
  - intros H. destruct (IH H) as [l1 [x [l2 [Hl [Hx Hl1]]]]].
    exists (a :: l1), x, l2. subst. repeat split; auto.
    intros y [Hy | Hy]; [now subst | auto].
Qed.

Lemma existsb_false {A} (f : A -> bool) (l : list A) :
  existsb f l = false -> forall y, In y l -> f y = false.
Proof.
  intros H y Hy. destruct (f y) eqn:Hf; [| reflexivity].
  rewrite <- H. symmetry. apply existsb_exists. now exists y.
Qed.

Lemma isParentOf_name (d p q : FormField) :
  isParentOf d p = true -> isParentOf d q = true -> name p = name q.
Proof.
  unfold isParentOf. destruct (dependsOn d); [| discriminate].
  rewrite !String.eqb_eq. congruence.
Qed.

Lemma existsb_app_cons_true {A} (f : A -> bool) (l1 l2 : list A) (x : A) :
  f x = true -> existsb f (l1 ++ x :: l2) = true.
Proof.
  intros Hx. apply existsb_exists. exists x. split; [| exact Hx].
  apply in_or_app. right. now left.
Qed.

(** A field without a parent in [base] joins the orphans. *)
Lemma dependentsSpliced_snoc_orphan (base ds : list FormField) (d : FormField) :
  existsb (isParentOf d) base = false ->
  dependentsSpliced base (ds ++ [d]) = dependentsSpliced base ds ++ [d].
Proof.
  intros Hex. unfold dependentsSpliced, orphans.
  rewrite flat_map_withChildren_snoc by (now apply existsb_false).
  rewrite filter_app. simpl. rewrite Hex. simpl.
  now rewrite <- app_assoc.
Qed.

(** A field whose parent is [p], and no other field of [base], becomes
    the first child of [p]. *)
Lemma dependentsSpliced_snoc_child (b1 b2 ds : list FormField) (p d : FormField) :
  isParentOf d p = true ->
  (forall y, In y b1 -> isParentOf d y = false) ->
  (forall y, In y b2 -> isParentOf d y = false) ->
  dependentsSpliced (b1 ++ p :: b2) (ds ++ [d])
  = flat_map (withChildren ds) b1
      ++ p :: d :: (rev (filter (fun x => isParentOf x p) ds)
                      ++ flat_map (withChildren ds) b2
                      ++ orphans (b1 ++ p :: b2) ds).
Proof.
  intros Hp Hb1 Hb2. unfold dependentsSpliced, orphans.
  rewrite flat_map_app. simpl.
  rewrite !flat_map_withChildren_snoc by assumption.
  rewrite !filter_app. simpl. rewrite Hp.
  rewrite (existsb_app_cons_true _ b1 b2 p Hp). simpl.
  rewrite rev_app_distr, app_nil_r. simpl.
  repeat (rewrite <- app_assoc || rewrite <- app_comm_cons). reflexivity.
Qed.

Lemma dependentsSpliced_split (b1 b2 ds : list FormField) (p : FormField) :
  dependentsSpliced (b1 ++ p :: b2) ds
  = flat_map (withChildren ds) b1
      ++ p :: (rev (filter (fun x => isParentOf x p) ds)
                 ++ flat_map (withChildren ds) b2
                 ++ orphans (b1 ++ p :: b2) ds).
Proof.
  unfold dependentsSpliced. rewrite flat_map_app. simpl.
  repeat (rewrite <- app_assoc || rewrite <- app_comm_cons). reflexivity.
Qed.

Lemma fold_insertDependent_closed (base ds : list FormField) :
  NoDup (map name base) ->
  (forall d d', In d ds -> In d' ds -> isParentOf d d' = false) ->
  fold_left insertDependent ds base = dependentsSpliced base ds.
Proof.
  intros Hnd. induction ds as [| d ds IH] using rev_ind; intros Hone.
  - simpl. unfold dependentsSpliced, orphans. simpl.
    now rewrite flat_map_withChildren_nil, app_nil_r.
  - rewrite fold_left_app. simpl.
    rewrite IH by (intros; apply Hone; apply in_or_app; now left).
    assert (Hds : forall y, In y ds -> isParentOf d y = false).
    { intros y Hy. apply Hone; apply in_or_app; [right; now left | now left]. }
    destruct (existsb (isParentOf d) base) eqn:Hex.
    + apply existsb_first in Hex.
      destruct Hex as [b1 [p [b2 [Hbase [Hp Hb1]]]]]. subst base.
      assert (Hb2 : forall y, In y b2 -> isParentOf d y = false).
      { intros y Hy. destruct (isParentOf d y) eqn:Hq; [| reflexivity].
        exfalso. rewrite map_app in Hnd. simpl in Hnd.
        apply NoDup_remove_2 in Hnd. apply Hnd.
        apply in_or_app. right.
        rewrite (isParentOf_name d p y Hp Hq). now apply in_map. }
      rewrite dependentsSpliced_snoc_child by assumption.
      rewrite dependentsSpliced_split.
      unfold insertDependent. rewrite findIndex_first.
      * apply splice_after.
      * intros y Hy. apply in_flat_map_withChildren in Hy.
        destruct Hy; auto.
      * exact Hp.
    + rewrite dependentsSpliced_snoc_orphan by exact Hex.
      unfold insertDependent. rewrite findIndex_none; [reflexivity |].
      intros y Hy. unfold dependentsSpliced in Hy.
      apply in_app_or in Hy. destruct Hy as [Hy | Hy].
      * apply in_flat_map_withChildren in Hy.
        destruct Hy; [now apply (existsb_false _ _ Hex) | auto].
      * apply Hds. unfold orphans in Hy. now apply filter_In in Hy.
Qed.

Lemma sortedIndependent_NoDup (fields : list FormField) :
  NoDup (map name fields) -> NoDup (map name (sortedIndependent fields)).
Proof.
  intros H.
  eapply Permutation_NoDup.
  - symmetry. apply Permutation_map. apply sortedIndependent_perm.
  - induction fields as [| f fields IH]; simpl; [constructor |].
    inversion H as [| ? ? Hnotin Hrest]; subst.
    destruct (negb (hasDependsOn f)); simpl; [| now apply IH].
    constructor; [| now apply IH].
    intros Hin. apply Hnotin.
    apply in_map_iff in Hin. destruct Hin as [g [Hg Hin]].
    apply filter_In in Hin. rewrite <- Hg. apply in_map. tauto.
Qed.

End SortFieldsFacts.

(** C4, as the code has it.  The ordering pass returns a permutation of
    its input.  Its dependency-free fields are the title-like ones (the
    lower-cased name is title, name or subject), in their original relative
    order, followed by the others sorted by ascending type priority (select,
    multiselect, text, number, date, textarea), fields of one type keeping
    their order.  When field names are unique and no
    dependent field is the parent of another one, every dependency-free
    field is immediately followed by the fields that declare it as their
    parent, the one declared last first, and the dependent fields whose
    parent is not a dependency-free field come at the very end, in their
    original order. *)
Theorem C4_sortFieldsByPriority :
  forall fields : list FormField,
    Permutation (Forms.sortFieldsByPriority fields) fields
    /\ filter (fun f => negb (Forms.hasDependsOn f)) (Forms.sortFieldsByPriority fields)
       = Forms.titleFields fields
           ++ Forms.sort Forms.comparePriority (Forms.independent fields)
    /\ (forall f, In f (Forms.titleFields fields)
                  <-> In f fields /\ Forms.hasDependsOn f = false
                      /\ In (JsStr.toLowerCase (name f)) ["title"; "name"; "subject"])
    /\ StronglySorted
         (fun a b => Forms.typePriority (type a) <= Forms.typePriority (type b))
         (Forms.sort Forms.comparePriority (Forms.independent fields))
    /\ (forall k,
          filter (fun f => Forms.typePriority (type f) =? k)
            (Forms.sort Forms.comparePriority (Forms.independent fields))
          = filter (fun f => Forms.typePriority (type f) =? k)
              (Forms.independent fields))
    /\ (Forms.typePriority select < Forms.typePriority multiselect
        /\ Forms.typePriority multiselect < Forms.typePriority text
        /\ Forms.typePriority text < Forms.typePriority number
        /\ Forms.typePriority number < Forms.typePriority date
        /\ Forms.typePriority date < Forms.typePriority textarea)
    /\ (NoDup (map name fields) ->
        (forall d d', In d (Forms.dependent fields) -> In d' (Forms.dependent fields) ->
                      Forms.isParentOf d d' = false) ->
        Forms.sortFieldsByPriority fields
        = Forms.dependentsSpliced (Forms.sortedIndependent fields)
            (Forms.dependent fields)).
Proof.
  intros fields.
  split; [apply sortFieldsByPriority_perm |].
  split; [apply sortFieldsByPriority_free |].
  split; [intros f; apply titleFields_In |].
  split; [apply (sort_sorted (fun f => Forms.typePriority (type f))) |].
  split; [intros k; apply (sort_stable (fun f => Forms.typePriority (type f))) |].
  split; [simpl; lia |].
  intros Hnd Hone. unfold Forms.sortFieldsByPriority.
  apply fold_insertDependent_closed; [| exact Hone].
  now apply sortedIndependent_NoDup.
Qed.

Lemma C4_sortFieldsByPriority_witness :
  Forms.sortFieldsByPriority
    [Samples.amount; Samples.stage; Samples.region; Samples.title; Samples.pipeline]
  = [Samples.title; Samples.pipeline; Samples.stage; Samples.amount; Samples.region].
Proof.
  rewrite (proj2 (proj2 (proj2 (proj2 (proj2 (proj2
             (C4_sortFieldsByPriority
                [Samples.amount; Samples.stage; Samples.region;
                 Samples.title; Samples.pipeline]))))))).
  - reflexivity.
  - simpl. repeat (constructor; [simpl; intuition discriminate |]). constructor.
  - simpl. intros d d' Hd Hd'.
    destruct Hd as [Hd | [Hd | []]]; destruct Hd' as [Hd' | [Hd' | []]];
      subst; reflexivity.
Defined.

(** C4, as the specification states it, fails: with two fields that
    declare the same parent, the first of them does not stand immediately
    after the parent, the second one does. *)
Lemma C4_counterexample :
  ~ (forall (fields : list FormField) (p d : FormField),
        In p fields -> In d fields ->
        Forms.hasDependsOn d = true -> Forms.isParentOf d p = true ->
        Forms.immediatelyAfter (Forms.sortFieldsByPriority fields) p d).
Proof.
  intros H.
  destruct (H [Samples.pipeline; Samples.stage; Samples.owner]
              Samples.pipeline Samples.stage)
    as [l1 [l2 E]]; simpl; auto.
  vm_compute in E.
  destruct l1 as [| a [| b [| c l1]]]; simpl in E; try discriminate E.
  destruct l1; discriminate E.
Qed.

(** ** buildFormFieldsFromProperties and the [formFields] of [EntityForm] *)

Section BuilderFacts.

Import Forms.

Variable getPropertyType : Property.t -> string -> StandardPropertyType.
Variable formatSnakeCaseLabel : string -> string.
Variable nowLocalISO : string.

Lemma in_mapDefined {A B} (f : A -> option B) (l : list A) (y : B) :
  In y (mapDefined f l) <-> exists x, In x l /\ f x = Some y.
Proof.
  induction l as [| a l IH]; simpl.
  - split; [intros [] | intros [x [[] _]]].
  - destruct (f a) eqn:Ha; simpl; rewrite IH; split.
    + intros [Hy | [x [Hx Hf]]]; [exists a; subst; auto | exists x; auto].
    + intros [x [[Hx | Hx] Hf]]; [left; congruence | right; exists x; auto].
    + intros [x [Hx Hf]]. exists x; auto.
    + intros [x [[Hx | Hx] Hf]]; [congruence | exists x; auto].
Qed.

Lemma buildField_some (properties : list Property.t) (provider fname : string)
    (field : FormField) :
  buildField getPropertyType formatSnakeCaseLabel nowLocalISO
    properties provider fname = Some field ->
  exists property,
    find (fun p => String.eqb (Property.standardName p) fname) properties
    = Some property
    /\ name field = fname
    /\ type field = resolveFormType getPropertyType property provider
    /\ options field = Property.options property
    /\ dependsOn field = Property.dependsOn property.
Proof.
  unfold buildField.
  destruct (find _ properties) as [property |]; [| discriminate].
  intros H. injection H as <-. exists property. simpl. auto.
Qed.

Lemma buildField_found (properties : list Property.t) (provider fname : string)
    (property : Property.t) :
  find (fun p => String.eqb (Property.standardName p) fname) properties
  = Some property ->
  exists field,
    buildField getPropertyType formatSnakeCaseLabel nowLocalISO
      properties provider fname = Some field
    /\ name field = fname
    /\ type field = resolveFormType getPropertyType property provider.
Proof.
  intros H. unfold buildField. rewrite H. eexists. split; [reflexivity |].
  simpl. auto.
Qed.

Lemma resolveFormType_multiselect (property : Property.t) (provider : string) :
  declaresMultiselect getPropertyType property provider = true ->
  resolveFormType getPropertyType property provider = multiselect.
Proof. intros H. unfold resolveFormType. now rewrite H. Qed.

Lemma resolveFormType_select (property : Property.t) (provider : string) :
  declaresMultiselect getPropertyType property provider = false ->
  nonEmptyOptions (Property.options property) = true ->
  resolveFormType getPropertyType property provider = select.
Proof.
  intros H Ho. unfold resolveFormType. rewrite H.
  unfold nonEmptyOptions in Ho.
  destruct (Property.options property) as [[l | m] |];
    [now rewrite Ho | now rewrite Ho | discriminate].
Qed.

End BuilderFacts.

(** C5.  In the result of the dynamic builder, every field comes from the
    property found under its name, and every requested name with a
    property gives a field; the type of the field is multiselect when the
    property declares the multiselect type (its [type] is 'multiselect' or
    its semantic type is MULTISELECT), and otherwise select as soon as the
    property carries a non-empty option list or a non-empty option mapping,
    whatever the semantic-type table says. *)
Theorem C5_options_force_select :
  forall (getPropertyType : Property.t -> string -> StandardPropertyType)
         (formatSnakeCaseLabel : string -> string) (nowLocalISO : string)
         (fieldNames : list string) (properties : list Property.t)
         (provider : string),
    let built :=
      Forms.buildFormFieldsFromProperties getPropertyType formatSnakeCaseLabel
        nowLocalISO fieldNames properties provider in
    let typedBy (field : FormField) (property : Property.t) : Prop :=
      (Forms.declaresMultiselect getPropertyType property provider = true ->
       type field = multiselect)
      /\ (Forms.declaresMultiselect getPropertyType property provider = false ->
          Forms.nonEmptyOptions (Property.options property) = true ->
          type field = select) in
    (forall field, In field built ->
       exists property,
         In (name field) fieldNames
         /\ Forms.find (fun p => String.eqb (Property.standardName p) (name field))
              properties = Some property
         /\ typedBy field property)
    /\ (forall fname property,
          In fname fieldNames ->
          Forms.find (fun p => String.eqb (Property.standardName p) fname) properties
          = Some property ->
          exists field, In field built /\ name field = fname /\ typedBy field property).
Proof.
  intros gpt fmt iso fieldNames properties provider built typedBy.
  assert (Htyped : forall field property,
             type field = Forms.resolveFormType gpt property provider ->
             typedBy field property).
  { intros field property Ht. unfold typedBy. rewrite Ht. split.
    - apply resolveFormType_multiselect.
    - apply resolveFormType_select. }
  split.
  - intros field Hin.
    apply (Permutation_in _ (sortFieldsByPriority_perm _)) in Hin.
    apply in_mapDefined in Hin. destruct Hin as [fname [Hname Hb]].
    apply buildField_some in Hb.
    destruct Hb as [property [Hfind [Hn [Ht _]]]].
    exists property. rewrite Hn. auto.
  - intros fname property Hname Hfind.
    destruct (buildField_found gpt fmt iso properties provider fname property Hfind)
      as [field [Hb [Hn Ht]]].
    exists field. repeat split; auto.
    + apply (Permutation_in _ (Permutation_sym (sortFieldsByPriority_perm _))).
      apply in_mapDefined. exists fname. auto.
    + now apply Htyped.
    + now apply Htyped.
Qed.

Lemma C5_options_force_select_witness :
  exists field,
    In field
      (Forms.buildFormFieldsFromProperties Samples.getPropertyType
         Samples.formatSnakeCaseLabel "2024-03-10T15:00"
         ["pipeline"]
         [Property.mk "pipeline" "Pipeline" "text"
            (Some (OptionList [mkOption "Sales" "1"])) None]
         "pipedrive")
    /\ name field = "pipeline" /\ type field = select.
Proof.
  destruct (proj2 (C5_options_force_select Samples.getPropertyType
                     Samples.formatSnakeCaseLabel "2024-03-10T15:00"
                     ["pipeline"]
                     [Property.mk "pipeline" "Pipeline" "text"
                        (Some (OptionList [mkOption "Sales" "1"])) None]
                     "pipedrive")
              "pipeline"
              (Property.mk "pipeline" "Pipeline" "text"
                 (Some (OptionList [mkOption "Sales" "1"])) None)
              (or_introl eq_refl) eq_refl)
    as [field [Hin [Hname [_ Hsel]]]].
  exists field. split; [exact Hin |]. split; [exact Hname |].
  apply Hsel; reflexivity.
Defined.

(** The static-template path keeps a select or multiselect field only with
    a non-empty option list. *)
Lemma static_path_drops_empty_select
    (getPropertyLabel : list Property.t -> string -> option string)
    (getPropertyOptions : list Property.t -> string -> option FieldOptions)
    (props : list Property.t) (baseFields : list FormField) (field : FormField) :
  In field
    (filter ProviderEntityForm.hasOptionsIfSelect
       (map (ProviderEntityForm.enrich getPropertyLabel getPropertyOptions props)
          baseFields)) ->
  ProviderEntityForm.isSelectLike (type field) = true ->
  ProviderEntityForm.isNonEmptyArray (options field) = true.
Proof.
  intros Hin Hsel. apply filter_In in Hin. destruct Hin as [_ Hkeep].
  unfold ProviderEntityForm.hasOptionsIfSelect in Hkeep.
  now rewrite Hsel in Hkeep.
Qed.

(** C3, on the dynamic path, at a property that declares the multiselect
    type and has no options: the builder returns the multiselect field,
    which has no options and no parent.  The static-template path drops
    such a field ([static_path_drops_empty_select]); the dynamic path has
    no such filter. *)
Theorem C3_dynamic_path_keeps_empty_multiselect :
  forall (getPropertyType : Property.t -> string -> StandardPropertyType)
         (formatSnakeCaseLabel : string -> string) (nowLocalISO : string)
         (provider : string),
    Forms.buildFormFieldsFromProperties getPropertyType formatSnakeCaseLabel
      nowLocalISO ["label_ids"] [Samples.labelIds] provider
    = [ {| type := multiselect; label := None;
           providerLabel := Some (formatSnakeCaseLabel "Labels");
           value := Many []; name := "label_ids"; options := None;
           dependsOn := None; metadata := None; isFutureOnly := None |} ].
Proof. intros. reflexivity. Qed.

(** C1, on the code: the [formFields] of [EntityForm] do not depend on
    [fieldFilter], so the minimal mode shows what the full mode shows.  For
    a deal on a provider without dynamic fields these are the fields title,
    amount and closeDate of the static form, of which only title is in the
    allow-list of [MINIMAL_FIELDS]. *)
Theorem C1_minimal_mode_is_not_filtered :
  forall (entityTypeTag : ProviderEntityType -> string)
         (hasDynamicFields : string -> ProviderEntityType -> bool)
         (getFieldNamesForProvider : string -> ProviderEntityType -> list string)
         (getPropertyType : Property.t -> string -> StandardPropertyType)
         (formatSnakeCaseLabel : string -> string)
         (nowLocalISO loadLocalISO : string)
         (getPropertyLabel : list Property.t -> string -> option string)
         (getPropertyOptions : list Property.t -> string -> option FieldOptions)
         (decodeEntityId : string -> list string)
         (convertNotionPropertiesToFormFields :
            list Property.t -> JsValue -> list FormField)
         (provider : string) (entityType : ProviderEntityType)
         (entity : option ProviderEntityForm.ProviderEntity)
         (properties : list PropertiesByEntityType.t)
         (databaseId : option string),
    let formFields :=
      ProviderEntityForm.formFields entityTypeTag hasDynamicFields
        getFieldNamesForProvider getPropertyType formatSnakeCaseLabel
        nowLocalISO loadLocalISO getPropertyLabel getPropertyOptions
        decodeEntityId convertNotionPropertiesToFormFields in
    formFields provider entityType entity properties ProviderEntityForm.minimal databaseId
    = formFields provider entityType entity properties ProviderEntityForm.all databaseId
    /\ (hasDynamicFields provider Deal = false ->
        map name
          (formFields provider Deal entity properties ProviderEntityForm.minimal
             databaseId)
        = ["title"; "amount"; "closeDate"])
    /\ filter (Forms.includes (MinimalFields.getMinimalFieldsForEntity Deal))
         ["title"; "amount"; "closeDate"]
       = ["title"].
Proof.
  intros. split; [reflexivity |]. split; [| reflexivity].
  intros Hdyn. unfold formFields, ProviderEntityForm.formFields.
  rewrite Hdyn. reflexivity.
Qed.

Lemma C1_minimal_mode_is_not_filtered_witness :
  map name
    (ProviderEntityForm.formFields Samples.entityTypeTag Samples.hasDynamicFields
       Samples.getFieldNamesForProvider Samples.getPropertyType
       Samples.formatSnakeCaseLabel "2024-03-10T15:00" "2024-03-10T09:00"
       Samples.getPropertyLabel Samples.getPropertyOptions
       Samples.decodeEntityId Samples.convertNotionPropertiesToFormFields
       "salesforce" Deal None [] ProviderEntityForm.minimal None)
  = ["title"; "amount"; "closeDate"].
Proof.
  apply (proj1 (proj2 (C1_minimal_mode_is_not_filtered Samples.entityTypeTag
                         Samples.hasDynamicFields
                         Samples.getFieldNamesForProvider Samples.getPropertyType
                         Samples.formatSnakeCaseLabel
                         "2024-03-10T15:00" "2024-03-10T09:00"
                         Samples.getPropertyLabel Samples.getPropertyOptions
                         Samples.decodeEntityId
                         Samples.convertNotionPropertiesToFormFields
                         "salesforce" Deal None [] None))).
  reflexivity.
Defined.

(** ** Strings of digits *)

Section DigitFacts.

Lemma digit_not_space (c : ascii) :
  JsStr.isDigit c = true -> JsStr.isWhiteSpace c = false.
Proof.
  destruct c as [[|] [|] [|] [|] [|] [|] [|] [|]];
    intros H; solve [reflexivity | discriminate H].
Qed.

Lemma digit_lower (c : ascii) :
  JsStr.isDigit c = true -> JsStr.lowerChar c = c.
Proof.
  destruct c as [[|] [|] [|] [|] [|] [|] [|] [|]];
    intros H; solve [reflexivity | discriminate H].
Qed.

Lemma digit_not_hyphen (c : ascii) :
  JsStr.isDigit c = true -> Ascii.eqb c "-" = false.
Proof.
  destruct c as [[|] [|] [|] [|] [|] [|] [|] [|]];
    intros H; solve [reflexivity | discriminate H].
Qed.

Lemma parseInt_digit_first (c : ascii) (s : string) :
  JsStr.isDigit c = true ->
  Num.parseInt (String c s) = Num.readDigits (String c s) 0 false.
Proof.
  destruct c as [[|] [|] [|] [|] [|] [|] [|] [|]];
    intros H; solve [reflexivity | discriminate H].
Qed.

Lemma toLowerCase_app (a b : string) :
  JsStr.toLowerCase (a ++ b) = (JsStr.toLowerCase a ++ JsStr.toLowerCase b)%string.
Proof. induction a as [| c a IH]; simpl; [reflexivity | now rewrite IH]. Qed.

Lemma toLowerCase_digits (ds : string) :
  JsStr.every JsStr.isDigit ds = true -> JsStr.toLowerCase ds = ds.
Proof.
  induction ds as [| c ds IH]; simpl; [reflexivity |].
  intros H. apply andb_true_iff in H. destruct H as [Hc Hds].
  now rewrite digit_lower, IH.
Qed.

Lemma includesChar_app (a b : string) (c : ascii) :
  JsStr.includesChar (a ++ b) c = JsStr.includesChar a c || JsStr.includesChar b c.
Proof.
  induction a as [| x a IH]; simpl; [reflexivity |].
  now rewrite IH, orb_assoc.
Qed.

Lemma includesChar_digits (ds : string) :
  JsStr.every JsStr.isDigit ds = true -> JsStr.includesChar ds "-" = false.
Proof.
  induction ds as [| c ds IH]; simpl; [reflexivity |].
  intros H. apply andb_true_iff in H. destruct H as [Hc Hds].
  now rewrite digit_not_hyphen, IH.
Qed.

(** White space is trimmed at the end of the last part only, when
    something of that part is left. *)
Lemma trimEnd_app (a b : string) :
  JsStr.trimEnd b <> "" ->
  JsStr.trimEnd (a ++ b) = (a ++ JsStr.trimEnd b)%string.
Proof.
  intros Hb. induction a as [| c a IH]; simpl; [reflexivity |].
  rewrite IH.
  destruct (a ++ JsStr.trimEnd b)%string eqn:E; [| reflexivity].
  exfalso. destruct a; simpl in E; [auto | discriminate E].
Qed.

Lemma prefix_app (a b : string) :
  RegExp.prefix (String.length (a ++ b) - String.length b) (a ++ b) = a.
Proof.
  induction a as [| c a IH].
  - simpl. rewrite Nat.sub_diag. now destruct b.
  - assert (H : (String.length b <= String.length (a ++ b))%nat).
    { clear. induction a; simpl; lia. }
    cbn [append String.length].
    rewrite Nat.sub_succ_l by exact H. cbn [RegExp.prefix]. now rewrite IH.
Qed.

(** *** Decimal notation *)

Lemma every_digit_string_of_uint (d : Decimal.uint) :
  JsStr.every JsStr.isDigit (NilEmpty.string_of_uint d) = true.
Proof. induction d; simpl; auto. Qed.

Lemma readDigits_acc (d : Decimal.uint) (acc : positive) :
  Num.readDigits (NilEmpty.string_of_uint d) (Z.pos acc) true
  = Int (Z.pos (Pos.of_uint_acc d acc)).
Proof.
  revert acc.
  induction d; intros acc;
    cbn [NilEmpty.string_of_uint Num.readDigits Pos.of_uint_acc];
    [reflexivity | ..];
    match goal with
    | |- context [JsStr.isDigit ?c] => change (JsStr.isDigit c) with true
    end;
    cbv iota; rewrite <- IHd; f_equal;
    match goal with
    | |- context [Num.digitValue ?c] =>
        let v := eval vm_compute in (Num.digitValue c) in
        change (Num.digitValue c) with v
    end; lia.
Qed.

Lemma readDigits_of_uint (d : Decimal.uint) (seen : bool) :
  d <> Decimal.Nil \/ seen = true ->
  Num.readDigits (NilEmpty.string_of_uint d) 0 seen
  = Int (Z.of_N (Pos.of_uint d)).
Proof.
  revert seen. induction d; intros seen Hd; simpl;
    try (rewrite <- readDigits_acc; reflexivity).
  - destruct Hd as [Hd | Hd]; [congruence | now subst].
  - apply IHd. now right.
Qed.

Lemma toString_nonneg (n : Z) :
  0 <= n ->
  Num.toString (Int n) = NilEmpty.string_of_uint (N.to_uint (Z.to_N n))
  /\ N.to_uint (Z.to_N n) <> Decimal.Nil.
Proof.
  intros Hn. destruct n as [| p | p]; simpl.
  - split; [reflexivity | discriminate].
  - split; [| apply DecimalPos.Unsigned.to_uint_nonnil].
    unfold NilZero.string_of_uint.
    destruct (Pos.to_uint p) eqn:E; try reflexivity.
    exfalso. now apply (DecimalPos.Unsigned.to_uint_nonnil p).
  - lia.
Qed.

(** The decimal notation of a natural number starts with a digit, holds
    digits only, and reads back as the number. *)
Lemma toString_digits (n : Z) :
  0 <= n ->
  exists c ds,
    Num.toString (Int n) = String c ds
    /\ JsStr.isDigit c = true
    /\ JsStr.every JsStr.isDigit ds = true
    /\ Num.parseInt (String c ds) = Int n.
Proof.
  intros Hn. destruct (toString_nonneg n Hn) as [Hs Hnil].
  pose proof (every_digit_string_of_uint (N.to_uint (Z.to_N n))) as Hall.
  pose proof (readDigits_of_uint (N.to_uint (Z.to_N n)) false (or_introl Hnil)) as Hread.
  rewrite <- Hs in Hall, Hread.
  destruct (Num.toString (Int n)) as [| c ds] eqn:E.
  - exfalso. destruct (N.to_uint (Z.to_N n)); simpl in Hs; congruence.
  - simpl in Hall. apply andb_true_iff in Hall. destruct Hall as [Hc Hds].
    exists c, ds. repeat split; auto.
    rewrite parseInt_digit_first by exact Hc. rewrite Hread.
    change Pos.of_uint with N.of_uint.
    rewrite DecimalN.Unsigned.of_to. f_equal. lia.
Qed.

End DigitFacts.

(** ** The patterns of the resolver *)

Section PatternFacts.

Import RegExp Reminders.

(** A run of characters of the class, followed by a character that is
    not of the class or by the end of the input, is taken whole by [cc*]
    as soon as the continuation accepts what follows. *)
Lemma star_run (cc : CharClass) (ds rest : string) (idx : nat)
    (caps : list (nat * string)) (k : Continuation) (y : MatchState) :
  JsStr.every (classMem cc) ds = true ->
  match rest with
  | String c _ => classMem cc c = false
  | EmptyString => True
  end ->
  k (mkState (idx + String.length ds) rest caps) = Some y ->
  star cc (ds ++ rest) idx caps k = Some y.
Proof.
  revert idx. induction ds as [| d ds IH]; intros idx Hds Hrest Hk; simpl in *.
  - rewrite Nat.add_0_r in Hk.
    destruct rest as [| c r]; simpl; [exact Hk |]. now rewrite Hrest.
  - apply andb_true_iff in Hds. destruct Hds as [Hd Hds]. rewrite Hd.
    rewrite (IH (S idx)); auto. now rewrite <- Nat.add_succ_comm in Hk.
Qed.

(** The end of the relative pattern, on each of the eight unit words. *)
Lemma inUnitRe_match (u : TimeUnit) (plural : bool) (idx : nat)
    (caps : list (nat * string)) :
  matcher inUnitRe
    (mkState idx (" " ++ unitName u ++ (if plural then "s" else "")) caps) Some
  = Some (mkState
            (String.length (" " ++ unitName u ++ (if plural then "s" else "")) + idx)
            "" ((2%nat, unitName u) :: caps)).
Proof. destruct u, plural; vm_compute; reflexivity. Qed.

Lemma exec_inRe_digits (c : ascii) (ds : string) (u : TimeUnit) (plural : bool) :
  JsStr.isDigit c = true ->
  JsStr.every JsStr.isDigit ds = true ->
  exists m,
    exec inRe ("in " ++ String c ds ++ " " ++ unitName u
                 ++ (if plural then "s" else ""))
    = Some m
    /\ group m 1 = Some (String c ds)
    /\ group m 2 = Some (unitName u).
Proof.
  intros Hc Hds.
  set (suffix := (" " ++ unitName u ++ (if plural then "s" else ""))%string).
  eexists. split.
  - unfold exec. cbn -[star matched inUnitRe suffix].
    change (JsStr.isWhiteSpace " ") with true. cbv iota.
    cbn [star classMem]. rewrite (digit_not_space c Hc).
    cbn [remaining endIndex captures]. rewrite Hc.
    erewrite star_run; [reflexivity | exact Hds | reflexivity |].
    cbn [remaining endIndex captures].
    apply inUnitRe_match.
  - unfold group. cbn [captures capture Nat.eqb].
    unfold matched. cbn [remaining].
    split; [| reflexivity].
    f_equal. apply (prefix_app (String c ds) suffix).
Qed.

(** A string that starts with "tomorrow" is no relative expression. *)
Lemma search_inRe_later (idx : nat) (s : string) :
  search inRe (S idx) s = None.
Proof.
  revert idx. induction s as [| c s IH]; intros idx; [reflexivity |].
  cbn [search]. rewrite IH. reflexivity.
Qed.

Lemma exec_inRe_tomorrow (lower : string) :
  JsStr.startsWith lower "tomorrow" = true -> exec inRe lower = None.
Proof.
  destruct lower as [| c s]; [discriminate |].
  cbn [JsStr.startsWith]. intros H.
  apply andb_true_iff in H. destruct H as [Hc _].
  apply Ascii.eqb_eq in Hc. subst c.
  unfold exec. cbn [search]. rewrite search_inRe_later. reflexivity.
Qed.

End PatternFacts.

(** ** The built-in [Date] *)

Section DateFacts.

Import JsDate.

(** The first day of a year follows from the lengths of the years. *)
Lemma DayFromYear_step (y : Z) :
  DayFromYear (y + 1) = DayFromYear y + DaysInYear y.
Proof.
  assert (H4 : (y - 1968) / 4 = (y - 1969) / 4 + (if y mod 4 =? 0 then 1 else 0))
    by (destruct (Z.eqb_spec (y mod 4) 0); Z.div_mod_to_equations; lia).
  assert (H100 : (y - 1900) / 100
                 = (y - 1901) / 100 + (if y mod 100 =? 0 then 1 else 0))
    by (destruct (Z.eqb_spec (y mod 100) 0); Z.div_mod_to_equations; lia).
  assert (H400 : (y - 1600) / 400
                 = (y - 1601) / 400 + (if y mod 400 =? 0 then 1 else 0))
    by (destruct (Z.eqb_spec (y mod 400) 0); Z.div_mod_to_equations; lia).
  assert (Ha : y mod 100 = 0 -> y mod 4 = 0)
    by (intros; Z.div_mod_to_equations; lia).
  assert (Hb : y mod 400 = 0 -> y mod 100 = 0)
    by (intros; Z.div_mod_to_equations; lia).
  unfold DayFromYear, DaysInYear.
  replace (y + 1 - 1969) with (y - 1968) by lia.
  replace (y + 1 - 1901) with (y - 1900) by lia.
  replace (y + 1 - 1601) with (y - 1600) by lia.
  rewrite H4, H100, H400.
  destruct (Z.eqb_spec (y mod 4) 0); destruct (Z.eqb_spec (y mod 100) 0);
    destruct (Z.eqb_spec (y mod 400) 0); cbv [negb]; lia.
Qed.

(** [YearFromTime] is the year of the language specification: the year
    that starts on or before the day, the next one starting after it. *)
Lemma YearFromTime_spec (t : Z) :
  DayFromYear (YearFromTime t) <= Day t < DayFromYear (YearFromTime t + 1).
Proof.
  unfold YearFromTime. set (d := Day t). unfold DayFromYear.
  destruct (Z.ltb_spec d
              (365 * (1970 + 400 * d / 146097 - 1970)
               + (1970 + 400 * d / 146097 - 1969) / 4
               - (1970 + 400 * d / 146097 - 1901) / 100
               + (1970 + 400 * d / 146097 - 1601) / 400)) as [H | H].
  - Z.div_mod_to_equations. lia.
  - match goal with
    | |- context [if ?b then _ else _] => destruct b eqn:E
    end.
    + apply Z.leb_le in E. Z.div_mod_to_equations. lia.
    + apply Z.leb_gt in E. Z.div_mod_to_equations. lia.
Qed.

Lemma MonthFromTime_range (t : Z) : 0 <= MonthFromTime t <= 11.
Proof.
  unfold MonthFromTime.
  repeat match goal with
         | |- context [if ?b then _ else _] => destruct b
         end; lia.
Qed.

(** The day after the day of [t], from the calendar fields of [t]. *)
Lemma MakeDay_next (t : Z) :
  MakeDay (YearFromTime t) (MonthFromTime t) (DateFromTime t + 1) = Day t + 1.
Proof.
  pose proof (MonthFromTime_range t) as Hm.
  unfold MakeDay, DateFromTime.
  rewrite Z.div_small, Z.mod_small, Z.add_0_r by lia.
  unfold DayWithinYear, InLeapYear. lia.
Qed.

Lemma MakeDate_next (t : Z) :
  MakeDate (Day t + 1) (TimeWithinDay t) = t + msPerDay.
Proof.
  unfold MakeDate, Day, TimeWithinDay.
  pose proof (Z.div_mod t msPerDay) as H.
  unfold msPerDay in *. lia.
Qed.

Lemma TimeClip_in_range (t : Z) : Z.abs t <= maxTime -> TimeClip t = Int t.
Proof.
  intros H. unfold TimeClip.
  destruct (Z.ltb_spec maxTime (Z.abs t)); [lia | reflexivity].
Qed.

Lemma TimeClip_out_of_range (t : Z) : maxTime < Z.abs t -> TimeClip t = NaN.
Proof.
  intros H. unfold TimeClip.
  destruct (Z.ltb_spec maxTime (Z.abs t)); [reflexivity | lia].
Qed.

(** A clock time of the day stays within the day. *)
(** [d.setDate(d.getDate() + 1)] moves the local time one day ahead. *)
Lemma setDate_next (LocalTZA : Z -> bool -> Z) (now : Z) :
  setDate LocalTZA (mkDate (Int now))
    (Num.add (getDate LocalTZA (mkDate (Int now))) (Int 1))
  = mkDate (TimeClip (UTC LocalTZA (LocalTime LocalTZA now + msPerDay))).
Proof.
  unfold setDate, getDate. cbn [getTime Num.add].
  now rewrite MakeDay_next, MakeDate_next.
Qed.

End DateFacts.

(** ** parseRemindAt, branch by branch *)

Section ResolverFacts.

Import RegExp JsDate Reminders.

Variable LocalTZA : Z -> bool -> Z.
Variable DateParse : string -> Number.

Lemma parseRemindAt_relative (input : string) (now : Z) (m : MatchState) :
  notAbsolute DateParse input = true ->
  exec inRe (JsStr.trim (JsStr.toLowerCase input)) = Some m ->
  parseRemindAt LocalTZA DateParse input now
  = Some (ofNumber (Num.add (Int now)
                      (Num.mul (parseIntGroup (group m 1)) (unitMs (group m 2))))).
Proof.
  unfold notAbsolute, parseRemindAt. intros Habs Hm.
  apply negb_true_iff in Habs. rewrite Habs, Hm. reflexivity.
Qed.

Lemma parseRemindAt_tomorrow (input : string) (now : Z) :
  notAbsolute DateParse input = true ->
  JsStr.startsWith (JsStr.trim (JsStr.toLowerCase input)) "tomorrow" = true ->
  parseRemindAt LocalTZA DateParse input now
  = let tomorrow :=
      mkDate (TimeClip (UTC LocalTZA (LocalTime LocalTZA now + msPerDay))) in
    match exec timeRe (JsStr.trim (JsStr.toLowerCase input)) with
    | Some m =>
        Some (setHours LocalTZA tomorrow (clockHours m) (clockMinutes m)
                (Int 0) (Int 0))
    | None => Some (setHours LocalTZA tomorrow (Int 9) (Int 0) (Int 0) (Int 0))
    end.
Proof.
  unfold notAbsolute, parseRemindAt. intros Habs Hstart.
  apply negb_true_iff in Habs.
  rewrite Habs, (exec_inRe_tomorrow _ Hstart), Hstart.
  cbv zeta. rewrite setDate_next. reflexivity.
Qed.

Lemma parseRemindAt_today (input : string) (now : Z) (m : MatchState) :
  notAbsolute DateParse input = true ->
  exec inRe (JsStr.trim (JsStr.toLowerCase input)) = None ->
  JsStr.startsWith (JsStr.trim (JsStr.toLowerCase input)) "tomorrow" = false ->
  exec todayRe (JsStr.trim (JsStr.toLowerCase input)) = Some m ->
  parseRemindAt LocalTZA DateParse input now
  = Some (setHours LocalTZA (mkDate (Int now)) (clockHours m) (clockMinutes m)
            (Int 0) (Int 0)).
Proof.
  unfold notAbsolute, parseRemindAt. intros Habs Hin Hstart Hm.
  apply negb_true_iff in Habs. rewrite Habs, Hin, Hstart, Hm. reflexivity.
Qed.

Lemma notAbsolute_no_hyphen (input : string) :
  JsStr.includesChar input "-" = false -> notAbsolute DateParse input = true.
Proof.
  intros H. unfold notAbsolute. now rewrite H, andb_false_r.
Qed.

Lemma setHours_atLocalTime (now h mi : Z) :
  setHours LocalTZA (mkDate (Int now)) (Int h) (Int mi) (Int 0) (Int 0)
  = atLocalTime LocalTZA (Day (LocalTime LocalTZA now)) h mi.
Proof. reflexivity. Qed.

(** The phrase "in N unit" is its own trimmed lower-case form, has no
    hyphen, and matches the relative pattern. *)
Lemma inPhrase_shape (n : Z) (u : TimeUnit) (plural : bool) :
  0 <= n ->
  JsStr.includesChar (inPhrase n u plural) "-" = false
  /\ exists m,
       exec inRe (JsStr.trim (JsStr.toLowerCase (inPhrase n u plural))) = Some m
       /\ parseIntGroup (group m 1) = Int n
       /\ unitMs (group m 2) = Int (unitSeconds u * 1000).
Proof.
  intros Hn. unfold inPhrase.
  destruct (toString_digits n Hn) as [c [ds [Hs [Hc [Hds Hparse]]]]].
  rewrite Hs.
  assert (Hall : JsStr.every JsStr.isDigit (String c ds) = true)
    by (simpl; now rewrite Hc, Hds).
  set (suffix := (" " ++ unitName u ++ (if plural then "s" else ""))%string).
  split.
  - change (JsStr.includesChar ("in " ++ (String c ds ++ suffix)) "-" = false).
    rewrite !includesChar_app, (includesChar_digits _ Hall).
    subst suffix. destruct u, plural; reflexivity.
  - destruct (exec_inRe_digits c ds u plural Hc Hds) as [m [Hm [H1 H2]]].
    exists m. split; [| split].
    + rewrite <- Hm. f_equal.
      change (JsStr.trim (JsStr.toLowerCase ("in " ++ (String c ds ++ suffix)))
              = ("in " ++ (String c ds ++ suffix))%string).
      rewrite !toLowerCase_app, (toLowerCase_digits _ Hall).
      replace (JsStr.toLowerCase suffix) with suffix
        by (subst suffix; destruct u, plural; reflexivity).
      change (JsStr.toLowerCase "in ") with "in ".
      unfold JsStr.trim.
      change (JsStr.trimStart ("in " ++ String c ds ++ suffix))
        with ("in " ++ String c ds ++ suffix)%string.
      change ("in " ++ String c ds ++ suffix)%string
        with (("in " ++ String c ds) ++ suffix)%string at 1.
      assert (Hsuffix : JsStr.trimEnd suffix = suffix)
        by (subst suffix; destruct u, plural; reflexivity).
      rewrite trimEnd_app; rewrite Hsuffix.
      * reflexivity.
      * subst suffix. discriminate.
    + rewrite H1. exact Hparse.
    + rewrite H2. destruct u; reflexivity.
Qed.

Lemma parseRemindAt_inPhrase (n : Z) (u : TimeUnit) (plural : bool) (now : Z) :
  0 <= n ->
  parseRemindAt LocalTZA DateParse (inPhrase n u plural) now
  = Some (mkDate (TimeClip (now + n * (unitSeconds u * 1000)))).
Proof.
  intros Hn.
  destruct (inPhrase_shape n u plural Hn) as [Hhyphen [m [Hm [Hamount Hms]]]].
  rewrite (parseRemindAt_relative _ now m (notAbsolute_no_hyphen _ Hhyphen) Hm).
  rewrite Hamount, Hms. reflexivity.
Qed.

End ResolverFacts.

(** C2, as the code has it.  For every reference time, "5pm" resolves to
    17:00:00.000 local time on the calendar date of the reference time, and
    so does "today at 5pm"; "today at 5", which has no meridiem, resolves
    to 05:00:00.000 on that date. *)
Theorem C2_today_clock_time :
  forall (LocalTZA : Z -> bool -> Z) (DateParse : string -> Number) (now : Z),
    Reminders.parseRemindAt LocalTZA DateParse "5pm" now
    = Some (JsDate.atLocalTime LocalTZA (JsDate.Day (JsDate.LocalTime LocalTZA now)) 17 0)
    /\ Reminders.parseRemindAt LocalTZA DateParse "today at 5pm" now
       = Some (JsDate.atLocalTime LocalTZA (JsDate.Day (JsDate.LocalTime LocalTZA now)) 17 0)
    /\ Reminders.parseRemindAt LocalTZA DateParse "today at 5" now
       = Some (JsDate.atLocalTime LocalTZA (JsDate.Day (JsDate.LocalTime LocalTZA now)) 5 0).
Proof.
  intros LocalTZA DateParse now.
  repeat split;
    match goal with
    | |- Reminders.parseRemindAt _ _ ?input _ = _ =>
        let m := eval vm_compute in
                   (RegExp.exec Reminders.todayRe
                      (JsStr.trim (JsStr.toLowerCase input))) in
        match m with
        | Some ?st =>
            rewrite (parseRemindAt_today LocalTZA DateParse input now st);
            [ reflexivity
            | apply notAbsolute_no_hyphen; reflexivity
            | vm_compute; reflexivity
            | reflexivity
            | vm_compute; reflexivity ]
        end
    end.
Qed.

(** C2, as the specification states it, fails: at 2024-03-10T15:00:00Z in
    the UTC zone, "5pm" and "today at 5" resolve to different times. *)
Lemma C2_counterexample :
  ~ (forall (LocalTZA : Z -> bool -> Z) (DateParse : string -> Number) (now : Z),
        Reminders.parseRemindAt LocalTZA DateParse "5pm" now
        = Reminders.parseRemindAt LocalTZA DateParse "today at 5" now).
Proof.
  intros H. specialize (H Samples.utc Samples.noDateParse Samples.t0).
  vm_compute in H. discriminate H.
Qed.

(** C6, as the code has it.  For every integer N >= 0, every unit among
    minute, hour, day and week, singular or plural, and every reference
    time, "in N unit" resolves to exactly now + N x d milliseconds, d being
    60, 3600, 86400 or 604800 seconds, when that time is within the range
    of [Date] (8.64e15 ms either side of the epoch); beyond the range the
    result is an invalid date. *)
Theorem C6_relative_offset :
  forall (LocalTZA : Z -> bool -> Z) (DateParse : string -> Number)
         (n : Z) (u : Reminders.TimeUnit) (plural : bool) (now : Z),
    0 <= n ->
    (Z.abs (now + n * (Reminders.unitSeconds u * 1000)) <= JsDate.maxTime ->
     Reminders.parseRemindAt LocalTZA DateParse (Reminders.inPhrase n u plural) now
     = Some (JsDate.mkDate (Int (now + n * (Reminders.unitSeconds u * 1000)))))
    /\ (JsDate.maxTime < Z.abs (now + n * (Reminders.unitSeconds u * 1000)) ->
        Reminders.parseRemindAt LocalTZA DateParse (Reminders.inPhrase n u plural) now
        = Some (JsDate.mkDate NaN)).
Proof.
  intros LocalTZA DateParse n u plural now Hn.
  rewrite parseRemindAt_inPhrase by exact Hn.
  split; intros Hrange.
  - now rewrite TimeClip_in_range.
  - now rewrite TimeClip_out_of_range.
Qed.

Lemma C6_relative_offset_witness :
  Reminders.parseRemindAt Samples.utc Samples.noDateParse "in 2 hours" Samples.t0
  = Some (JsDate.mkDate (Int (Samples.t0 + 2 * (3600 * 1000)))).
Proof.
  apply (proj1 (C6_relative_offset Samples.utc Samples.noDateParse
                  2 Reminders.hour true Samples.t0 ltac:(lia))).
  vm_compute. discriminate.
Defined.

(** C6, as the specification states it, fails: "in 1000000000000 weeks"
    does not resolve to now + N x d, which no [Date] can hold. *)
Lemma C6_counterexample :
  ~ (forall (LocalTZA : Z -> bool -> Z) (DateParse : string -> Number)
            (n : Z) (u : Reminders.TimeUnit) (plural : bool) (now : Z),
        0 <= n ->
        Reminders.parseRemindAt LocalTZA DateParse (Reminders.inPhrase n u plural) now
        = Some (JsDate.mkDate (Int (now + n * (Reminders.unitSeconds u * 1000))))).
Proof.
  intros H.
  specialize (H Samples.utc Samples.noDateParse 1000000000000 Reminders.week true
                Samples.t0 ltac:(lia)).
  vm_compute in H. discriminate H.
Qed.


(** ** The clock pattern: what its groups hold *)

Section ClockPatternFacts.

Import RegExp JsDate Reminders.

Lemma digitValue_range (c : ascii) :
  JsStr.isDigit c = true -> 0 <= Num.digitValue c <= 9.
Proof.
  destruct c as [[|] [|] [|] [|] [|] [|] [|] [|]];
    intros H; solve [discriminate H | vm_compute; split; discriminate].
Qed.

Lemma parseInt_one_digit (c : ascii) :
  JsStr.isDigit c = true ->
  Num.parseInt (String c "") = Int (Num.digitValue c).
Proof.
  intros Hc. rewrite parseInt_digit_first by exact Hc.
  cbn [Num.readDigits]. rewrite Hc. f_equal; lia.
Qed.

Lemma parseInt_two_digits (c d : ascii) :
  JsStr.isDigit c = true -> JsStr.isDigit d = true ->
  Num.parseInt (String c (String d ""))
  = Int (10 * Num.digitValue c + Num.digitValue d).
Proof.
  intros Hc Hd. rewrite parseInt_digit_first by exact Hc.
  cbn [Num.readDigits]. rewrite Hc, Hd. f_equal; lia.
Qed.

Lemma matched_one (c : ascii) (s : string) (i j : nat)
    (caps caps' : list (nat * string)) :
  matched (mkState i (String c s) caps) (mkState j s caps') = String c "".
Proof. apply (prefix_app (String c "") s). Qed.

Lemma matched_two (c d : ascii) (s : string) (i j : nat)
    (caps caps' : list (nat * string)) :
  matched (mkState i (String c (String d s)) caps) (mkState j s caps')
  = String c (String d "").
Proof. apply (prefix_app (String c (String d "")) s). Qed.

(** What a class run hands to its continuation has the captures it was
    given. *)
Lemma star_inv (cc : CharClass) (k : Continuation) (P : MatchState -> Prop)
    (caps : list (nat * string)) :
  (forall idx s m, k (mkState idx s caps) = Some m -> P m) ->
  forall s idx m, star cc s idx caps k = Some m -> P m.
Proof.
  intros Hk. induction s as [| ch s IH]; intros idx m H; cbn [star] in H.
  - now apply (Hk idx "").
  - destruct (classMem cc ch).
    + destruct (star cc s (S idx) caps k) as [y |] eqn:E.
      * injection H as <-. now apply (IH (S idx)).
      * now apply (Hk idx (String ch s)).
    + now apply (Hk idx (String ch s)).
Qed.

(** [(am|pm)?] adds group 3, holding am or pm, or nothing. *)
Lemma meridiem_shape (idx : nat) (s : string) (caps : list (nat * string))
    (m : MatchState) :
  matcher (Opt (Group 3 (Alt (Lit "am") (Lit "pm")))) (mkState idx s caps) Some
  = Some m ->
  exists g3,
    captures m = g3 ++ caps
    /\ (g3 = [] \/ g3 = [(3%nat, "am")] \/ g3 = [(3%nat, "pm")]).
Proof.
  intros H.
  destruct s as [| a [| b s]];
    cbn [matcher Lit remaining endIndex captures classMem] in H.
  - injection H as <-. exists []. auto.
  - destruct (Ascii.eqb "a" a), (Ascii.eqb "p" a);
      injection H as <-; exists []; auto.
  - destruct (Ascii.eqb_spec "a" a) as [<- | Ha].
    + destruct (Ascii.eqb_spec "m" b) as [<- | Hb].
      * injection H as <-. exists [(3%nat, "am")].
        cbn [captures app]. rewrite matched_two. auto.
      * change (Ascii.eqb "p" "a") with false in H.
        injection H as <-. exists []. auto.
    + destruct (Ascii.eqb_spec "p" a) as [<- | Hp].
      * destruct (Ascii.eqb_spec "m" b) as [<- | Hb].
        -- injection H as <-. exists [(3%nat, "pm")].
           cbn [captures app]. rewrite matched_two. auto.
        -- injection H as <-. exists []. auto.
      * injection H as <-. exists []. auto.
Qed.

(** [\s*(am|pm)?] *)
Lemma tail_shape (idx : nat) (s : string) (caps : list (nat * string))
    (m : MatchState) :
  matcher (Seq (Star ClassS) (Opt (Group 3 (Alt (Lit "am") (Lit "pm")))))
    (mkState idx s caps) Some
  = Some m ->
  exists g3,
    captures m = g3 ++ caps
    /\ (g3 = [] \/ g3 = [(3%nat, "am")] \/ g3 = [(3%nat, "pm")]).
Proof.
  change (matcher (Seq (Star ClassS) (Opt (Group 3 (Alt (Lit "am") (Lit "pm")))))
            (mkState idx s caps) Some)
    with (star ClassS s idx caps
            (fun y => matcher (Opt (Group 3 (Alt (Lit "am") (Lit "pm")))) y Some)).
  apply (star_inv ClassS _
           (fun m => exists g3,
                captures m = g3 ++ caps
                /\ (g3 = [] \/ g3 = [(3%nat, "am")] \/ g3 = [(3%nat, "pm")]))).
  intros idx' s' m'. apply meridiem_shape.
Qed.

(** [(?::(\d{2}))?\s*(am|pm)?] adds group 2, holding two digits, or
    nothing, and then group 3. *)
Lemma minutes_shape (idx : nat) (s : string) (caps : list (nat * string))
    (m : MatchState) :
  matcher
    (Seq (Opt (Seq (Atom (Chr ":"))
                 (Group 2 (Seq (Atom ClassD) (Atom ClassD)))))
       (Seq (Star ClassS) (Opt (Group 3 (Alt (Lit "am") (Lit "pm"))))))
    (mkState idx s caps) Some
  = Some m ->
  exists g2 g3,
    captures m = g3 ++ g2 ++ caps
    /\ (g2 = []
        \/ exists d1 d2,
             JsStr.isDigit d1 = true /\ JsStr.isDigit d2 = true
             /\ g2 = [(2%nat, String d1 (String d2 ""))])
    /\ (g3 = [] \/ g3 = [(3%nat, "am")] \/ g3 = [(3%nat, "pm")]).
Proof.
  set (tail := Seq (Star ClassS) (Opt (Group 3 (Alt (Lit "am") (Lit "pm"))))).
  intros H.
  assert (Hskip : forall m', matcher tail (mkState idx s caps) Some = Some m' ->
            exists g2 g3,
              captures m' = g3 ++ g2 ++ caps
              /\ (g2 = []
                  \/ exists d1 d2,
                       JsStr.isDigit d1 = true /\ JsStr.isDigit d2 = true
                       /\ g2 = [(2%nat, String d1 (String d2 ""))])
              /\ (g3 = [] \/ g3 = [(3%nat, "am")] \/ g3 = [(3%nat, "pm")])).
  { intros m' Hm'. destruct (tail_shape _ _ _ _ Hm') as [g3 [Hc Hg3]].
    exists [], g3. auto. }
  cbn [matcher] in H. fold tail in H.
  destruct s as [| c0 [| d1 [| d2 r]]];
    cbn [remaining endIndex captures classMem] in H.
  - now apply Hskip.
  - destruct (Ascii.eqb ":" c0); now apply Hskip.
  - destruct (Ascii.eqb ":" c0); [| now apply Hskip].
    destruct (JsStr.isDigit d1); now apply Hskip.
  - destruct (Ascii.eqb ":" c0); [| now apply Hskip].
    destruct (JsStr.isDigit d1) eqn:H1; [| now apply Hskip].
    destruct (JsStr.isDigit d2) eqn:H2; [| now apply Hskip].
    rewrite matched_two in H.
    match type of H with
    | match ?t with _ => _ end = _ => destruct t as [y |] eqn:E
    end; [| now apply Hskip].
    injection H as <-.
    destruct (tail_shape _ _ _ _ E) as [g3 [Hc Hg3]].
    exists [(2%nat, String d1 (String d2 ""))], g3.
    split; [exact Hc |]. split; [right; eauto | exact Hg3].
Qed.

(** A match of the clock pattern holds one or two digits in group 1, two
    digits or nothing in group 2, and am, pm or nothing in group 3. *)
Lemma clockRe_shape (idx : nat) (s : string) (m : MatchState) :
  matcher clockRe (mkState idx s []) Some = Some m ->
  exists hs g2 g3,
    captures m = g3 ++ g2 ++ [(1%nat, hs)]
    /\ (exists c1, JsStr.isDigit c1 = true
                   /\ (hs = String c1 ""
                       \/ exists c2, JsStr.isDigit c2 = true
                                     /\ hs = String c1 (String c2 "")))
    /\ (g2 = []
        \/ exists d1 d2,
             JsStr.isDigit d1 = true /\ JsStr.isDigit d2 = true
             /\ g2 = [(2%nat, String d1 (String d2 ""))])
    /\ (g3 = [] \/ g3 = [(3%nat, "am")] \/ g3 = [(3%nat, "pm")]).
Proof.
  unfold clockRe.
  set (rest := Seq (Opt (Seq (Atom (Chr ":"))
                           (Group 2 (Seq (Atom ClassD) (Atom ClassD)))))
                 (Seq (Star ClassS) (Opt (Group 3 (Alt (Lit "am") (Lit "pm")))))).
  intros H. cbn [matcher] in H. fold rest in H.
  destruct s as [| c1 s1]; cbn [remaining endIndex captures classMem] in H;
    [discriminate H |].
  destruct (JsStr.isDigit c1) eqn:H1; [| discriminate H].
  assert (Hone : forall m',
            matcher rest
              (mkState (S idx) s1
                 [(1%nat, matched (mkState idx (String c1 s1) [])
                            (mkState (S idx) s1 []))]) Some = Some m' ->
            exists hs g2 g3,
              captures m' = g3 ++ g2 ++ [(1%nat, hs)]
              /\ (exists c1, JsStr.isDigit c1 = true
                             /\ (hs = String c1 ""
                                 \/ exists c2, JsStr.isDigit c2 = true
                                               /\ hs = String c1 (String c2 "")))
              /\ (g2 = []
                  \/ exists d1 d2,
                       JsStr.isDigit d1 = true /\ JsStr.isDigit d2 = true
                       /\ g2 = [(2%nat, String d1 (String d2 ""))])
              /\ (g3 = [] \/ g3 = [(3%nat, "am")] \/ g3 = [(3%nat, "pm")])).
  { intros m' Hm'. rewrite matched_one in Hm'.
    destruct (minutes_shape _ _ _ _ Hm') as [g2 [g3 [Hc [Hg2 Hg3]]]].
    exists (String c1 ""), g2, g3. repeat split; eauto. }
  destruct s1 as [| c2 s2]; cbn [remaining endIndex captures classMem] in H.
  - now apply Hone.
  - destruct (JsStr.isDigit c2) eqn:H2; [| now apply Hone].
    match type of H with
    | match ?t with _ => _ end = _ => destruct t as [y |] eqn:E
    end; [| now apply Hone].
    injection H as <-. rewrite matched_two in E.
    destruct (minutes_shape _ _ _ _ E) as [g2 [g3 [Hc [Hg2 Hg3]]]].
    exists (String c1 (String c2 "")), g2, g3. repeat split; eauto 8.
Qed.

Lemma search_matcher (p : Pattern) (s : string) :
  forall (idx : nat) (m : MatchState),
    search p idx s = Some m ->
    exists idx' s', matcher p (mkState idx' s' []) Some = Some m.
Proof.
  induction s as [| c s IH]; intros idx m H; cbn [search] in H.
  - destruct (matcher p (mkState idx "" []) Some) as [y |] eqn:E;
      [| discriminate H].
    injection H as <-. eauto.
  - destruct (matcher p (mkState idx (String c s) []) Some) as [y |] eqn:E.
    + injection H as <-. eauto.
    + now apply (IH (S idx)).
Qed.

(** The numbers read from a match of the clock pattern. *)
Lemma timeRe_numbers (lower : string) (m : MatchState) :
  exec timeRe lower = Some m ->
  exists H MM,
    0 <= H <= 99 /\ 0 <= MM <= 99
    /\ (exists hs, group m 1 = Some hs /\ Num.parseInt hs = Int H)
    /\ match group m 2 with
       | Some ms => Num.parseInt ms = Int MM
       | None => MM = 0
       end
    /\ (group m 3 = None \/ group m 3 = Some "am" \/ group m 3 = Some "pm")
    /\ clockHours m
       = Int (match group m 3 with
              | Some "pm" => if H <? 12 then H + 12 else H
              | Some "am" => if H =? 12 then 0 else H
              | _ => H
              end)
    /\ clockMinutes m = Int MM.
Proof.
  intros Hexec. unfold exec, timeRe in Hexec.
  destruct (search_matcher _ _ _ _ Hexec) as [idx [s Hm]].
  destruct (clockRe_shape idx s m Hm)
    as [hs [g2 [g3 [Hcaps [[c1 [Hc1 Hhs]] [Hg2 Hg3]]]]]].
  assert (Hhour : exists H, 0 <= H <= 99 /\ Num.parseInt hs = Int H).
  { destruct Hhs as [-> | [c2 [Hc2 ->]]].
    - exists (Num.digitValue c1). split; [| now apply parseInt_one_digit].
      pose proof (digitValue_range c1 Hc1). lia.
    - exists (10 * Num.digitValue c1 + Num.digitValue c2).
      split; [| now apply parseInt_two_digits].
      pose proof (digitValue_range c1 Hc1).
      pose proof (digitValue_range c2 Hc2). lia. }
  destruct Hhour as [H [HH Hparse]].
  assert (Hmin : exists MM, 0 <= MM <= 99
                   /\ (g2 = [] /\ MM = 0
                       \/ exists ms, g2 = [(2%nat, ms)] /\ ms <> ""
                                     /\ Num.parseInt ms = Int MM)).
  { destruct Hg2 as [-> | [d1 [d2 [Hd1 [Hd2 ->]]]]].
    - exists 0. split; [lia | now left].
    - exists (10 * Num.digitValue d1 + Num.digitValue d2). split.
      + pose proof (digitValue_range d1 Hd1).
        pose proof (digitValue_range d2 Hd2). lia.
      + right. eexists. split; [reflexivity |].
        split; [discriminate | now apply parseInt_two_digits]. }
  destruct Hmin as [MM [HMM Hmin]].
  exists H, MM. split; [exact HH |]. split; [exact HMM |].
  unfold clockHours, clockMinutes, parseIntGroup, group. rewrite Hcaps.
  destruct Hg3 as [-> | [-> | ->]];
    destruct Hmin as [[-> ->] | [ms [-> [Hne Hms]]]];
    cbn [app capture Nat.eqb];
    (split; [exists hs; split; [reflexivity | exact Hparse] |]);
    (split; [first [reflexivity | exact Hms] |]);
    (split; [tauto |]);
    rewrite Hparse; cbn [Num.ltb Num.eqb Num.add];
    (split;
     [first [ reflexivity | now destruct (H <? 12) | now destruct (H =? 12) ]
     | first [ reflexivity
             | destruct ms; [now contradiction Hne | exact Hms] ]]).
Qed.

End ClockPatternFacts.

Section TomorrowFacts.

Import RegExp JsDate Reminders.

(** The local day on which the wall-clock time [h]:[mi], counted from the
    midnight that starts the day [day], falls. *)
Lemma Day_MakeDate_clock (day h mi : Z) :
  Day (MakeDate day (MakeTime h mi 0 0)) = day + (60 * h + mi) / 1440.
Proof.
  unfold Day, MakeDate, MakeTime, msPerHour, msPerMinute, msPerSecond, msPerDay.
  Z.div_mod_to_equations. lia.
Qed.

(** The branch of the word tomorrow, when the day after the reference
    time exists in the zone and is within the range of [Date]. *)
Lemma parseRemindAt_tomorrow_clock (LocalTZA : Z -> bool -> Z)
    (DateParse : string -> Number) (input : string) (now : Z) :
  notAbsolute DateParse input = true ->
  JsStr.startsWith (JsStr.trim (JsStr.toLowerCase input)) "tomorrow" = true ->
  Z.abs (UTC LocalTZA (LocalTime LocalTZA now + msPerDay)) <= maxTime ->
  Day (LocalTime LocalTZA (UTC LocalTZA (LocalTime LocalTZA now + msPerDay)))
  = Day (LocalTime LocalTZA now) + 1 ->
  parseRemindAt LocalTZA DateParse input now
  = match exec timeRe (JsStr.trim (JsStr.toLowerCase input)) with
    | Some m =>
        match clockHours m, clockMinutes m with
        | Int h, Int mi =>
            Some (atLocalTime LocalTZA (Day (LocalTime LocalTZA now) + 1) h mi)
        | _, _ => Some (mkDate NaN)
        end
    | None => Some (atLocalTime LocalTZA (Day (LocalTime LocalTZA now) + 1) 9 0)
    end.
Proof.
  intros Habs Hstart Hrange Hday.
  rewrite (parseRemindAt_tomorrow LocalTZA DateParse input now Habs Hstart).
  cbv zeta. rewrite TimeClip_in_range by exact Hrange.
  unfold setHours. cbn [getTime]. rewrite Hday.
  destruct (exec timeRe (JsStr.trim (JsStr.toLowerCase input))) as [m |];
    [| reflexivity].
  destruct (clockHours m), (clockMinutes m); reflexivity.
Qed.

End TomorrowFacts.

(** C7, as the code has it.  Take a reference time such that the instant
    one day after it at the same wall-clock time is within the range of
    [Date] and falls on the next local calendar day, and an input that
    starts with "tomorrow" once trimmed and lower-cased and that the
    absolute-date fast path does not take.  Without a match of the clock
    pattern the result is 09:00:00.000 local time on the calendar day after
    the reference time.  With a match, the first one in the input, group 1
    reads as a number H from 0 to 99, group 2 as a number MM from 0 to 99
    (0 when the group took no part), group 3 is am, pm or nothing, and the
    result is the local time H' hours and MM minutes, seconds and
    milliseconds zero, counted from the midnight that starts the day after
    the reference time, where H' is H + 12 for pm with H < 12, 0 for am
    with H = 12, and H otherwise.  That time falls (60 H' + MM) div 1440
    days after the day after the reference time: on that day exactly when
    60 H' + MM < 1440.  In particular "tomorrow 9am" and "tomorrow" both
    resolve to 09:00:00.000 on the day after the reference time. *)
Theorem C7_tomorrow :
  forall (LocalTZA : Z -> bool -> Z) (DateParse : string -> Number)
         (input : string) (now : Z),
    let lower := JsStr.trim (JsStr.toLowerCase input) in
    let day := JsDate.Day (JsDate.LocalTime LocalTZA now) + 1 in
    JsStr.startsWith lower "tomorrow" = true ->
    Reminders.notAbsolute DateParse input = true ->
    Z.abs (JsDate.UTC LocalTZA (JsDate.LocalTime LocalTZA now + JsDate.msPerDay))
      <= JsDate.maxTime ->
    JsDate.Day
      (JsDate.LocalTime LocalTZA
         (JsDate.UTC LocalTZA (JsDate.LocalTime LocalTZA now + JsDate.msPerDay)))
    = day ->
    (RegExp.exec Reminders.timeRe lower = None ->
     Reminders.parseRemindAt LocalTZA DateParse input now
     = Some (JsDate.atLocalTime LocalTZA day 9 0))
    /\ (forall m,
          RegExp.exec Reminders.timeRe lower = Some m ->
          exists H MM,
            0 <= H <= 99 /\ 0 <= MM <= 99
            /\ (exists hs, RegExp.group m 1 = Some hs
                           /\ Num.parseInt hs = Int H)
            /\ match RegExp.group m 2 with
               | Some ms => Num.parseInt ms = Int MM
               | None => MM = 0
               end
            /\ (RegExp.group m 3 = None \/ RegExp.group m 3 = Some "am"
                \/ RegExp.group m 3 = Some "pm")
            /\ Reminders.parseRemindAt LocalTZA DateParse input now
               = Some (JsDate.atLocalTime LocalTZA day
                         (match RegExp.group m 3 with
                          | Some "pm" => if H <? 12 then H + 12 else H
                          | Some "am" => if H =? 12 then 0 else H
                          | _ => H
                          end)
                         MM))
    /\ (forall h mi,
          JsDate.atLocalTime LocalTZA day h mi
          = JsDate.mkDate
              (JsDate.TimeClip
                 (JsDate.UTC LocalTZA
                    (day * JsDate.msPerDay + h * JsDate.msPerHour
                     + mi * JsDate.msPerMinute)))
          /\ JsDate.Day (day * JsDate.msPerDay + h * JsDate.msPerHour
                         + mi * JsDate.msPerMinute)
             = day + (60 * h + mi) / 1440
          /\ (0 <= h -> 0 <= mi ->
              (JsDate.Day (day * JsDate.msPerDay + h * JsDate.msPerHour
                           + mi * JsDate.msPerMinute) = day
               <-> 60 * h + mi < 1440)))
    /\ Reminders.parseRemindAt LocalTZA DateParse "tomorrow 9am" now
       = Some (JsDate.atLocalTime LocalTZA day 9 0)
    /\ Reminders.parseRemindAt LocalTZA DateParse "tomorrow" now
       = Some (JsDate.atLocalTime LocalTZA day 9 0).
Proof.
  intros LocalTZA DateParse input now lower day Hstart Habs Hrange Hday.
  pose proof (parseRemindAt_tomorrow_clock LocalTZA DateParse input now
                Habs Hstart Hrange Hday) as Hparse.
  fold lower day in Hparse.
  split; [| split; [| split; [| split]]].
  - intros Hnone. now rewrite Hparse, Hnone.
  - intros m Hm.
    destruct (timeRe_numbers lower m Hm)
      as [H [MM [HH [HMM [H1 [H2 [H3 [Hhours Hminutes]]]]]]]].
    exists H, MM. repeat (split; [assumption |]).
    now rewrite Hparse, Hm, Hhours, Hminutes.
  - intros h mi.
    assert (Heq : JsDate.MakeDate day (JsDate.MakeTime h mi 0 0)
                  = day * JsDate.msPerDay + h * JsDate.msPerHour
                    + mi * JsDate.msPerMinute).
    { unfold JsDate.MakeDate, JsDate.MakeTime. lia. }
    pose proof (Day_MakeDate_clock day h mi) as Hformula.
    rewrite Heq in Hformula.
    split; [unfold JsDate.atLocalTime; now rewrite Heq |].
    split; [exact Hformula |].
    intros Hh Hmi. rewrite Hformula. split.
    + intros Hz. assert ((60 * h + mi) / 1440 = 0) by lia.
      apply Z.div_small_iff in H; lia.
    + intros Hlt. rewrite Z.div_small by lia. lia.
  - rewrite (parseRemindAt_tomorrow_clock LocalTZA DateParse "tomorrow 9am" now
               (notAbsolute_no_hyphen DateParse "tomorrow 9am" eq_refl) eq_refl Hrange Hday).
    reflexivity.
  - rewrite (parseRemindAt_tomorrow_clock LocalTZA DateParse "tomorrow" now
               (notAbsolute_no_hyphen DateParse "tomorrow" eq_refl) eq_refl Hrange Hday).
    reflexivity.
Qed.

Lemma C7_tomorrow_witness :
  Reminders.parseRemindAt Samples.newYork Samples.noDateParse "tomorrow 9am"
    Samples.nyNight
  = Some (JsDate.mkDate (Int 1710075600000)).
Proof.
  apply (proj1 (proj2 (proj2 (proj2
           (C7_tomorrow Samples.newYork Samples.noDateParse
              "tomorrow 9am" Samples.nyNight
              eq_refl eq_refl ltac:(vm_compute; discriminate) eq_refl))))).
Defined.

(** C7, as the specification states it, fails: at 2024-03-10T15:00:00Z in
    the UTC zone, "tomorrow 24" resolves to a time two calendar days after
    the reference time. *)
Lemma C7_counterexample :
  ~ (forall (LocalTZA : Z -> bool -> Z) (DateParse : string -> Number)
            (input : string) (now : Z),
        JsStr.startsWith (JsStr.trim (JsStr.toLowerCase input)) "tomorrow" = true ->
        exists t,
          Reminders.parseRemindAt LocalTZA DateParse input now
          = Some (JsDate.mkDate (Int t))
          /\ JsDate.Day (JsDate.LocalTime LocalTZA t)
             = JsDate.Day (JsDate.LocalTime LocalTZA now) + 1).
Proof.
  intros H.
  destruct (H Samples.utc Samples.noDateParse "tomorrow 24" Samples.t0 eq_refl)
    as [t [Ht Hday]].
  vm_compute in Ht. injection Ht as <-.
  vm_compute in Hday. discriminate Hday.
Qed.

(** ** The reminder executors *)

Section ExecutorFacts.

Import Reminders.

Variable LocalTZA : Z -> bool -> Z.
Variable DateParse : string -> Number.
Variable isoFormat : Z -> string.
Variable reminderApi : ApiRequest -> Outcome Z.

Lemma executeCreateReminder_unparseable (args : ToolArgs) (input : string)
    (w : World) :
  remindAt args = Some input ->
  parseRemindAt LocalTZA DateParse input (clock w) = None ->
  executeCreateReminder LocalTZA DateParse isoFormat reminderApi args w
  = (Returned (couldNotParse input), w).
Proof.
  intros Harg Hparse.
  unfold executeCreateReminder, bind, callParseRemindAt.
  rewrite Harg, Hparse. reflexivity.
Qed.

Lemma executeUpdateReminder_unparseable (args : ToolArgs) (input : string)
    (w : World) :
  remindAt args = Some input ->
  input <> "" ->
  parseRemindAt LocalTZA DateParse input (clock w) = None ->
  executeUpdateReminder LocalTZA DateParse isoFormat reminderApi args w
  = (Returned (couldNotParse input), w).
Proof.
  intros Harg Hne Hparse.
  unfold executeUpdateReminder, truthyArg, bind, callParseRemindAt.
  rewrite Harg. simpl.
  apply isEmpty_false_iff in Hne. rewrite Hne. simpl.
  rewrite Hparse. reflexivity.
Qed.

(** The empty string is unparseable on every host. *)
Lemma parseRemindAt_empty (now : Z) :
  parseRemindAt LocalTZA DateParse "" now = None.
Proof.
  unfold parseRemindAt. simpl. rewrite andb_false_r. reflexivity.
Qed.

(** With the empty string as the new time, the update executor skips the
    resolver and sends the update. *)
Lemma executeUpdateReminder_empty (args : ToolArgs) (w : World) :
  remindAt args = Some "" ->
  exists updateData,
    snd (executeUpdateReminder LocalTZA DateParse isoFormat reminderApi args w)
    = mkWorld (clock w) (currentOrganizationId w)
        (UpdateReminder (reminderId args) updateData :: requests w)
        (match reminderApi (UpdateReminder (reminderId args) updateData) with
         | Returned _ => S (reloads w)
         | Threw _ => reloads w
         end).
Proof.
  intros Harg.
  exists (if Js.toBoolean (description args)
          then [("description", description args)] else []).
  unfold executeUpdateReminder, truthyArg. rewrite Harg. simpl.
  unfold tryCatch, bind, callApi.
  destruct (reminderApi _); reflexivity.
Qed.

End ExecutorFacts.

(** C8, as the code has it.  When the resolver returns Unparseable on the
    string given as [remindAt], the create executor returns the failure
    result whose message ends with that string, and so does the update
    executor when the string is not empty; neither throws, and the world is
    left as it was: no request reaches the reminder API and no reload is
    dispatched. *)
Theorem C8_unparseable_time_is_reported :
  forall (LocalTZA : Z -> bool -> Z) (DateParse : string -> Number)
         (isoFormat : Z -> string)
         (reminderApi : Reminders.ApiRequest -> Reminders.Outcome Z)
         (args : Reminders.ToolArgs) (input : string) (w : Reminders.World),
    Reminders.remindAt args = Some input ->
    Reminders.parseRemindAt LocalTZA DateParse input (Reminders.clock w) = None ->
    Reminders.executeCreateReminder LocalTZA DateParse isoFormat reminderApi args w
    = (Reminders.Returned
         (Reminders.mkResult false None
            (Some ("Could not parse reminder time: " ++ input)%string)), w)
    /\ (input <> "" ->
        Reminders.executeUpdateReminder LocalTZA DateParse isoFormat reminderApi args w
        = (Reminders.Returned
             (Reminders.mkResult false None
                (Some ("Could not parse reminder time: " ++ input)%string)), w)).
Proof.
  intros LocalTZA DateParse isoFormat reminderApi args input w Harg Hparse.
  split.
  - now apply executeCreateReminder_unparseable.
  - intros Hne. now apply executeUpdateReminder_unparseable.
Qed.

Lemma C8_unparseable_time_is_reported_witness :
  Reminders.executeUpdateReminder Samples.utc Samples.noDateParse
    Samples.isoFormat Samples.reminderApi
    (Samples.updateArgs "not a time") Samples.world0
  = (Reminders.Returned
       (Reminders.mkResult false None
          (Some "Could not parse reminder time: not a time")),
     Samples.world0).
Proof.
  apply (proj2 (C8_unparseable_time_is_reported Samples.utc Samples.noDateParse
                  Samples.isoFormat Samples.reminderApi
                  (Samples.updateArgs "not a time") "not a time" Samples.world0
                  eq_refl ltac:(vm_compute; reflexivity))).
  discriminate.
Defined.

(** C8, as the specification states it, fails for the update executor: the
    empty string is unparseable, but an update whose [remindAt] is the
    empty string is sent to the reminder API and reported as a success. *)
Lemma C8_counterexample :
  ~ (forall (LocalTZA : Z -> bool -> Z) (DateParse : string -> Number)
            (isoFormat : Z -> string)
            (reminderApi : Reminders.ApiRequest -> Reminders.Outcome Z)
            (args : Reminders.ToolArgs) (input : string) (w : Reminders.World),
        Reminders.remindAt args = Some input ->
        Reminders.parseRemindAt LocalTZA DateParse input (Reminders.clock w) = None ->
        exists result,
          Reminders.executeUpdateReminder LocalTZA DateParse isoFormat reminderApi
            args w
          = (Reminders.Returned result, w)
          /\ Reminders.success result = false).
Proof.
  intros H.
  destruct (H Samples.utc Samples.noDateParse Samples.isoFormat Samples.reminderApi
              (Samples.updateArgs "") "" Samples.world0 eq_refl eq_refl)
    as [result [Hrun _]].
  vm_compute in Hrun. discriminate Hrun.
Qed.

(* ================================================================== *)
(** * Part III.  Further properties of the code                         *)
(* ================================================================== *)

(** ** normalizeFieldValue: results and composition *)

Section NormalizeMore.

Lemma normalize_falsy (field : FormField) (v : JsValue) :
  Js.toBoolean v = false -> normalizeFieldValue field v = JsUndefined.
Proof. intros H. unfold normalizeFieldValue. now rewrite H. Qed.

Lemma normalize_multiselect_shape (field : FormField) (v : JsValue) :
  type field = multiselect -> Js.toBoolean v = true ->
  exists items, normalizeFieldValue field v = JsArray (map JsString items).
Proof.
  intros Ht Hv. unfold normalizeFieldValue. rewrite Ht, Hv. cbn [negb].
  destruct v as [| | b | n | s | items | props].
  - discriminate Hv.
  - discriminate Hv.
  - destruct (Js.isUndefined (toPrimitiveValue (JsBool b)));
      [exists [] | eexists [_]]; reflexivity.
  - destruct (Js.isUndefined (toPrimitiveValue (JsNumber n)));
      [exists [] | eexists [_]]; reflexivity.
  - eexists. reflexivity.
  - exists (map Js.toString (filter Js.toBoolean (map toPrimitiveValue items))).
    now rewrite map_map.
  - destruct (Js.isUndefined (toPrimitiveValue (JsObject props)));
      [exists [] | eexists [_]]; reflexivity.
Qed.

Lemma normalize_select_shape (field : FormField) (v : JsValue) :
  type field = select -> Js.toBoolean v = true ->
  exists s, normalizeFieldValue field v = JsString s.
Proof.
  intros Ht Hv. unfold normalizeFieldValue. rewrite Ht, Hv. cbn [negb].
  match goal with
  | |- context [Js.isUndefined ?p] => destruct (Js.isUndefined p)
  end; eexists; reflexivity.
Qed.

Lemma normalize_select_string (field : FormField) (s : string) :
  type field = select -> s <> "" ->
  normalizeFieldValue field (JsString s) = JsString s.
Proof.
  intros Ht Hs. unfold normalizeFieldValue. rewrite Ht.
  destruct s; [congruence | reflexivity].
Qed.

End NormalizeMore.

(** X1.  For a select or multiselect field the result is [undefined]
    exactly when the input is falsy; otherwise it is a string for a select
    field and a sequence of strings for a multiselect field, whatever the
    input is.  For any other field type the input comes back as it is, when
    it is not falsy. *)
Theorem X1_normalize_result_shape :
  forall (field : FormField) (v : JsValue),
    (Js.toBoolean v = false -> normalizeFieldValue field v = JsUndefined)
    /\ (Js.toBoolean v = true ->
        (type field = multiselect ->
         exists items, normalizeFieldValue field v = JsArray (map JsString items))
        /\ (type field = select ->
            exists s, normalizeFieldValue field v = JsString s)
        /\ (type field <> select -> type field <> multiselect ->
            normalizeFieldValue field v = v)).
Proof.
  intros field v. split; [apply normalize_falsy |].
  intros Hv. repeat split.
  - intros Ht. now apply normalize_multiselect_shape.
  - intros Ht. now apply normalize_select_shape.
  - intros Hs Hm. unfold normalizeFieldValue. rewrite Hv. cbn [negb].
    destruct (type field); congruence.
Qed.

Lemma X1_normalize_result_shape_witness :
  exists s,
    normalizeFieldValue Samples.pipeline
      (JsArray [JsObject [("id", JsNumber (Int 7))]; JsString "x"])
    = JsString s.
Proof.
  apply (proj1 (proj2 (proj2 (X1_normalize_result_shape Samples.pipeline
                                (JsArray [JsObject [("id", JsNumber (Int 7))];
                                          JsString "x"]))
                         eq_refl))).
  reflexivity.
Defined.

(** X2.  For a multiselect field, normalising a comma-separated string and
    normalising the result again gives the same sequence: the segments that
    are kept are not empty, and the sequence branch keeps such strings. *)
Theorem X2_normalize_comma_string_idempotent :
  forall (field : FormField) (s : string),
    type field = multiselect ->
    normalizeFieldValue field (normalizeFieldValue field (JsString s))
    = normalizeFieldValue field (JsString s).
Proof.
  intros field s Ht.
  destruct s as [| c s].
  - reflexivity.
  - set (items := filter (fun item => negb (JsStr.isEmpty item))
                    (map JsStr.trim (JsStr.split "," (String c s)))).
    assert (Hs : normalizeFieldValue field (JsString (String c s))
                 = JsArray (map JsString items)).
    { unfold normalizeFieldValue. now rewrite Ht. }
    rewrite Hs, normalize_multiselect_strings by exact Ht.
    unfold items. now rewrite filter_nonEmpty_idem.
Qed.

Lemma X2_normalize_comma_string_idempotent_witness :
  normalizeFieldValue Samples.labels
    (normalizeFieldValue Samples.labels (JsString " a, ,b ,"))
  = normalizeFieldValue Samples.labels (JsString " a, ,b ,").
Proof.
  apply (X2_normalize_comma_string_idempotent Samples.labels " a, ,b ,").
  reflexivity.
Defined.

(** X3.  For a select field, a sequence is normalised through its first
    element alone; a string that is not empty is returned as it is; and
    normalising a result again changes it only when it is the empty string,
    which becomes [undefined]. *)
Theorem X3_normalize_select_first_element :
  forall (field : FormField),
    type field = select ->
    (forall e rest,
        normalizeFieldValue field (JsArray (e :: rest))
        = normalizeFieldValue field (JsArray [e]))
    /\ (forall s, s <> "" -> normalizeFieldValue field (JsString s) = JsString s)
    /\ (forall v,
          normalizeFieldValue field v <> JsString "" ->
          normalizeFieldValue field (normalizeFieldValue field v)
          = normalizeFieldValue field v)
    /\ (forall v,
          normalizeFieldValue field v = JsString "" ->
          normalizeFieldValue field (normalizeFieldValue field v) = JsUndefined).
Proof.
  intros field Ht. repeat split.
  - intros e rest. unfold normalizeFieldValue. now rewrite Ht.
  - intros s Hs. now apply normalize_select_string.
  - intros v Hne.
    destruct (Js.toBoolean v) eqn:Hv.
    + destruct (normalize_select_shape field v Ht Hv) as [s Hs].
      rewrite Hs in *. apply normalize_select_string; congruence.
    + now rewrite (normalize_falsy field v Hv).
  - intros v Hv. rewrite Hv. reflexivity.
Qed.

Lemma X3_normalize_select_first_element_witness :
  normalizeFieldValue Samples.pipeline (JsArray [JsString "1"; JsString "2"])
  = normalizeFieldValue Samples.pipeline (JsArray [JsString "1"]).
Proof.
  apply (proj1 (X3_normalize_select_first_element Samples.pipeline eq_refl)).
Defined.

(** X4.  The primitive of an object is decided by the first of its
    attributes value, id, key, name, label that is neither [undefined] nor
    [null]: the primitive is that attribute when it is truthy and there is
    none otherwise, so a value attribute that is 0 or the empty string
    hides an id that follows. *)
Theorem X4_toPrimitiveValue_precedence :
  forall props : list (string * JsValue),
    toPrimitiveValue (JsObject props)
    = match List.find (fun x => negb (Js.isNullish x))
              (map (fun k => Js.lookup k props)
                 ["value"; "id"; "key"; "name"; "label"]) with
      | Some candidate => if Js.toBoolean candidate then candidate else JsUndefined
      | None => JsUndefined
      end.
Proof.
  intros props. unfold toPrimitiveValue. cbn [Js.toBoolean negb Js.isObject Js.get].
  cbn [map List.find]. unfold Js.coalesce.
  destruct (Js.isNullish (Js.lookup "value" props)) eqn:E1; cbn [negb].
  - destruct (Js.isNullish (Js.lookup "id" props)) eqn:E2; cbn [negb].
    + destruct (Js.isNullish (Js.lookup "key" props)) eqn:E3; cbn [negb].
      * destruct (Js.isNullish (Js.lookup "name" props)) eqn:E4; cbn [negb].
        -- destruct (Js.isNullish (Js.lookup "label" props)) eqn:E5; cbn [negb].
           ++ destruct (Js.lookup "label" props); try discriminate E5; reflexivity.
           ++ now destruct (Js.toBoolean (Js.lookup "label" props)).
        -- now destruct (Js.toBoolean (Js.lookup "name" props)).
      * rewrite E3. now destruct (Js.toBoolean (Js.lookup "key" props)).
    + rewrite E2, E2. now destruct (Js.toBoolean (Js.lookup "id" props)).
  - rewrite E1, E1, E1. now destruct (Js.toBoolean (Js.lookup "value" props)).
Qed.

(** ** buildFormFieldsFromProperties: names and default values *)

Section BuilderMore.

Import Forms.

Variable getPropertyType : Property.t -> string -> StandardPropertyType.
Variable formatSnakeCaseLabel : string -> string.
Variable nowLocalISO : string.

Lemma find_existsb {A} (f : A -> bool) (l : list A) :
  existsb f l = match find f l with Some _ => true | None => false end.
Proof.
  unfold find. induction l as [| a l IH]; simpl; [reflexivity |].
  destruct (f a); [reflexivity | exact IH].
Qed.

(** The names of the fields made from the requested names, before the
    ordering pass: the requested names that have a property, in order. *)
Lemma mapDefined_buildField_names (properties : list Property.t)
    (provider : string) (fieldNames : list string) :
  map name
    (mapDefined (buildField getPropertyType formatSnakeCaseLabel nowLocalISO
                   properties provider) fieldNames)
  = filter (fun n => existsb (fun p => String.eqb (Property.standardName p) n)
                       properties)
      fieldNames.
Proof.
  induction fieldNames as [| n names IH]; [reflexivity |].
  cbn [mapDefined filter]. rewrite find_existsb.
  unfold buildField at 1.
  destruct (find (fun p => String.eqb (Property.standardName p) n) properties);
    cbn [map]; now rewrite IH.
Qed.

Lemma NoDup_filter {A} (f : A -> bool) (l : list A) :
  NoDup l -> NoDup (filter f l).
Proof.
  induction 1 as [| x l Hx _ IH]; simpl; [constructor |].
  destruct (f x); [| exact IH].
  constructor; [| exact IH]. intros Hin. apply Hx.
  now apply filter_In in Hin.
Qed.

(** The default value of a built field, by its final type. *)
Lemma buildField_value (properties : list Property.t) (provider fname : string)
    (field : FormField) :
  buildField getPropertyType formatSnakeCaseLabel nowLocalISO
    properties provider fname = Some field ->
  match type field with
  | multiselect => value field = Many []
  | select =>
      forall o os, options field = Some (OptionList (o :: os)) ->
                   value field = Single (opt_value o)
  | text | textarea => value field = Single ""
  | number => value field = Single "0"
  | date => value field = Single nowLocalISO
  end.
Proof.
  unfold buildField.
  destruct (find _ properties) as [property |]; [| discriminate].
  intros H. injection H as <-. cbn [type value options].
  unfold resolveFormType, declaresMultiselect.
  destruct (String.eqb (Property.type property) "multiselect");
    [reflexivity |].
  cbn [orb].
  destruct (getPropertyType property provider);
    cbn [isMULTISELECT mapPropertyTypeToFormType getDefaultValue];
    try reflexivity;
    destruct (Property.options property) as [[[| o os] | [| kv m]] |];
    cbn [List.length Nat.eqb negb];
    try reflexivity;
    intros o' os' Heq; solve [discriminate Heq | now injection Heq as <- _].
Qed.

End BuilderMore.

(** X5.  The dynamic builder returns one field for every requested name
    that has a property of that standard name and none for the others: the
    names of its result are a permutation of the requested names that have
    a property, so the result has no two fields of one name when no name is
    requested twice. *)
Theorem X5_builder_names :
  forall (getPropertyType : Property.t -> string -> StandardPropertyType)
         (formatSnakeCaseLabel : string -> string) (nowLocalISO : string)
         (fieldNames : list string) (properties : list Property.t)
         (provider : string),
    let built :=
      Forms.buildFormFieldsFromProperties getPropertyType formatSnakeCaseLabel
        nowLocalISO fieldNames properties provider in
    Permutation (map name built)
      (filter (fun n => existsb (fun p => String.eqb (Property.standardName p) n)
                          properties)
         fieldNames)
    /\ (forall n, In n (map name built)
                  <-> In n fieldNames
                      /\ exists p, In p properties /\ Property.standardName p = n)
    /\ (NoDup fieldNames -> NoDup (map name built)).
Proof.
  intros gpt fmt iso fieldNames properties provider built.
  assert (Hperm :
            Permutation (map name built)
              (filter (fun n => existsb
                                  (fun p => String.eqb (Property.standardName p) n)
                                  properties)
                 fieldNames)).
  { unfold built, Forms.buildFormFieldsFromProperties.
    rewrite (Permutation_map name (sortFieldsByPriority_perm _)).
    now rewrite mapDefined_buildField_names. }
  split; [exact Hperm |]. split.
  - intros n. split.
    + intros Hin. apply (Permutation_in _ Hperm) in Hin.
      apply filter_In in Hin. destruct Hin as [Hn Hex].
      split; [exact Hn |]. apply existsb_exists in Hex.
      destruct Hex as [p [Hp Heq]]. exists p. split; [exact Hp |].
      now apply String.eqb_eq.
    + intros [Hn [p [Hp Heq]]].
      apply (Permutation_in _ (Permutation_sym Hperm)).
      apply filter_In. split; [exact Hn |].
      apply existsb_exists. exists p. split; [exact Hp |].
      now apply String.eqb_eq.
  - intros Hnd. eapply Permutation_NoDup; [symmetry; exact Hperm |].
    now apply NoDup_filter.
Qed.

Lemma X5_builder_names_witness :
  NoDup
    (map name
       (Forms.buildFormFieldsFromProperties Samples.getPropertyType
          Samples.formatSnakeCaseLabel "2024-03-10T15:00"
          ["title"; "label_ids"; "missing"]
          [Samples.labelIds; Property.mk "title" "Title" "text" None None]
          "pipedrive")).
Proof.
  apply (proj2 (proj2 (X5_builder_names Samples.getPropertyType
                         Samples.formatSnakeCaseLabel "2024-03-10T15:00"
                         ["title"; "label_ids"; "missing"]
                         [Samples.labelIds;
                          Property.mk "title" "Title" "text" None None]
                         "pipedrive"))).
  repeat (constructor; [simpl; intuition discriminate |]). constructor.
Defined.

(** X6.  In the result of the dynamic builder the default value follows
    the final type of the field: the empty sequence for a multiselect
    field, the value of the first option for a select field with a
    non-empty option list, the empty string for text and textarea, "0" for
    number and the current local time for date. *)
Theorem X6_builder_default_values :
  forall (getPropertyType : Property.t -> string -> StandardPropertyType)
         (formatSnakeCaseLabel : string -> string) (nowLocalISO : string)
         (fieldNames : list string) (properties : list Property.t)
         (provider : string) (field : FormField),
    In field
      (Forms.buildFormFieldsFromProperties getPropertyType formatSnakeCaseLabel
         nowLocalISO fieldNames properties provider) ->
    match type field with
    | multiselect => value field = Many []
    | select =>
        forall o os, options field = Some (OptionList (o :: os)) ->
                     value field = Single (opt_value o)
    | text | textarea => value field = Single ""
    | number => value field = Single "0"
    | date => value field = Single nowLocalISO
    end.
Proof.
  intros gpt fmt iso fieldNames properties provider field Hin.
  apply (Permutation_in _ (sortFieldsByPriority_perm _)) in Hin.
  apply in_mapDefined in Hin. destruct Hin as [fname [_ Hb]].
  now apply (buildField_value gpt fmt iso properties provider fname).
Qed.

Lemma X6_builder_default_values_witness :
  value
    {| type := multiselect; label := None; providerLabel := Some "Labels";
       value := Many []; name := "label_ids"; options := None;
       dependsOn := None; metadata := None; isFutureOnly := None |}
  = Many [].
Proof.
  apply (X6_builder_default_values Samples.getPropertyType
           Samples.formatSnakeCaseLabel "2024-03-10T15:00"
           ["label_ids"] [Samples.labelIds] "pipedrive"
           {| type := multiselect; label := None; providerLabel := Some "Labels";
              value := Many []; name := "label_ids"; options := None;
              dependsOn := None; metadata := None; isFutureOnly := None |}).
  left. reflexivity.
Defined.

(** ** sortFieldsByPriority without dependent fields *)

Section SortMore.

Import Forms.

Lemma sort_sorted_id {A} (rank : A -> Z) (l : list A) :
  StronglySorted (fun a b => rank a <= rank b) l ->
  sort (fun a b => rank a - rank b) l = l.
Proof.
  induction 1 as [| x l Hl IH Hx]; [reflexivity |].
  cbn [sort]. rewrite IH.
  destruct l as [| y l']; [reflexivity |].
  cbn [insertSorted].
  inversion Hx as [| ? ? Hxy _]; subst.
  destruct (Z.leb_spec (rank x - rank y) 0); [reflexivity | lia].
Qed.

Lemma filter_none {A} (g : A -> bool) (l : list A) :
  (forall x, In x l -> g x = false) -> filter g l = [].
Proof.
  induction l as [| x l IH]; intros H; simpl; [reflexivity |].
  rewrite (H x) by now left. apply IH. intros; apply H; now right.
Qed.

Lemma sortedIndependent_split (fields : list FormField) (f : FormField) :
  (In f (titleFields fields) -> hasDependsOn f = false /\ isTitleField f = true)
  /\ (In f (sort comparePriority (independent fields)) ->
      hasDependsOn f = false /\ isTitleField f = false).
Proof.
  split; intros H.
  - unfold titleFields in H. apply filter_In in H. destruct H as [_ H].
    apply andb_true_iff in H. destruct H as [H1 H2].
    now apply negb_true_iff in H1.
  - apply (Permutation_in _ (sort_perm _ _)) in H.
    unfold independent in H. apply filter_In in H. destruct H as [_ H].
    apply andb_true_iff in H. destruct H as [H1 H2].
    apply negb_true_iff in H1. now apply negb_true_iff in H2.
Qed.

Lemma sortFieldsByPriority_no_dependent (fields : list FormField) :
  (forall f, In f fields -> hasDependsOn f = false) ->
  sortFieldsByPriority fields = sortedIndependent fields.
Proof.
  intros H. unfold sortFieldsByPriority, dependent.
  now rewrite (filter_none _ _ H).
Qed.

Lemma sortedIndependent_fixed (fields : list FormField) :
  sortedIndependent (sortedIndependent fields) = sortedIndependent fields.
Proof.
  unfold sortedIndependent at 1 3.
  set (T := titleFields fields).
  set (S := sort comparePriority (independent fields)).
  assert (HT : forall f, In f T -> hasDependsOn f = false /\ isTitleField f = true)
    by (intros f; apply sortedIndependent_split).
  assert (HS : forall f, In f S -> hasDependsOn f = false /\ isTitleField f = false)
    by (intros f; apply sortedIndependent_split).
  unfold sortedIndependent, titleFields, independent.
  rewrite !filter_app.
  rewrite (filter_all_true _ T), (filter_none _ S), app_nil_r.
  - rewrite (filter_none _ T), (filter_all_true _ S).
    + cbn [app]. f_equal.
      apply (sort_sorted_id (fun f => typePriority (type f))).
      apply (sort_sorted (fun f => typePriority (type f))).
    + intros f Hf. destruct (HS f Hf) as [H1 H2]. now rewrite H1, H2.
    + intros f Hf. destruct (HT f Hf) as [H1 H2]. now rewrite H1, H2.
  - intros f Hf. destruct (HS f Hf) as [H1 H2]. now rewrite H1, H2.
  - intros f Hf. destruct (HT f Hf) as [H1 H2]. now rewrite H1, H2.
Qed.

End SortMore.

(** X7.  On fields none of which declares [dependsOn], the ordering pass
    is idempotent: its result is the title-like fields followed by the
    others sorted by type priority, and ordering that result again leaves
    it as it is. *)
Theorem X7_sort_idempotent_without_dependents :
  forall fields : list FormField,
    (forall f, In f fields -> Forms.hasDependsOn f = false) ->
    Forms.sortFieldsByPriority fields
    = Forms.titleFields fields
        ++ Forms.sort Forms.comparePriority (Forms.independent fields)
    /\ Forms.sortFieldsByPriority (Forms.sortFieldsByPriority fields)
       = Forms.sortFieldsByPriority fields.
Proof.
  intros fields H.
  rewrite (sortFieldsByPriority_no_dependent fields H).
  split; [reflexivity |].
  rewrite sortFieldsByPriority_no_dependent.
  - apply sortedIndependent_fixed.
  - intros f Hf. now apply (sortedIndependent_free fields).
Qed.

Lemma X7_sort_idempotent_without_dependents_witness :
  Forms.sortFieldsByPriority
    (Forms.sortFieldsByPriority [Samples.amount; Samples.pipeline; Samples.title])
  = Forms.sortFieldsByPriority [Samples.amount; Samples.pipeline; Samples.title].
Proof.
  apply (proj2 (X7_sort_idempotent_without_dependents
                  [Samples.amount; Samples.pipeline; Samples.title]
                  ltac:(simpl; intros f [<- | [<- | [<- | []]]]; reflexivity))).
Defined.

(** ** The static path of [EntityForm] *)

Section StaticMore.

Import Forms ProviderEntityForm.

Variable getPropertyLabel : list Property.t -> string -> option string.
Variable getPropertyOptions : list Property.t -> string -> option FieldOptions.

Lemma enrich_keeps (props : list Property.t) (field : FormField) :
  let e := enrich getPropertyLabel getPropertyOptions props field in
  name e = name field /\ type e = type field /\ value e = value field
  /\ label e = label field /\ dependsOn e = dependsOn field
  /\ (options e = options field
      \/ isSelectLike (type field) = true /\ isNonEmptyArray (options e) = true).
Proof.
  unfold enrich.
  destruct (isSelectLike (type field)) eqn:Hs; cbn; [| tauto].
  destruct (isNonEmptyArray (getPropertyOptions props (name field))) eqn:Ho;
    cbn; tauto.
Qed.

(** A template field that is no select, or that has options of its own,
    passes the filter once enriched. *)
Lemma enrich_passes (props : list Property.t) (field : FormField) :
  hasOptionsIfSelect field = true ->
  hasOptionsIfSelect (enrich getPropertyLabel getPropertyOptions props field) = true.
Proof.
  unfold hasOptionsIfSelect, enrich.
  destruct (isSelectLike (type field)) eqn:Hs; cbn; [| now rewrite Hs].
  destruct (isNonEmptyArray (getPropertyOptions props (name field))) eqn:Ho;
    cbn; rewrite Hs; auto.
Qed.

Lemma forms_have_options (loadLocalISO : string) (entityType : ProviderEntityType)
    (baseFields : list FormField) :
  forms loadLocalISO entityType = Some baseFields ->
  forall field, In field baseFields -> hasOptionsIfSelect field = true.
Proof.
  intros Hforms field Hin.
  destruct entityType; injection Hforms as <-; simpl in Hin;
    repeat (destruct Hin as [<- | Hin]; [reflexivity |]); destruct Hin.
Qed.

End StaticMore.

(** X8.  On the static path (no dynamic fields for the provider, any
    entity type but a page) the form has exactly the fields of the static
    template, in the order of the template and with its names, types,
    values and labels, whatever the provider's metadata: the filter that
    hides select fields without options removes no template field. *)
Theorem X8_static_path_keeps_template :
  forall (entityTypeTag : ProviderEntityType -> string)
         (hasDynamicFields : string -> ProviderEntityType -> bool)
         (getFieldNamesForProvider : string -> ProviderEntityType -> list string)
         (getPropertyType : Property.t -> string -> StandardPropertyType)
         (formatSnakeCaseLabel : string -> string)
         (nowLocalISO loadLocalISO : string)
         (getPropertyLabel : list Property.t -> string -> option string)
         (getPropertyOptions : list Property.t -> string -> option FieldOptions)
         (decodeEntityId : string -> list string)
         (convertNotionPropertiesToFormFields :
            list Property.t -> JsValue -> list FormField)
         (provider : string) (entityType : ProviderEntityType)
         (entity : option ProviderEntityForm.ProviderEntity)
         (properties : list PropertiesByEntityType.t)
         (fieldFilter : ProviderEntityForm.FieldFilter)
         (databaseId : option string) (baseFields : list FormField),
    hasDynamicFields provider entityType = false ->
    entityType <> Page ->
    Forms.forms loadLocalISO entityType = Some baseFields ->
    let formFields :=
      ProviderEntityForm.formFields entityTypeTag hasDynamicFields
        getFieldNamesForProvider getPropertyType formatSnakeCaseLabel
        nowLocalISO loadLocalISO getPropertyLabel getPropertyOptions
        decodeEntityId convertNotionPropertiesToFormFields
        provider entityType entity properties fieldFilter databaseId in
    map name formFields = map name baseFields
    /\ map type formFields = map type baseFields
    /\ map value formFields = map value baseFields
    /\ map label formFields = map label baseFields.
Proof.
  intros tag hdf gfn gpt fmt iso loadISO gpl gpo dec conv provider entityType
    entity properties fieldFilter databaseId baseFields Hdyn Hpage Hforms formFields.
  assert (Heq : formFields
                = map (ProviderEntityForm.enrich gpl gpo
                         (ProviderEntityForm.propsOf tag properties entityType))
                    baseFields).
  { unfold formFields, ProviderEntityForm.formFields.
    rewrite Hdyn, Hforms.
    destruct entityType; try congruence;
      (apply filter_all_true; intros f Hf;
       apply in_map_iff in Hf; destruct Hf as [g [<- Hg]];
       apply enrich_passes;
       eapply forms_have_options; eauto). }
  rewrite Heq, !map_map.
  repeat split; apply map_ext; intros f;
    destruct (enrich_keeps gpl gpo
                (ProviderEntityForm.propsOf tag properties entityType) f)
      as [H1 [H2 [H3 [H4 _]]]]; assumption.
Qed.

Lemma X8_static_path_keeps_template_witness :
  map name
    (ProviderEntityForm.formFields Samples.entityTypeTag Samples.hasDynamicFields
       Samples.getFieldNamesForProvider Samples.getPropertyType
       Samples.formatSnakeCaseLabel "2024-03-10T15:00" "2024-03-10T09:00"
       Samples.getPropertyLabel Samples.getPropertyOptions
       Samples.decodeEntityId Samples.convertNotionPropertiesToFormFields
       "salesforce" Task None [] ProviderEntityForm.all None)
  = ["subject"; "date"; "body"; "taskType"; "priority"].
Proof.
  apply (proj1 (X8_static_path_keeps_template Samples.entityTypeTag
                  Samples.hasDynamicFields
                  Samples.getFieldNamesForProvider Samples.getPropertyType
                  Samples.formatSnakeCaseLabel
                  "2024-03-10T15:00" "2024-03-10T09:00"
                  Samples.getPropertyLabel Samples.getPropertyOptions
                  Samples.decodeEntityId
                  Samples.convertNotionPropertiesToFormFields
                  "salesforce" Task None [] ProviderEntityForm.all None
                  _ eq_refl ltac:(discriminate) eq_refl)).
Defined.

(** ** Objects used as maps *)

Section ObjFacts.

Context {V : Type}.

Lemma get_set_same (o : Obj.t V) (k : string) (v : V) :
  Obj.get (Obj.set o k v) k = Some v.
Proof.
  induction o as [| [k' v'] o IH]; simpl.
  - now rewrite String.eqb_refl.
  - destruct (String.eqb k' k) eqn:E; simpl.
    + now rewrite String.eqb_refl.
    + now rewrite E.
Qed.

Lemma get_set_other (o : Obj.t V) (k k' : string) (v : V) :
  k <> k' -> Obj.get (Obj.set o k v) k' = Obj.get o k'.
Proof.
  intros Hne. induction o as [| [k0 v0] o IH]; simpl.
  - apply String.eqb_neq in Hne. now rewrite Hne.
  - destruct (String.eqb k0 k) eqn:E; simpl.
    + apply String.eqb_eq in E. subst k0.
      apply String.eqb_neq in Hne. now rewrite Hne.
    + destruct (String.eqb k0 k'); [reflexivity | exact IH].
Qed.

Lemma keys_set (o : Obj.t V) (k : string) (v : V) :
  Obj.keys (Obj.set o k v)
  = if existsb (String.eqb k) (Obj.keys o) then Obj.keys o else Obj.keys o ++ [k].
Proof.
  unfold Obj.keys. induction o as [| [k' v'] o IH]; simpl; [reflexivity |].
  rewrite (String.eqb_sym k k').
  destruct (String.eqb k' k) eqn:E; simpl.
  - apply String.eqb_eq in E. now subst.
  - rewrite IH. now destruct (existsb (String.eqb k) (map fst o)).
Qed.







End ObjFacts.

(** ** The [form] state of [EntityForm] *)

Section FormStateFacts.

Import ProviderEntityForm EntityFormState.

Lemma find_app_first {A} (g : A -> bool) (l1 l2 : list A) :
  find g (l1 ++ l2)
  = match find g l1 with Some x => Some x | None => find g l2 end.
Proof.
  induction l1 as [| x l1 IH]; simpl; [reflexivity |].
  destruct (g x); [reflexivity | exact IH].
Qed.

(** The reduction, from any accumulator: the last field of a name decides
    the entry of that name. *)
Lemma get_reduce (values : string -> option FieldValue)
    (formFields : list FormField) (acc : Form) (k : string) :
  Obj.get
    (fold_left (fun acc field => Obj.set acc (name field) (initEntry values field))
       formFields acc) k
  = match find (fun f => String.eqb (name f) k) (rev formFields) with
    | Some f => Some (initEntry values f)
    | None => Obj.get acc k
    end.
Proof.
  revert acc. induction formFields as [| f fields IH]; intros acc; simpl.
  - reflexivity.
  - rewrite IH, find_app_first.
    destruct (find (fun f0 => String.eqb (name f0) k) (rev fields));
      [reflexivity |].
    simpl. destruct (String.eqb_spec (name f) k) as [<- | Hne].
    + apply get_set_same.
    + now apply get_set_other.
Qed.

Lemma find_unique_name (formFields : list FormField) (f : FormField) :
  NoDup (map name formFields) -> In f formFields ->
  find (fun g => String.eqb (name g) (name f)) formFields = Some f.
Proof.
  induction formFields as [| g fields IH]; intros Hnd Hin; [destruct Hin |].
  simpl. inversion Hnd as [| ? ? Hnot Hrest]; subst.
  destruct Hin as [-> | Hin].
  - now rewrite String.eqb_refl.
  - destruct (String.eqb_spec (name g) (name f)) as [E | _].
    + exfalso. apply Hnot. rewrite E. now apply in_map.
    + now apply IH.
Qed.

Lemma find_none_name {A} (g : A -> bool) (l : list A) :
  (forall x, In x l -> g x = false) -> find g l = None.
Proof.
  induction l as [| x l IH]; intros H; simpl; [reflexivity |].
  rewrite (H x) by now left. apply IH. intros; apply H; now right.
Qed.

Lemma reduceForm_get (values : string -> option FieldValue)
    (formFields : list FormField) (f : FormField) :
  NoDup (map name formFields) -> In f formFields ->
  Obj.get (reduceForm values formFields) (name f) = Some (initEntry values f).
Proof.
  intros Hnd Hin. unfold reduceForm. rewrite get_reduce.
  rewrite find_unique_name; [reflexivity | | now apply in_rev in Hin].
  eapply Permutation_NoDup; [| exact Hnd].
  apply Permutation_map, Permutation_rev.
Qed.

Lemma reduceForm_get_none (values : string -> option FieldValue)
    (formFields : list FormField) (k : string) :
  ~ In k (map name formFields) ->
  Obj.get (reduceForm values formFields) k = None.
Proof.
  intros Hk. unfold reduceForm. rewrite get_reduce.
  rewrite find_none_name; [reflexivity |].
  intros f Hf. apply in_rev in Hf. apply String.eqb_neq.
  intros E. apply Hk. rewrite <- E. now apply in_map.
Qed.

End FormStateFacts.

Section HandleChangeFacts.

Import ProviderEntityForm EntityFormState.

Variable key : string.
Variable v : FieldValue.

Lemma resetStep_get_other (updated : Form) (field : FormField) (k : string) :
  (resetsOn key field = true -> name field <> k) ->
  Obj.get (resetStep key v updated field) k = Obj.get updated k.
Proof.
  intros H. unfold resetStep.
  destruct (resetsOn key field); [| reflexivity].
  apply get_set_other. now apply H.
Qed.

Lemma fold_resetStep_get_other (formFields : list FormField) (updated : Form)
    (k : string) :
  (forall f, In f formFields -> resetsOn key f = true -> name f <> k) ->
  Obj.get (fold_left (resetStep key v) formFields updated) k = Obj.get updated k.
Proof.
  revert updated. induction formFields as [| f fields IH]; intros updated H;
    simpl; [reflexivity |].
  rewrite IH by (intros g Hg; apply H; now right).
  apply resetStep_get_other. apply H. now left.
Qed.

Lemma resetStep_get_reset (updated : Form) (field : FormField) :
  resetsOn key field = true ->
  option_map entry_value (Obj.get (resetStep key v updated field) (name field))
  = Some (resetValue field v).
Proof.
  intros H. unfold resetStep. rewrite H, get_set_same. reflexivity.
Qed.

(** A step changes values only: an entry keeps the field it was made
    from. *)
Lemma resetStep_keeps_field (updated : Form) (field : FormField) (k : string)
    (e : FormEntry) :
  Obj.get updated k = Some e ->
  exists e', Obj.get (resetStep key v updated field) k = Some e'
             /\ entry_field e' = entry_field e.
Proof.
  intros He. unfold resetStep.
  destruct (resetsOn key field); [| now exists e].
  destruct (String.eqb_spec (name field) k) as [<- | Hne].
  - rewrite get_set_same, He. eexists. split; reflexivity.
  - rewrite get_set_other by exact Hne. now exists e.
Qed.

Lemma fold_resetStep_keeps_field (formFields : list FormField) (updated : Form)
    (k : string) (e : FormEntry) :
  Obj.get updated k = Some e ->
  exists e', Obj.get (fold_left (resetStep key v) formFields updated) k = Some e'
             /\ entry_field e' = entry_field e.
Proof.
  revert updated e. induction formFields as [| f fields IH]; intros updated e He;
    simpl; [now exists e |].
  destruct (resetStep_keeps_field updated f k e He) as [e1 [H1 F1]].
  destruct (IH _ e1 H1) as [e2 [H2 F2]].
  exists e2. split; [exact H2 | congruence].
Qed.

End HandleChangeFacts.

(** X9.  In the form that [handleChange(key, value)] sets, the entry of
    [key] carries the new value (when [key] is not itself a field that
    depends on [key]), and every select or multiselect field that depends
    on [key] is reset: a select field whose options are a mapping gets the
    value of the first option listed under the new value, or the empty
    string when nothing is listed; a field whose options are no mapping
    gets the empty string, or the empty sequence for a multiselect. *)
Theorem X9_handleChange_resets_dependents :
  forall (formFields : list FormField) (form : EntityFormState.Form)
         (key : string) (v : FieldValue),
    let updated := EntityFormState.handleChange formFields form key v in
    ((forall f, In f formFields -> EntityFormState.resetsOn key f = true ->
                name f <> key) ->
     Obj.get updated key
     = Some (EntityFormState.withValue (Obj.get form key) v))
    /\ (forall l1 f l2,
          formFields = l1 ++ f :: l2 ->
          EntityFormState.resetsOn key f = true ->
          (forall g, In g l2 -> EntityFormState.resetsOn key g = true ->
                     name g <> name f) ->
          option_map EntityFormState.entry_value (Obj.get updated (name f))
          = Some (EntityFormState.resetValue f v))
    /\ (forall f m,
          type f = select -> options f = Some (OptionRecord m) ->
          EntityFormState.resetValue f v
          = Single (match Obj.get m (EntityFormState.optionKey v) with
                    | Some (first :: _) => opt_value first
                    | _ => ""
                    end))
    /\ (forall f,
          (forall m, options f <> Some (OptionRecord m)) ->
          EntityFormState.resetValue f v
          = match type f with multiselect => Many [] | _ => Single "" end).
Proof.
  intros formFields form key v updated. repeat split.
  - intros H. unfold updated, EntityFormState.handleChange.
    rewrite fold_resetStep_get_other by exact H.
    apply get_set_same.
  - intros l1 f l2 Hsplit Hf Hl2.
    unfold updated, EntityFormState.handleChange.
    rewrite Hsplit, fold_left_app. cbn [fold_left].
    rewrite fold_resetStep_get_other by exact Hl2.
    now apply resetStep_get_reset.
  - intros f m Ht Ho. unfold EntityFormState.resetValue. now rewrite Ho, Ht.
  - intros f Hno. unfold EntityFormState.resetValue.
    destruct (options f) as [[l | m] |]; try reflexivity.
    exfalso. now apply (Hno m).
Qed.

Lemma X9_handleChange_resets_dependents_witness :
  option_map EntityFormState.entry_value
    (Obj.get
       (EntityFormState.handleChange [Samples.pipeline; Samples.stageWithOptions]
          (EntityFormState.reduceForm (fun _ => None)
             [Samples.pipeline; Samples.stageWithOptions])
          "pipeline" (Single "2"))
       "stage")
  = Some (Single "won").
Proof.
  apply (proj1 (proj2 (X9_handleChange_resets_dependents
                         [Samples.pipeline; Samples.stageWithOptions]
                         (EntityFormState.reduceForm (fun _ => None)
                            [Samples.pipeline; Samples.stageWithOptions])
                         "pipeline" (Single "2")))
           [Samples.pipeline] Samples.stageWithOptions [] eq_refl eq_refl).
  intros g [].
Defined.

(** X10.  [handleChange(key, value)] leaves every other entry as it was,
    except those of the select and multiselect fields that depend on
    [key]: in particular a field that depends on a field that was reset is
    not reset in turn.  It changes values only: an entry keeps the field
    properties it had. *)
Theorem X10_handleChange_frame :
  forall (formFields : list FormField) (form : EntityFormState.Form)
         (key : string) (v : FieldValue),
    let updated := EntityFormState.handleChange formFields form key v in
    (forall k,
        k <> key ->
        (forall f, In f formFields -> EntityFormState.resetsOn key f = true ->
                   name f <> k) ->
        Obj.get updated k = Obj.get form k)
    /\ (forall k e,
          Obj.get form k = Some e ->
          exists e', Obj.get updated k = Some e'
                     /\ EntityFormState.entry_field e'
                        = EntityFormState.entry_field e).
Proof.
  intros formFields form key v updated. split.
  - intros k Hk H. unfold updated, EntityFormState.handleChange.
    rewrite fold_resetStep_get_other by exact H.
    apply get_set_other. congruence.
  - intros k e He. unfold updated, EntityFormState.handleChange.
    assert (H0 : exists e0,
               Obj.get (Obj.set form key
                          (EntityFormState.withValue (Obj.get form key) v)) k
               = Some e0
               /\ EntityFormState.entry_field e0 = EntityFormState.entry_field e).
    { destruct (String.eqb_spec key k) as [-> | Hne].
      - rewrite get_set_same, He. eexists. split; reflexivity.
      - rewrite get_set_other by exact Hne. now exists e. }
    destruct H0 as [e0 [H0 F0]].
    destruct (fold_resetStep_keeps_field key v formFields _ k e0 H0) as [e' [H' F']].
    exists e'. split; [exact H' | congruence].
Qed.

Lemma X10_handleChange_frame_witness :
  Obj.get
    (EntityFormState.handleChange
       [Samples.pipeline; Samples.stageWithOptions; Samples.reason]
       (EntityFormState.reduceForm (fun _ => None)
          [Samples.pipeline; Samples.stageWithOptions; Samples.reason])
       "pipeline" (Single "2"))
    "reason"
  = Obj.get
      (EntityFormState.reduceForm (fun _ => None)
         [Samples.pipeline; Samples.stageWithOptions; Samples.reason])
      "reason".
Proof.
  apply (proj1 (X10_handleChange_frame
                  [Samples.pipeline; Samples.stageWithOptions; Samples.reason]
                  (EntityFormState.reduceForm (fun _ => None)
                     [Samples.pipeline; Samples.stageWithOptions; Samples.reason])
                  "pipeline" (Single "2"))
           "reason" ltac:(discriminate)).
  intros f [<- | [<- | [<- | []]]]; intros H; solve [discriminate H | discriminate].
Defined.

Section FormInitFacts.

Import ProviderEntityForm EntityFormState.

Lemma isFilled_iff (e : FormEntry) :
  isFilled (Some e) = true <-> entry_value e <> Single "".
Proof.
  unfold isFilled. destruct (entry_value e) as [s | l].
  - rewrite negb_true_iff, isEmpty_false_iff. split; congruence.
  - split; [discriminate | reflexivity].
Qed.

Lemma isFormValid_reduce (values : string -> option FieldValue)
    (formFields : list FormField) :
  NoDup (map name formFields) ->
  isFormValid formFields (reduceForm values formFields)
  = existsb (fun f => isFilled (Some (initEntry values f))) formFields.
Proof.
  intros Hnd. unfold isFormValid.
  apply eq_true_iff_eq. rewrite !existsb_exists.
  split; intros [f [Hf H]]; exists f; (split; [exact Hf |]).
  - now rewrite reduceForm_get in H.
  - now rewrite reduceForm_get.
Qed.

End FormInitFacts.

(** X11.  When the fields have distinct names, the form set on
    initialisation has, under the name of each field, an entry made of that
    field whose value is the one found under that name - in the entity in
    edit mode on anything but a page, in the initial values otherwise - or
    the default value of the field when none is found; it has no entry
    under any other name. *)
Theorem X11_initial_form_entries :
  forall (entity : option (string -> option FieldValue))
         (entityType : ProviderEntityType)
         (initialValues : string -> option FieldValue)
         (formFields : list FormField),
    NoDup (map name formFields) ->
    let values :=
      match entity, entityType with
      | Some _, Page => initialValues
      | Some entityValues, _ => entityValues
      | None, _ => initialValues
      end in
    let form :=
      EntityFormState.initialForm entity entityType initialValues formFields in
    (forall f, In f formFields ->
       Obj.get form (name f)
       = Some (EntityFormState.mkEntry (Some f)
                 (match values (name f) with
                  | Some v => v
                  | None => value f
                  end)))
    /\ (forall k, ~ In k (map name formFields) -> Obj.get form k = None).
Proof.
  intros entity entityType initialValues formFields Hnd values form.
  assert (Hform : form = EntityFormState.reduceForm values formFields).
  { unfold form, values, EntityFormState.initialForm.
    destruct entity; destruct entityType; reflexivity. }
  rewrite Hform. split.
  - intros f Hf. now rewrite reduceForm_get.
  - intros k Hk. now apply reduceForm_get_none.
Qed.

Lemma X11_initial_form_entries_witness :
  Obj.get
    (EntityFormState.initialForm None Deal
       (CreateCrmEntityForm.initialValues Deal "Acme")
       [Samples.title; Samples.pipeline])
    "title"
  = Some (EntityFormState.mkEntry (Some Samples.title) (Single "Acme")).
Proof.
  apply (proj1 (X11_initial_form_entries None Deal
                  (CreateCrmEntityForm.initialValues Deal "Acme")
                  [Samples.title; Samples.pipeline]
                  ltac:(repeat (constructor; [simpl; intuition discriminate |]);
                        constructor))
           Samples.title).
  left. reflexivity.
Defined.

(** X12.  Right after initialisation, with fields of distinct names, the
    form is valid exactly when some field has an initial or default value
    other than the empty string; a multiselect field, whose value is a
    sequence, makes the form valid even when the sequence is empty. *)
Theorem X12_valid_after_initialisation :
  forall (values : string -> option FieldValue) (formFields : list FormField),
    NoDup (map name formFields) ->
    (EntityFormState.isFormValid formFields
       (EntityFormState.reduceForm values formFields) = true
     <-> exists f, In f formFields
                   /\ (match values (name f) with
                       | Some v => v
                       | None => value f
                       end) <> Single "")
    /\ (forall f l, In f formFields -> values (name f) = None ->
                    value f = Many l ->
                    EntityFormState.isFormValid formFields
                      (EntityFormState.reduceForm values formFields) = true).
Proof.
  intros values formFields Hnd.
  assert (Hiff :
            EntityFormState.isFormValid formFields
              (EntityFormState.reduceForm values formFields) = true
            <-> exists f, In f formFields
                          /\ (match values (name f) with
                              | Some v => v
                              | None => value f
                              end) <> Single "").
  { rewrite isFormValid_reduce by exact Hnd. rewrite existsb_exists.
    split; intros [f [Hf H]]; exists f; (split; [exact Hf |]).
    - exact (proj1 (isFilled_iff (EntityFormState.initEntry values f)) H).
    - exact (proj2 (isFilled_iff (EntityFormState.initEntry values f)) H). }
  split; [exact Hiff |].
  intros f l Hf Hnone Hmany. apply Hiff. exists f. split; [exact Hf |].
  rewrite Hnone, Hmany. discriminate.
Qed.

Lemma X12_valid_after_initialisation_witness :
  EntityFormState.isFormValid [Samples.title; Samples.labelsField]
    (EntityFormState.reduceForm (fun _ => None) [Samples.title; Samples.labelsField])
  = true.
Proof.
  apply (proj2 (X12_valid_after_initialisation (fun _ => None)
                  [Samples.title; Samples.labelsField]
                  ltac:(repeat (constructor; [simpl; intuition discriminate |]);
                        constructor))
           Samples.labelsField [] ltac:(right; left; reflexivity)
           eq_refl eq_refl).
Defined.

(** ** CreateCrmEntityForm: the data sent on submit *)

Section CrmSubmitFacts.

Import EntityFormState CreateCrmEntityForm.





End CrmSubmitFacts.



(** ** parseRemindAt: inputs without a digit, case and white space *)

Section DigitFreeFacts.

Import RegExp PatternShape.

Lemma every_cons_inv (f : ascii -> bool) (c : ascii) (s : string) :
  JsStr.every f (String c s) = true -> f c = true /\ JsStr.every f s = true.
Proof. simpl. intros H. now apply andb_prop in H. Qed.

(** On an input without a digit a class run reaches its continuation
    only at states without a digit. *)
Lemma star_digit_free (cc : CharClass) (c : Continuation) :
  (forall y, JsStr.every notDigit (remaining y) = true -> c y = None) ->
  forall (s : string) (idx : nat) (caps : list (nat * string)),
    JsStr.every notDigit s = true -> star cc s idx caps c = None.
Proof.
  intros Hc. induction s as [| ch s IH]; intros idx caps Hs; cbn [star].
  - now apply Hc.
  - destruct (every_cons_inv _ _ _ Hs) as [_ Hs'].
    destruct (classMem cc ch).
    + rewrite (IH _ _ Hs'). now apply Hc.
    + now apply Hc.
Qed.

Lemma matcher_digit_free (p : Pattern) :
  forall (x : MatchState) (c : Continuation),
    JsStr.every notDigit (remaining x) = true ->
    (forall y, JsStr.every notDigit (remaining y) = true -> c y = None) ->
    matcher p x c = None.
Proof.
  induction p as [| cc | p1 IH1 p2 IH2 | p1 IH1 p2 IH2 | p1 IH1 | cc
                  | i p1 IH1 | |];
    intros x c Hx Hc; cbn [matcher].
  - now apply Hc.
  - destruct (remaining x) as [| ch s'] eqn:E; [reflexivity |].
    destruct (classMem cc ch); [| reflexivity].
    apply Hc. cbn [remaining]. now destruct (every_cons_inv _ _ _ Hx).
  - apply IH1; [exact Hx |]. intros y Hy. now apply IH2.
  - rewrite (IH1 x c Hx Hc). now apply IH2.
  - rewrite (IH1 x c Hx Hc). now apply Hc.
  - now apply star_digit_free.
  - apply IH1; [exact Hx |]. intros y Hy. apply Hc. exact Hy.
  - destruct (endIndex x =? 0)%nat; [now apply Hc | reflexivity].
  - destruct (remaining x) eqn:E; [| reflexivity].
    apply Hc. now rewrite E.
Qed.

(** A pattern that reads a digit on every branch matches nowhere in an
    input without a digit, whatever follows it. *)
Lemma matcher_needsDigit (p : Pattern) :
  forall (x : MatchState) (c : Continuation),
    JsStr.every notDigit (remaining x) = true ->
    needsDigit p = true ->
    matcher p x c = None.
Proof.
  induction p as [| cc | p1 IH1 p2 IH2 | p1 IH1 p2 IH2 | p1 IH1 | cc
                  | i p1 IH1 | |];
    intros x c Hx Hn; cbn [needsDigit] in Hn; try discriminate; cbn [matcher].
  - destruct cc; try discriminate.
    destruct (remaining x) as [| ch s'] eqn:E; [reflexivity |].
    destruct (every_cons_inv _ _ _ Hx) as [Hch _].
    unfold notDigit in Hch. apply negb_true_iff in Hch.
    cbn [classMem]. now rewrite Hch.
  - apply orb_prop in Hn. destruct Hn as [Hn | Hn].
    + now apply IH1.
    + apply matcher_digit_free; [exact Hx |]. intros y Hy. now apply IH2.
  - apply andb_prop in Hn. destruct Hn as [Hn1 Hn2].
    rewrite (IH1 x c Hx Hn1). now apply IH2.
  - now apply IH1.
Qed.

Lemma search_needsDigit (p : Pattern) :
  needsDigit p = true ->
  forall (s : string) (idx : nat),
    JsStr.every notDigit s = true -> search p idx s = None.
Proof.
  intros Hn. induction s as [| ch s IH]; intros idx Hs; cbn [search];
    rewrite (matcher_needsDigit p _ Some) by assumption.
  - reflexivity.
  - apply IH. now destruct (every_cons_inv _ _ _ Hs).
Qed.

Lemma lowerChar_notDigit (c : ascii) :
  notDigit (JsStr.lowerChar c) = notDigit c.
Proof.
  destruct c as [[|] [|] [|] [|] [|] [|] [|] [|]]; reflexivity.
Qed.

Lemma toLowerCase_every_notDigit (s : string) :
  JsStr.every notDigit (JsStr.toLowerCase s) = JsStr.every notDigit s.
Proof.
  induction s as [| c s IH]; [reflexivity |].
  cbn [JsStr.toLowerCase JsStr.every]. now rewrite lowerChar_notDigit, IH.
Qed.

Lemma trimStart_every (f : ascii -> bool) (s : string) :
  JsStr.every f s = true -> JsStr.every f (JsStr.trimStart s) = true.
Proof.
  induction s as [| c s IH]; intros H; [reflexivity |].
  cbn [JsStr.trimStart]. destruct (JsStr.isWhiteSpace c); [| exact H].
  apply IH. now destruct (every_cons_inv _ _ _ H).
Qed.

Lemma trimEnd_every (f : ascii -> bool) (s : string) :
  JsStr.every f s = true -> JsStr.every f (JsStr.trimEnd s) = true.
Proof.
  induction s as [| c s IH]; intros H; [reflexivity |].
  destruct (every_cons_inv _ _ _ H) as [Hc Hs]. specialize (IH Hs).
  cbn [JsStr.trimEnd]. destruct (JsStr.trimEnd s) as [| d t].
  - destruct (JsStr.isWhiteSpace c); [reflexivity |].
    cbn [JsStr.every]. now rewrite Hc.
  - change (f c && JsStr.every f (String d t) = true). now rewrite Hc, IH.
Qed.

Lemma lower_every_notDigit (input : string) :
  JsStr.every notDigit input = true ->
  JsStr.every notDigit (JsStr.trim (JsStr.toLowerCase input)) = true.
Proof.
  intros H. unfold JsStr.trim. apply trimEnd_every, trimStart_every.
  now rewrite toLowerCase_every_notDigit.
Qed.

End DigitFreeFacts.

Section NormalisationFacts.

Lemma lowerChar_idem (c : ascii) :
  JsStr.lowerChar (JsStr.lowerChar c) = JsStr.lowerChar c.
Proof.
  destruct c as [[|] [|] [|] [|] [|] [|] [|] [|]]; reflexivity.
Qed.

Lemma lowerChar_isWhiteSpace (c : ascii) :
  JsStr.isWhiteSpace (JsStr.lowerChar c) = JsStr.isWhiteSpace c.
Proof.
  destruct c as [[|] [|] [|] [|] [|] [|] [|] [|]]; reflexivity.
Qed.

Lemma toLowerCase_idem (s : string) :
  JsStr.toLowerCase (JsStr.toLowerCase s) = JsStr.toLowerCase s.
Proof.
  induction s as [| c s IH]; [reflexivity |].
  cbn [JsStr.toLowerCase]. now rewrite lowerChar_idem, IH.
Qed.

Lemma toLowerCase_trimStart (s : string) :
  JsStr.toLowerCase (JsStr.trimStart s) = JsStr.trimStart (JsStr.toLowerCase s).
Proof.
  induction s as [| c s IH]; [reflexivity |].
  cbn [JsStr.toLowerCase JsStr.trimStart]. rewrite lowerChar_isWhiteSpace.
  destruct (JsStr.isWhiteSpace c); [exact IH | reflexivity].
Qed.

Lemma toLowerCase_trimEnd (s : string) :
  JsStr.toLowerCase (JsStr.trimEnd s) = JsStr.trimEnd (JsStr.toLowerCase s).
Proof.
  induction s as [| c s IH]; [reflexivity |].
  cbn [JsStr.toLowerCase JsStr.trimEnd]. rewrite <- IH, lowerChar_isWhiteSpace.
  destruct (JsStr.trimEnd s) as [| d t]; cbn [JsStr.toLowerCase].
  - destruct (JsStr.isWhiteSpace c); reflexivity.
  - reflexivity.
Qed.

Lemma toLowerCase_trim (s : string) :
  JsStr.toLowerCase (JsStr.trim s) = JsStr.trim (JsStr.toLowerCase s).
Proof.
  unfold JsStr.trim. now rewrite toLowerCase_trimEnd, toLowerCase_trimStart.
Qed.

Lemma trimEnd_idem (s : string) :
  JsStr.trimEnd (JsStr.trimEnd s) = JsStr.trimEnd s.
Proof.
  induction s as [| c s IH]; [reflexivity |].
  cbn [JsStr.trimEnd]. destruct (JsStr.trimEnd s) as [| d t] eqn:E.
  - destruct (JsStr.isWhiteSpace c) eqn:Hc; [reflexivity |].
    cbn [JsStr.trimEnd]. now rewrite Hc.
  - change (JsStr.trimEnd (String c (String d t)))
      with (match JsStr.trimEnd (String d t) with
            | EmptyString =>
                if JsStr.isWhiteSpace c then EmptyString else String c EmptyString
            | u => String c u
            end).
    now rewrite IH.
Qed.

(** What [trimStart] returns does not start with white space, and
    [trimEnd] keeps it so. *)
Lemma trimStart_trimEnd_trimStart (s : string) :
  JsStr.trimStart (JsStr.trimEnd (JsStr.trimStart s))
  = JsStr.trimEnd (JsStr.trimStart s).
Proof.
  induction s as [| c s IH]; [reflexivity |].
  cbn [JsStr.trimStart]. destruct (JsStr.isWhiteSpace c) eqn:Hc; [exact IH |].
  cbn [JsStr.trimEnd]. destruct (JsStr.trimEnd s);
    cbn [JsStr.trimStart]; rewrite Hc; cbn [JsStr.trimStart]; now rewrite ?Hc.
Qed.

Lemma trim_idem (s : string) : JsStr.trim (JsStr.trim s) = JsStr.trim s.
Proof.
  unfold JsStr.trim. now rewrite trimStart_trimEnd_trimStart, trimEnd_idem.
Qed.

(** Lowercasing and trimming what has been lowercased and trimmed changes
    nothing. *)
Lemma lower_trim_idem (s : string) :
  JsStr.trim (JsStr.toLowerCase (JsStr.trim (JsStr.toLowerCase s)))
  = JsStr.trim (JsStr.toLowerCase s).
Proof.
  now rewrite toLowerCase_trim, toLowerCase_idem, trim_idem.
Qed.

End NormalisationFacts.

(** X14.  An input without a digit that the absolute-date path does not
    take resolves only through the word tomorrow: when it starts with
    tomorrow, after lowercasing and trimming, the result is 09:00:00.000
    local time on the calendar day after [now]; otherwise the input is
    unparseable. *)
Theorem X14_digit_free_input :
  forall (LocalTZA : Z -> bool -> Z) (DateParse : string -> Number)
         (input : string) (now : Z),
    JsStr.every PatternShape.notDigit input = true ->
    Reminders.notAbsolute DateParse input = true ->
    Reminders.parseRemindAt LocalTZA DateParse input now
    = if JsStr.startsWith (JsStr.trim (JsStr.toLowerCase input)) "tomorrow"
      then
        let today := JsDate.mkDate (Int now) in
        Some (JsDate.setHours LocalTZA
                (JsDate.setDate LocalTZA today
                   (Num.add (JsDate.getDate LocalTZA today) (Int 1)))
                (Int 9) (Int 0) (Int 0) (Int 0))
      else None.
Proof.
  intros LocalTZA DateParse input now Hfree Habs.
  apply lower_every_notDigit in Hfree.
  unfold Reminders.notAbsolute in Habs. apply negb_true_iff in Habs.
  unfold Reminders.parseRemindAt. rewrite Habs.
  unfold RegExp.exec.
  rewrite (search_needsDigit Reminders.inRe eq_refl _ 0%nat Hfree).
  rewrite (search_needsDigit Reminders.timeRe eq_refl _ 0%nat Hfree).
  rewrite (search_needsDigit Reminders.todayRe eq_refl _ 0%nat Hfree).
  reflexivity.
Qed.

Lemma X14_digit_free_input_witness :
  Reminders.parseRemindAt Samples.utc Samples.noDateParse
    "Tomorrow morning" Samples.t0
  = Some (JsDate.mkDate (Int 1710147600000)).
Proof.
  apply (X14_digit_free_input Samples.utc Samples.noDateParse
           "Tomorrow morning" Samples.t0 eq_refl eq_refl).
Defined.

(** X15.  The resolver is insensitive to the case of the input and to
    the white space around it: when the absolute-date path takes neither
    the input nor its lowercased and trimmed form, both resolve to the same
    result. *)
Theorem X15_case_and_space_insensitive :
  forall (LocalTZA : Z -> bool -> Z) (DateParse : string -> Number)
         (input : string) (now : Z),
    Reminders.notAbsolute DateParse input = true ->
    Reminders.notAbsolute DateParse (JsStr.trim (JsStr.toLowerCase input)) = true ->
    Reminders.parseRemindAt LocalTZA DateParse
      (JsStr.trim (JsStr.toLowerCase input)) now
    = Reminders.parseRemindAt LocalTZA DateParse input now.
Proof.
  intros LocalTZA DateParse input now H1 H2.
  unfold Reminders.notAbsolute in H1, H2.
  apply negb_true_iff in H1. apply negb_true_iff in H2.
  unfold Reminders.parseRemindAt. rewrite H1, H2, lower_trim_idem.
  reflexivity.
Qed.

Lemma X15_case_and_space_insensitive_witness :
  Reminders.parseRemindAt Samples.utc Samples.noDateParse "in 5 minutes" Samples.t0
  = Reminders.parseRemindAt Samples.utc Samples.noDateParse
      "  In 5 MINUTES " Samples.t0.
Proof.
  apply (X15_case_and_space_insensitive Samples.utc Samples.noDateParse
           "  In 5 MINUTES " Samples.t0 eq_refl eq_refl).
Defined.

(** ** The executors: what a run leaves behind *)

Section ExecutorMore.

Import Reminders.

Variable LocalTZA : Z -> bool -> Z.
Variable DateParse : string -> Number.
Variable isoFormat : Z -> string.
Variable reminderApi : ApiRequest -> Outcome Z.

(** The run of the create executor on a time that resolves to a valid
    date. *)
Lemma executeCreateReminder_valid (args : ToolArgs) (input : string)
    (w : World) (d : JsDate.Date) (t : Z) :
  remindAt args = Some input ->
  parseRemindAt LocalTZA DateParse input (clock w) = Some d ->
  JsDate.getTime d = Int t ->
  let req := CreateReminder (chatId args) (messageId args) (description args)
               (isoFormat t) (currentOrganizationId w) in
  executeCreateReminder LocalTZA DateParse isoFormat reminderApi args w
  = match reminderApi req with
    | Returned reminder =>
        (Returned
           (mkResult true
              (Some (JsObject
                       [("created", JsBool true);
                        ("reminderId", JsNumber (Int reminder));
                        ("chatId", chatId args);
                        ("description", description args);
                        ("remindAt", JsString (isoFormat t))]))
              None),
         mkWorld (clock w) (currentOrganizationId w) (req :: requests w)
           (S (reloads w)))
    | Threw e =>
        (Returned
           (mkResult false None
              (Some ("Failed to create reminder: " ++ errorMessage e)%string)),
         mkWorld (clock w) (currentOrganizationId w) (req :: requests w)
           (reloads w))
    end.
Proof.
  intros Harg Hparse Ht req.
  unfold executeCreateReminder, bind, callParseRemindAt, getOrganizationId,
    tryCatch, toISOString, callApi, loadTelebizReminders, ret.
  rewrite Harg, Hparse, Ht. fold req.
  destruct (reminderApi req); reflexivity.
Qed.

(** The run of the create executor on a time that resolves to an invalid
    date: [toISOString] throws inside the [try]. *)
Lemma executeCreateReminder_invalid (args : ToolArgs) (input : string)
    (w : World) (d : JsDate.Date) :
  remindAt args = Some input ->
  parseRemindAt LocalTZA DateParse input (clock w) = Some d ->
  JsDate.getTime d = NaN ->
  executeCreateReminder LocalTZA DateParse isoFormat reminderApi args w
  = (Returned
       (mkResult false None
          (Some "Failed to create reminder: Invalid time value")), w).
Proof.
  intros Harg Hparse Ht.
  unfold executeCreateReminder, bind, callParseRemindAt, getOrganizationId,
    tryCatch, toISOString, throw, ret.
  rewrite Harg, Hparse, Ht. reflexivity.
Qed.

(** In the update executor [toISOString] is called before the [try]. *)
Lemma executeUpdateReminder_invalid (args : ToolArgs) (input : string)
    (w : World) (d : JsDate.Date) :
  remindAt args = Some input ->
  parseRemindAt LocalTZA DateParse input (clock w) = Some d ->
  JsDate.getTime d = NaN ->
  executeUpdateReminder LocalTZA DateParse isoFormat reminderApi args w
  = (Threw (ErrorObject "Invalid time value"), w).
Proof.
  intros Harg Hparse Ht.
  assert (Hne : JsStr.isEmpty input = false).
  { destruct input; [| reflexivity].
    rewrite parseRemindAt_empty in Hparse. discriminate Hparse. }
  unfold executeUpdateReminder, truthyArg, bind, callParseRemindAt,
    toISOString, throw.
  rewrite Harg. cbn [optString Js.toBoolean]. rewrite Hne. cbn [negb].
  rewrite Hparse, Ht. reflexivity.
Qed.

(** The update data built by the update executor, when it gets as far as
    the request. *)
Lemma executeUpdateReminder_sent (args : ToolArgs) (w : World) :
  let descriptionPart :=
    if Js.toBoolean (description args)
    then [("description", description args)] else [] in
  forall r w',
    executeUpdateReminder LocalTZA DateParse isoFormat reminderApi args w
    = (Returned r, w') ->
    success r = true ->
    exists remindAtPart,
      let updateData := descriptionPart ++ remindAtPart in
      (remindAtPart = []
       \/ exists iso, remindAtPart = [("remind_at", JsString iso)])
      /\ (remindAtPart = [] <-> truthyArg (remindAt args) = false)
      /\ (exists u, reminderApi (UpdateReminder (reminderId args) updateData)
                    = Returned u)
      /\ w' = mkWorld (clock w) (currentOrganizationId w)
                (UpdateReminder (reminderId args) updateData :: requests w)
                (S (reloads w))
      /\ data r = Some (JsObject ([("updated", JsBool true);
                                   ("reminderId", reminderId args)]
                                    ++ updateData)).
Proof.
  intros descriptionPart r w' Hrun Hok.
  unfold executeUpdateReminder in Hrun. fold descriptionPart in Hrun.
  destruct (truthyArg (remindAt args)) eqn:Htruthy.
  - unfold bind, callParseRemindAt, toISOString, throw, ret in Hrun.
    destruct (remindAt args) as [input |]; [| discriminate Htruthy].
    destruct (parseRemindAt LocalTZA DateParse input (clock w)) as [d |];
      [| injection Hrun as <- _; discriminate Hok].
    destruct (JsDate.getTime d) as [| t]; [discriminate Hrun |].
    exists [("remind_at", JsString (isoFormat t))].
    unfold tryCatch, bind, callApi, loadTelebizReminders, ret in Hrun.
    cbn zeta.
    destruct (reminderApi
                (UpdateReminder (reminderId args)
                   (descriptionPart ++ [("remind_at", JsString (isoFormat t))])))
      as [u | e] eqn:Hapi.
    + injection Hrun as <- <-. cbn [clock currentOrganizationId requests reloads].
      repeat split; eauto; try discriminate.
    + injection Hrun as <- _. discriminate Hok.
  - exists []. cbn zeta. rewrite app_nil_r.
    unfold tryCatch, bind, callApi, loadTelebizReminders, ret in Hrun.
    destruct (reminderApi (UpdateReminder (reminderId args) descriptionPart))
      as [u | e] eqn:Hapi.
    + injection Hrun as <- <-. cbn [clock currentOrganizationId requests reloads].
      repeat split; eauto.
    + injection Hrun as <- _. discriminate Hok.
Qed.

End ExecutorMore.

(** X16.  Given a string as the time, the create executor never throws:
    it returns a result, leaves the clock and the organisation as they
    were and sends at most one request.  It reports a success exactly when
    it has sent one request that the reminder API accepted, and then it has
    dispatched one reload; on a failure it dispatches none. *)
Theorem X16_create_outcome :
  forall (LocalTZA : Z -> bool -> Z) (DateParse : string -> Number)
         (isoFormat : Z -> string)
         (reminderApi : Reminders.ApiRequest -> Reminders.Outcome Z)
         (args : Reminders.ToolArgs) (input : string) (w : Reminders.World),
    Reminders.remindAt args = Some input ->
    exists r w',
      Reminders.executeCreateReminder LocalTZA DateParse isoFormat reminderApi args w
      = (Reminders.Returned r, w')
      /\ Reminders.clock w' = Reminders.clock w
      /\ Reminders.currentOrganizationId w' = Reminders.currentOrganizationId w
      /\ (Reminders.success r = true ->
          Reminders.reloads w' = S (Reminders.reloads w)
          /\ exists req reminder,
               Reminders.requests w' = req :: Reminders.requests w
               /\ reminderApi req = Reminders.Returned reminder)
      /\ (Reminders.success r = false ->
          Reminders.reloads w' = Reminders.reloads w
          /\ (Reminders.requests w' = Reminders.requests w
              \/ exists req e,
                   Reminders.requests w' = req :: Reminders.requests w
                   /\ reminderApi req = Reminders.Threw e)).
Proof.
  intros LocalTZA DateParse isoFormat reminderApi args input w Harg.
  destruct (Reminders.parseRemindAt LocalTZA DateParse input (Reminders.clock w))
    as [d |] eqn:Hparse.
  - destruct (JsDate.getTime d) as [| t] eqn:Ht.
    + rewrite (executeCreateReminder_invalid LocalTZA DateParse isoFormat
                 reminderApi args input w d Harg Hparse Ht).
      do 2 eexists. split; [reflexivity |].
      repeat split; try discriminate; auto.
    + rewrite (executeCreateReminder_valid LocalTZA DateParse isoFormat
                 reminderApi args input w d t Harg Hparse Ht).
      cbn zeta.
      destruct (reminderApi _) as [reminder | e] eqn:Hapi;
        do 2 eexists; (split; [reflexivity |]);
        cbn [Reminders.clock Reminders.currentOrganizationId Reminders.requests
               Reminders.reloads Reminders.success];
        repeat split; try discriminate; eauto.
  - rewrite (executeCreateReminder_unparseable LocalTZA DateParse isoFormat
               reminderApi args input w Harg Hparse).
    do 2 eexists. split; [reflexivity |].
    repeat split; try discriminate; auto.
Qed.

Lemma X16_create_outcome_witness :
  exists r w',
    Reminders.executeCreateReminder Samples.utc Samples.noDateParse
      Samples.isoFormat Samples.reminderApi
      (Samples.updateArgs "in 5 minutes") Samples.world0
    = (Reminders.Returned r, w')
    /\ Reminders.clock w' = Samples.t0.
Proof.
  destruct (X16_create_outcome Samples.utc Samples.noDateParse
              Samples.isoFormat Samples.reminderApi
              (Samples.updateArgs "in 5 minutes") "in 5 minutes"
              Samples.world0 eq_refl)
    as [r [w' [Hrun [Hclock _]]]].
  exists r, w'. split; [exact Hrun | exact Hclock].
Defined.

(** X17.  When the time resolves to an invalid date (a relative offset
    beyond the range of Date, say) neither executor sends a request, and
    they differ in what they do: the create executor returns the failure
    "Failed to create reminder: Invalid time value", the update executor
    throws the error "Invalid time value". *)
Theorem X17_invalid_date :
  forall (LocalTZA : Z -> bool -> Z) (DateParse : string -> Number)
         (isoFormat : Z -> string)
         (reminderApi : Reminders.ApiRequest -> Reminders.Outcome Z)
         (args : Reminders.ToolArgs) (input : string) (w : Reminders.World)
         (d : JsDate.Date),
    Reminders.remindAt args = Some input ->
    Reminders.parseRemindAt LocalTZA DateParse input (Reminders.clock w) = Some d ->
    JsDate.getTime d = NaN ->
    Reminders.executeCreateReminder LocalTZA DateParse isoFormat reminderApi args w
    = (Reminders.Returned
         (Reminders.mkResult false None
            (Some "Failed to create reminder: Invalid time value")), w)
    /\ Reminders.executeUpdateReminder LocalTZA DateParse isoFormat reminderApi
         args w
       = (Reminders.Threw (Reminders.ErrorObject "Invalid time value"), w).
Proof.
  intros LocalTZA DateParse isoFormat reminderApi args input w d Harg Hparse Ht.
  split.
  - now apply executeCreateReminder_invalid with (input := input) (d := d).
  - now apply executeUpdateReminder_invalid with (input := input) (d := d).
Qed.

Lemma X17_invalid_date_witness :
  Reminders.executeUpdateReminder Samples.utc Samples.noDateParse
    Samples.isoFormat Samples.reminderApi
    (Samples.updateArgs "in 1000000000000 weeks") Samples.world0
  = (Reminders.Threw (Reminders.ErrorObject "Invalid time value"),
     Samples.world0).
Proof.
  apply (proj2 (X17_invalid_date Samples.utc Samples.noDateParse
                  Samples.isoFormat Samples.reminderApi
                  (Samples.updateArgs "in 1000000000000 weeks")
                  "in 1000000000000 weeks" Samples.world0
                  (JsDate.mkDate NaN) eq_refl ltac:(vm_compute; reflexivity)
                  eq_refl)).
Defined.

(** X18.  Whenever the update executor reports a success, it has sent
    exactly one update request, for the reminder id it was given, that the
    reminder API accepted, and has dispatched one reload.  The update data
    of the request has the key description exactly when the description
    argument is truthy, followed by the key remind_at exactly when the time
    argument is a non-empty string, and nothing else; the data reported are
    updated, reminderId and that same update data. *)
Theorem X18_update_success :
  forall (LocalTZA : Z -> bool -> Z) (DateParse : string -> Number)
         (isoFormat : Z -> string)
         (reminderApi : Reminders.ApiRequest -> Reminders.Outcome Z)
         (args : Reminders.ToolArgs) (w w' : Reminders.World)
         (r : Reminders.ToolResult),
    Reminders.executeUpdateReminder LocalTZA DateParse isoFormat reminderApi args w
    = (Reminders.Returned r, w') ->
    Reminders.success r = true ->
    exists updateData,
      Reminders.requests w'
      = Reminders.UpdateReminder (Reminders.reminderId args) updateData
          :: Reminders.requests w
      /\ (exists u,
            reminderApi (Reminders.UpdateReminder (Reminders.reminderId args)
                           updateData)
            = Reminders.Returned u)
      /\ Reminders.reloads w' = S (Reminders.reloads w)
      /\ Reminders.data r
         = Some (JsObject ([("updated", JsBool true);
                            ("reminderId", Reminders.reminderId args)]
                             ++ updateData))
      /\ (forall k, In k (map fst updateData) ->
                    k = "description" \/ k = "remind_at")
      /\ (In "description" (map fst updateData)
          <-> Js.toBoolean (Reminders.description args) = true)
      /\ (In "remind_at" (map fst updateData)
          <-> Reminders.truthyArg (Reminders.remindAt args) = true)
      /\ Js.lookup "description" updateData
         = (if Js.toBoolean (Reminders.description args)
            then Reminders.description args else JsUndefined).
Proof.
  intros LocalTZA DateParse isoFormat reminderApi args w w' r Hrun Hok.
  destruct (executeUpdateReminder_sent LocalTZA DateParse isoFormat reminderApi
              args w r w' Hrun Hok)
    as [remindAtPart [Hshape [Hnil [Hapi [Hw Hdata]]]]].
  cbn zeta in Hapi, Hw, Hdata.
  eexists. split; [rewrite Hw; reflexivity |].
  split; [exact Hapi |]. split; [rewrite Hw; reflexivity |].
  split; [exact Hdata |].
  destruct (Js.toBoolean (Reminders.description args)) eqn:Hdesc;
    destruct Hshape as [-> | [iso ->]];
    destruct (Reminders.truthyArg (Reminders.remindAt args)) eqn:Htruthy;
    try (destruct Hnil as [Hnil1 Hnil2];
         first [ discriminate (Hnil1 eq_refl) | discriminate (Hnil2 eq_refl) ]);
    cbn [app map fst In Js.lookup String.eqb Ascii.eqb Bool.eqb];
    repeat split; intros; try discriminate; try tauto;
      intuition (try discriminate; auto).
Qed.

Lemma X18_update_success_witness :
  exists r w',
    Reminders.executeUpdateReminder Samples.utc Samples.noDateParse
      Samples.isoFormat Samples.reminderApi
      (Samples.updateArgs "in 5 minutes") Samples.world0
    = (Reminders.Returned r, w')
    /\ Reminders.success r = true
    /\ Reminders.reloads w' = 1%nat.
Proof.
  eexists. eexists. split; [vm_compute; reflexivity |].
  split; [reflexivity |].
  destruct (X18_update_success Samples.utc Samples.noDateParse
              Samples.isoFormat Samples.reminderApi
              (Samples.updateArgs "in 5 minutes") Samples.world0 _ _
              ltac:(vm_compute; reflexivity) eq_refl)
    as [updateData [_ [_ [Hreloads _]]]].
  exact Hreloads.
Defined.

(** ** Listing, completing and deleting *)

Section ListFacts.

Import Reminders ReminderList.

Variable Reminder : Type.
Variable reminder_id : Reminder -> JsValue.
Variable chat_id : Reminder -> string.
Variable reminder_description : Reminder -> JsValue.
Variable remind_at : Reminder -> JsValue.
Variable status : Reminder -> JsValue.
Variable snoozed_count : Reminder -> JsValue.
Variable chatTitle : string -> option string.

Lemma summarizeReminder_chatId (reminder : Reminder) :
  Js.get
    (summarizeReminder Reminder reminder_id chat_id reminder_description
       remind_at status snoozed_count chatTitle reminder)
    "chatId"
  = JsString (chat_id reminder).
Proof. reflexivity. Qed.

Lemma summarizeReminder_chatTitle (reminder : Reminder) :
  exists title,
    Js.get
      (summarizeReminder Reminder reminder_id chat_id reminder_description
         remind_at status snoozed_count chatTitle reminder)
      "chatTitle"
    = JsString title
    /\ title <> "".
Proof.
  unfold summarizeReminder. cbn [Js.get Js.lookup String.eqb Ascii.eqb Bool.eqb].
  destruct (chatTitle (chat_id reminder)) as [title |].
  - destruct title as [| c title]; cbn [JsStr.isEmpty];
      eexists; (split; [reflexivity | discriminate]).
  - eexists. split; [reflexivity | discriminate].
Qed.

End ListFacts.

(** X19.  The list executor fails exactly when the reminders are not
    loading and the state holds a non-empty error.  Whenever it succeeds,
    the count it reports is the number of reminders it lists, and every
    reminder listed has a non-empty chat title; when a non-empty chat id
    was given, every reminder listed is of that chat. *)
Theorem X19_list_reminders :
  forall (Reminder : Type)
         (reminder_id : Reminder -> JsValue) (chat_id : Reminder -> string)
         (reminder_description remind_at status snoozed_count : Reminder -> JsValue)
         (chatTitle : string -> option string)
         (remindersState : option (ReminderList.RemindersState Reminder))
         (chatId : option string),
    let r :=
      ReminderList.executeListReminders Reminder reminder_id chat_id
        reminder_description remind_at status snoozed_count chatTitle
        remindersState chatId in
    (Reminders.success r = false
     <-> exists st e, remindersState = Some st
                      /\ ReminderList.isLoading Reminder st = false
                      /\ ReminderList.loadError Reminder st = Some e
                      /\ e <> "")
    /\ (Reminders.success r = true ->
        exists items rest,
          Reminders.data r
          = Some (JsObject
                    (("reminders", JsArray items)
                       :: ("count", JsNumber (Int (Z.of_nat (List.length items))))
                       :: rest))
          /\ (forall item, In item items ->
                exists title, Js.get item "chatTitle" = JsString title
                              /\ title <> "")
          /\ (forall c, chatId = Some c -> c <> "" ->
                forall item, In item items ->
                  Js.get item "chatId" = JsString c)).
Proof.
  intros Reminder reminder_id chat_id reminder_description remind_at status
    snoozed_count chatTitle remindersState chatId r.
  unfold ReminderList.executeListReminders in r.
  split.
  - subst r. destruct remindersState as [[loading error reminders] |];
      cbn [ReminderList.isLoading ReminderList.loadError].
    + destruct loading; cbn [Reminders.success].
      * split; [discriminate |].
        intros [st [e [[= <-] [Hl _]]]]. discriminate Hl.
      * destruct error as [[| c e] |];
          cbn [Reminders.optString Js.toBoolean JsStr.isEmpty negb
                 Reminders.success].
        -- split; [discriminate |].
           intros [st [e [[= <-] [_ [[= <-] Hne]]]]]. now contradiction Hne.
        -- split; [| reflexivity]. intros _.
           eexists. eexists. repeat split; discriminate.
        -- split; [discriminate |].
           intros [st [e [[= <-] [_ [He _]]]]]. discriminate He.
    + cbn [Reminders.optString Js.toBoolean Reminders.success].
      split; [discriminate |]. intros [st [e [H _]]]. discriminate H.
  - intros Hok.
    destruct (match remindersState with
              | Some st => ReminderList.isLoading Reminder st
              | None => false
              end) eqn:Hloading.
    + subst r. exists [], [("note", JsString "Reminders are still loading. Try again in a moment.")].
      split; [reflexivity |]. split; [intros item [] |].
      intros c _ _ item [].
    + destruct (Js.toBoolean
                  (Reminders.optString
                     (match remindersState with
                      | Some st => ReminderList.loadError Reminder st
                      | None => None
                      end))) eqn:Herror.
      * subst r. discriminate Hok.
      * subst r.
        match goal with
        | |- context [JsArray (map ?f ?l)] => exists (map f l)
        end.
        exists []. split; [rewrite length_map; reflexivity |].
        split.
        -- intros item Hin. apply in_map_iff in Hin.
           destruct Hin as [reminder [<- _]].
           apply summarizeReminder_chatTitle.
        -- intros c -> Hne item Hin.
           apply isEmpty_false_iff in Hne.
           cbn [Reminders.optString Js.toBoolean] in Hin. rewrite Hne in Hin.
           cbn [negb] in Hin.
           apply in_map_iff in Hin. destruct Hin as [reminder [<- Hin]].
           apply filter_In in Hin. destruct Hin as [_ Heq].
           apply String.eqb_eq in Heq.
           rewrite summarizeReminder_chatId. now rewrite Heq.
Qed.

Lemma X19_list_reminders_witness :
  exists items rest,
    Reminders.data
      (ReminderList.executeListReminders (Z * string)
         (fun r => JsNumber (Int (fst r))) snd
         (fun _ => JsUndefined) (fun _ => JsUndefined) (fun _ => JsUndefined)
         (fun _ => JsUndefined) (fun _ => None)
         (Some (ReminderList.mkState (Z * string) false None
                  (Some [(1, "chat1"); (2, "chat2"); (3, "chat1")])))
         (Some "chat1"))
    = Some (JsObject
              (("reminders", JsArray items)
                 :: ("count", JsNumber (Int (Z.of_nat (List.length items))))
                 :: rest))
    /\ (forall item, In item items -> Js.get item "chatId" = JsString "chat1").
Proof.
  destruct (proj2 (X19_list_reminders (Z * string)
                     (fun r => JsNumber (Int (fst r))) snd
                     (fun _ => JsUndefined) (fun _ => JsUndefined)
                     (fun _ => JsUndefined) (fun _ => JsUndefined)
                     (fun _ => None)
                     (Some (ReminderList.mkState (Z * string) false None
                              (Some [(1, "chat1"); (2, "chat2"); (3, "chat1")])))
                     (Some "chat1")) eq_refl)
    as [items [rest [Hdata [_ Hchat]]]].
  exists items, rest. split; [exact Hdata |].
  apply (Hchat "chat1" eq_refl). discriminate.
Defined.

(** X20.  The complete and the delete executors never throw.  Each calls
    its own method of the reminder API once, with the id it was given, and
    nothing else; it reports a success exactly when the API accepted the
    call, and it dispatches one reload on a success and none on a
    failure. *)
Theorem X20_complete_and_delete :
  forall (completeApi deleteApi : JsValue -> Reminders.Outcome unit)
         (reminderId : JsValue) (w : ReminderList.ActionWorld),
    (exists r,
       ReminderList.executeCompleteReminder completeApi reminderId w
       = (Reminders.Returned r,
          ReminderList.mkActionWorld
            (("completeReminder", reminderId) :: ReminderList.calls w)
            (if Reminders.success r then S (ReminderList.refreshes w)
             else ReminderList.refreshes w))
       /\ (Reminders.success r = true
           <-> exists u, completeApi reminderId = Reminders.Returned u))
    /\ (exists r,
          ReminderList.executeDeleteReminder deleteApi reminderId w
          = (Reminders.Returned r,
             ReminderList.mkActionWorld
               (("deleteReminder", reminderId) :: ReminderList.calls w)
               (if Reminders.success r then S (ReminderList.refreshes w)
                else ReminderList.refreshes w))
          /\ (Reminders.success r = true
              <-> exists u, deleteApi reminderId = Reminders.Returned u)).
Proof.
  intros completeApi deleteApi reminderId w. split.
  - unfold ReminderList.executeCompleteReminder, ReminderList.tryAction,
      ReminderList.callAction, ReminderList.refresh.
    destruct (completeApi reminderId) as [u | e];
      cbn [ReminderList.calls ReminderList.refreshes];
      match goal with
      | |- exists r, (Reminders.Returned ?x, _) = _ /\ _ => exists x
      end;
      (split; [reflexivity |]); cbn [Reminders.success].
    + split; [intros _; now exists u | reflexivity].
    + split; [discriminate | intros [u Hu]; discriminate Hu].
  - unfold ReminderList.executeDeleteReminder, ReminderList.tryAction,
      ReminderList.callAction, ReminderList.refresh.
    destruct (deleteApi reminderId) as [u | e];
      cbn [ReminderList.calls ReminderList.refreshes];
      match goal with
      | |- exists r, (Reminders.Returned ?x, _) = _ /\ _ => exists x
      end;
      (split; [reflexivity |]); cbn [Reminders.success].
    + split; [intros _; now exists u | reflexivity].
    + split; [discriminate | intros [u Hu]; discriminate Hu].
Qed.

(** ** The CRM create form, from the search text to the data sent *)

(** X21.  For a provider without dynamic fields, the create form of a
    deal, a contact or a company starts with the search text as the value
    of its title field (title for a deal, name otherwise).  The deal form
    can be submitted at once whatever the search text, since its amount
    starts at "0"; the contact and company forms can be submitted at once
    exactly when the search text is not empty.  The data sent on submit
    have the search text under that same key when it is not empty, and no
    such key when it is. *)
Theorem X21_crm_create_flow :
  forall (entityTypeTag : ProviderEntityType -> string)
         (hasDynamicFields : string -> ProviderEntityType -> bool)
         (getFieldNamesForProvider : string -> ProviderEntityType -> list string)
         (getPropertyType : Property.t -> string -> StandardPropertyType)
         (formatSnakeCaseLabel : string -> string)
         (nowLocalISO loadLocalISO : string)
         (getPropertyLabel : list Property.t -> string -> option string)
         (getPropertyOptions : list Property.t -> string -> option FieldOptions)
         (decodeEntityId : string -> list string)
         (convertNotionPropertiesToFormFields :
            list Property.t -> JsValue -> list FormField)
         (provider : string) (entityType : ProviderEntityType)
         (properties : list PropertiesByEntityType.t)
         (initialValue : string),
    hasDynamicFields provider entityType = false ->
    entityType = Deal \/ entityType = Contact \/ entityType = Company ->
    let formFields :=
      ProviderEntityForm.formFields entityTypeTag hasDynamicFields
        getFieldNamesForProvider getPropertyType formatSnakeCaseLabel
        nowLocalISO loadLocalISO getPropertyLabel getPropertyOptions
        decodeEntityId convertNotionPropertiesToFormFields
        provider entityType None properties ProviderEntityForm.minimal None in
    let form :=
      EntityFormState.initialForm None entityType
        (CreateCrmEntityForm.initialValues entityType initialValue) formFields in
    let key := CreateCrmEntityForm.getInitialFieldName entityType in
    option_map EntityFormState.entry_value (Obj.get form key)
    = Some (Single initialValue)
    /\ (EntityFormState.isFormValid formFields form = true
        <-> entityType = Deal \/ initialValue <> "")
    /\ Obj.get (CreateCrmEntityForm.formData form) key
       = (if JsStr.isEmpty initialValue then None else Some (Single initialValue)).
Proof.
  intros tag hdf gfn gpt fmt iso loadISO gpl gpo dec conv provider entityType
    properties initialValue Hdyn Hcrm formFields form key.
  unfold form, formFields, key, ProviderEntityForm.formFields.
  rewrite Hdyn.
  destruct Hcrm as [-> | [-> | ->]];
    cbn [Forms.forms map filter ProviderEntityForm.enrich
           ProviderEntityForm.isSelectLike ProviderEntityForm.hasOptionsIfSelect
           Forms.staticField type name value
           EntityFormState.initialForm EntityFormState.reduceForm fold_left
           EntityFormState.initEntry Obj.set Obj.get
           CreateCrmEntityForm.initialValues CreateCrmEntityForm.getInitialFieldName
           EntityFormState.isFormValid existsb EntityFormState.isFilled
           EntityFormState.entry_value option_map
           CreateCrmEntityForm.formData CreateCrmEntityForm.apiKey
           Obj.fromEntries fst snd
           String.eqb Ascii.eqb Bool.eqb];
    (split; [reflexivity |]);
    destruct initialValue as [| c rest];
    cbn [JsStr.isEmpty negb orb filter map fold_left fst snd
           EntityFormState.isFilled EntityFormState.entry_value
           CreateCrmEntityForm.apiKey Obj.fromEntries Obj.set Obj.get
           String.eqb Ascii.eqb Bool.eqb];
    (split; [| try reflexivity]).
  all: try (split; [intros _; now left | reflexivity]).
  all: try (split; [intros _; right; discriminate | reflexivity]).
  all: try (split; [discriminate | intros [H | H]; [discriminate H | now contradiction H]]).
  all: destruct loadISO; reflexivity.
Qed.

Lemma X21_crm_create_flow_witness :
  Obj.get
    (CreateCrmEntityForm.formData
       (EntityFormState.initialForm None Contact
          (CreateCrmEntityForm.initialValues Contact "Acme")
          (ProviderEntityForm.formFields Samples.entityTypeTag
             Samples.hasDynamicFields
             Samples.getFieldNamesForProvider Samples.getPropertyType
             Samples.formatSnakeCaseLabel "2024-03-10T15:00" "2024-03-10T09:00"
             Samples.getPropertyLabel Samples.getPropertyOptions
             Samples.decodeEntityId Samples.convertNotionPropertiesToFormFields
             "salesforce" Contact None [] ProviderEntityForm.minimal None)))
    "name"
  = Some (Single "Acme").
Proof.
  apply (proj2 (proj2 (X21_crm_create_flow Samples.entityTypeTag
                         Samples.hasDynamicFields
                         Samples.getFieldNamesForProvider Samples.getPropertyType
                         Samples.formatSnakeCaseLabel
                         "2024-03-10T15:00" "2024-03-10T09:00"
                         Samples.getPropertyLabel Samples.getPropertyOptions
                         Samples.decodeEntityId
                         Samples.convertNotionPropertiesToFormFields
                         "salesforce" Contact [] "Acme" eq_refl
                         ltac:(right; left; reflexivity)))).
Defined.

(** ** minimalFields.ts against the templates *)

(** X22.  An entity type has minimal fields exactly when its list of
    minimal field names is not empty, and then the list has three distinct
    names.  The first of them is one of the names that sortFieldsByPriority
    puts first (title, name, subject) and names a field of the static
    template of the entity type; for a deal, a contact and a company it is
    the field that the CRM create form fills with the search text. *)
Theorem X22_minimal_fields :
  forall (loadLocalISO : string) (entityType : ProviderEntityType),
    let names := MinimalFields.getMinimalFieldsForEntity entityType in
    MinimalFields.hasMinimalFields entityType
    = negb (Nat.eqb (List.length names) 0)
    /\ List.length names
       = (if MinimalFields.hasMinimalFields entityType then 3%nat else 0%nat)
    /\ NoDup names
    /\ match names with
       | first :: _ =>
           In first Forms.titleFieldNames
           /\ (exists template field,
                 Forms.forms loadLocalISO entityType = Some template
                 /\ In field template /\ name field = first)
           /\ match entityType with
              | Deal | Contact | Company =>
                  CreateCrmEntityForm.getInitialFieldName entityType = first
              | _ => True
              end
       | [] => True
       end.
Proof.
  intros loadLocalISO entityType names. subst names.
  destruct entityType; cbn;
    (split; [reflexivity |]); (split; [reflexivity |]);
    (split;
     [repeat (constructor; [cbn; intuition discriminate |]); constructor |]);
    try exact I;
    (split; [tauto |]);
    (split; [| first [reflexivity | exact I]]);
    eexists; eexists; (split; [reflexivity |]); (split; [left; reflexivity |]);
    reflexivity.
Qed.

(** ** A change and the validity of the form *)

Section ChangeValidFacts.

Import ProviderEntityForm EntityFormState.

Lemma NoDup_names_eq (fields : list FormField) (f g : FormField) :
  NoDup (map name fields) -> In f fields -> In g fields ->
  name f = name g -> f = g.
Proof.
  induction fields as [| h fields IH]; intros Hnd Hf Hg Heq; [destruct Hf |].
  cbn [map] in Hnd. inversion Hnd as [| ? ? Hnot Hrest]; subst.
  destruct Hf as [<- | Hf]; destruct Hg as [<- | Hg].
  - reflexivity.
  - exfalso. apply Hnot. rewrite Heq. now apply in_map.
  - exfalso. apply Hnot. rewrite <- Heq. now apply in_map.
  - now apply IH.
Qed.

Lemma NoDup_names_split (l1 l2 : list FormField) (f : FormField) :
  NoDup (map name (l1 ++ f :: l2)) ->
  forall g, In g l2 -> name g <> name f.
Proof.
  intros Hnd g Hg Heq. rewrite map_app in Hnd. cbn [map] in Hnd.
  apply NoDup_remove_2 in Hnd. apply Hnd. apply in_or_app. right.
  rewrite <- Heq. now apply in_map.
Qed.

Lemma resetValue_multiselect (f : FormField) (v : FieldValue) :
  type f = multiselect -> exists l, resetValue f v = Many l.
Proof.
  intros Ht. unfold resetValue. rewrite Ht.
  destruct (options f) as [[l | m] |]; try (now exists []).
  destruct (JsStr.isEmpty _); eexists; reflexivity.
Qed.

End ChangeValidFacts.

(** X23.  With fields of distinct names, a change makes the form valid
    in two cases: when it gives a field, which does not depend on itself, a
    value other than the empty string; and when a multiselect field depends
    on the changed field, whatever the new value is - the multiselect field
    is reset to a sequence, and a sequence, even an empty one, counts as
    filled. *)
Theorem X23_change_and_validity :
  forall (formFields : list FormField) (form : EntityFormState.Form)
         (key : string) (v : FieldValue),
    NoDup (map name formFields) ->
    let updated := EntityFormState.handleChange formFields form key v in
    (forall f, In f formFields -> name f = key ->
               EntityFormState.resetsOn key f = false ->
               v <> Single "" ->
               EntityFormState.isFormValid formFields updated = true)
    /\ (forall f, In f formFields ->
                  EntityFormState.resetsOn key f = true ->
                  type f = multiselect ->
                  EntityFormState.isFormValid formFields updated = true).
Proof.
  intros formFields form key v Hnd updated. split.
  - intros f Hf Hname Hself Hv.
    unfold EntityFormState.isFormValid. apply existsb_exists.
    exists f. split; [exact Hf |].
    unfold updated, EntityFormState.handleChange.
    rewrite Hname, fold_resetStep_get_other.
    + rewrite get_set_same. unfold EntityFormState.isFilled,
        EntityFormState.withValue. cbn [EntityFormState.entry_value].
      destruct v as [s | l]; [| reflexivity].
      apply negb_true_iff, isEmpty_false_iff. congruence.
    + intros g Hg Hreset Heq.
      assert (g = f) by (apply (NoDup_names_eq formFields); congruence).
      congruence.
  - intros f Hf Hreset Hmulti.
    unfold EntityFormState.isFormValid. apply existsb_exists.
    exists f. split; [exact Hf |].
    destruct (in_split _ _ Hf) as [l1 [l2 Hsplit]].
    assert (Hval :
              option_map EntityFormState.entry_value
                (Obj.get updated (name f))
              = Some (EntityFormState.resetValue f v)).
    { unfold updated, EntityFormState.handleChange.
      rewrite Hsplit, fold_left_app. cbn [fold_left].
      rewrite fold_resetStep_get_other.
      - now apply resetStep_get_reset.
      - intros g Hg _. apply (NoDup_names_split l1 l2 f); [| exact Hg].
        now rewrite <- Hsplit. }
    destruct (resetValue_multiselect f v Hmulti) as [l Hl].
    rewrite Hl in Hval.
    destruct (Obj.get updated (name f)) as [e |]; [| discriminate Hval].
    cbn [option_map] in Hval. injection Hval as Hval.
    unfold EntityFormState.isFilled. now rewrite Hval.
Qed.

Lemma X23_change_and_validity_witness :
  EntityFormState.isFormValid
    [Samples.pipeline; Samples.field "tags" multiselect (Some "pipeline")]
    (EntityFormState.handleChange
       [Samples.pipeline; Samples.field "tags" multiselect (Some "pipeline")]
       [] "pipeline" (Single ""))
  = true.
Proof.
  apply (proj2 (X23_change_and_validity
                  [Samples.pipeline;
                   Samples.field "tags" multiselect (Some "pipeline")]
                  [] "pipeline" (Single "")
                  ltac:(repeat (constructor; [simpl; intuition discriminate |]);
                        constructor))
           (Samples.field "tags" multiselect (Some "pipeline"))
           ltac:(right; left; reflexivity) eq_refl eq_refl).
Defined.
